(** * Homomorphic Battleship: a shallow embedding of [battleship.py]

    The first part follows the Python module top to bottom: the Python
    primitives the game relies on (list indexing, [range], the [random]
    module), the SEAL/BFV wrapper [SealBFVCrypto], the plaintext [Board]
    with placement and shot registration, the [Player], and the arbiter
    [Server.process_guess].  Python integers are unbounded, hence [Z];
    lists are [list]; an exception is an explicit outcome; the hidden state
    of the random generators is an explicit world threaded through the
    calls.  SEAL itself is outside the module and enters as a record of
    operations with a stated contract.

    The second part fixes the vocabulary of the statements, the third part
    proves them. *)

From Stdlib Require Import ZArith Lia.
From stdpp Require Import base list strings relations pretty.

Local Open Scope Z_scope.

(** ** Python primitives *)

(** The exceptions the module can raise on its own: an index outside a list
    and [random.randrange] on an empty range. *)
Inductive exn : Type :=
  | IndexError
  | ValueError.

(** What a call ends with: a value, a raised exception, or (for the
    rejection-sampling loop only) the loop bound reached before the loop
    was left. *)
Inductive outcome (A : Type) : Type :=
  | Ok (a : A)
  | Raise (e : exn)
  | Unfinished.

Arguments Ok {A} a.
Arguments Raise {A} e.
Arguments Unfinished {A}.

Definition outcome_bind {A B} (f : A -> outcome B) (m : outcome A) : outcome B :=
  match m with
  | Ok a => f a
  | Raise e => Raise e
  | Unfinished => Unfinished
  end.

#[global] Instance outcome_ret : MRet outcome := @Ok.
#[global] Instance outcome_mbind : MBind outcome := @outcome_bind.

Module Py.

(** [range(n)] for an integer [n]; empty when [n <= 0]. *)
Definition range (n : Z) : list Z := seqZ 0 n.

(** [[x] * n]. *)
Definition repeat {A} (x : A) (n : Z) : list A := replicate (Z.to_nat n) x.

(** The position a Python index denotes in a list of length [len]:
    [0 .. len-1] as they are, [-len .. -1] counted from the end, anything
    else is out of range. *)
Definition norm_index (len i : Z) : option nat :=
  if (0 <=? i) && (i <? len) then Some (Z.to_nat i)
  else if (i <? 0) && (- len <=? i) then Some (Z.to_nat (len + i))
  else None.

(** [l[i]] *)
Definition getitem {A} (l : list A) (i : Z) : outcome A :=
  match norm_index (Z.of_nat (length l)) i with
  | Some n =>
      match l !! n with
      | Some a => Ok a
      | None => Raise IndexError
      end
  | None => Raise IndexError
  end.

(** [l[i] = a] *)
Definition setitem {A} (l : list A) (i : Z) (a : A) : outcome (list A) :=
  match norm_index (Z.of_nat (length l)) i with
  | Some n => Ok (<[n := a]> l)
  | None => Raise IndexError
  end.

(** [g[x][y]] on a list of rows. *)
Definition getitem2 {A} (g : list (list A)) (x y : Z) : outcome A :=
  row ← getitem g x; getitem row y.

(** [g[x][y] = a]: the row object [g[x]] is updated in place.  Every grid
    of the module is built by a comprehension that creates one fresh row
    per index, so no two rows are the same object and the update is seen
    through [g[x]] only.  Boards with shared rows are treated apart, as
    objects ([BoardObj]); [register_shot_refines] relates the two. *)
Definition setitem2 {A} (g : list (list A)) (x y : Z) (a : A)
  : outcome (list (list A)) :=
  row ← getitem g x; row' ← setitem row y a; setitem g x row'.

End Py.

(** ** Game constants *)

Definition BOARD_SIZE : Z := 10.
Definition SHIP_SIZES : list Z := [5; 4; 3; 2; 2].

(** ** Board *)

Record Board : Type := mkBoard {
  size : Z;
  grid : list (list Z);
  hits : list (list bool);
  total_ship_cells : Z;
  hits_count : Z
}.

(** [Board()]: the dataclass defaults. *)
Definition Board_default : Board :=
  {| size := BOARD_SIZE;
     grid := (fun _ => Py.repeat 0 BOARD_SIZE) <$> Py.range BOARD_SIZE;
     hits := (fun _ => Py.repeat false BOARD_SIZE) <$> Py.range BOARD_SIZE;
     total_ship_cells := 0;
     hits_count := 0 |}.

Definition set_hits (b : Board) (h : list (list bool)) : Board :=
  {| size := size b; grid := grid b; hits := h;
     total_ship_cells := total_ship_cells b; hits_count := hits_count b |}.

Definition set_grid (b : Board) (g : list (list Z)) : Board :=
  {| size := size b; grid := g; hits := hits b;
     total_ship_cells := total_ship_cells b; hits_count := hits_count b |}.

Definition set_hits_count (b : Board) (n : Z) : Board :=
  {| size := size b; grid := grid b; hits := hits b;
     total_ship_cells := total_ship_cells b; hits_count := n |}.

Definition set_total_ship_cells (b : Board) (n : Z) : Board :=
  {| size := size b; grid := grid b; hits := hits b;
     total_ship_cells := n; hits_count := hits_count b |}.

(** [Board.register_shot]: the returned pair is the method's return value
    and the board after the call. *)
Definition register_shot (b : Board) (x y : Z) (hit : bool)
  : outcome (bool * Board) :=
  already ← Py.getitem2 (hits b) x y;
  if already : bool then Ok (false, b)
  else
    hits' ← Py.setitem2 (hits b) x y true;
    let b1 := set_hits b hits' in
    let b2 := if hit then set_hits_count b1 (hits_count b1 + 1) else b1 in
    Ok (true, b2).

(** [Board.all_sunk] *)
Definition all_sunk (b : Board) : bool :=
  total_ship_cells b <=? hits_count b.

(** ** The world outside the game objects

    Two sources of randomness are hidden state in the Python program: the
    global generator of the [random] module and the generator SEAL uses
    when it encrypts.  Each is a stream of raw draws, consumed from the
    front.  [seal_calls] is ghost state: the list of SEAL operations
    performed so far, most recent first. *)

Inductive seal_call : Type :=
  | CallEncodeInt (vec : list Z)
  | CallDecodeInt
  | CallEncrypt
  | CallDecrypt
  | CallMultiplyPlain.

Record World : Type := mkWorld {
  py_random : nat -> Z;
  seal_random : nat -> Z;
  seal_calls : list seal_call
}.

(** Computations that read and advance the world and may raise. *)
Definition M (A : Type) : Type := World -> outcome (A * World).

Definition M_ret {A} (a : A) : M A := fun w => Ok (a, w).

Definition M_bind {A B} (f : A -> M B) (m : M A) : M B :=
  fun w =>
    match m w with
    | Ok (a, w') => f a w'
    | Raise e => Raise e
    | Unfinished => Unfinished
    end.

#[global] Instance M_mret : MRet M := @M_ret.
#[global] Instance M_mbind : MBind M := @M_bind.

(** A call that does not touch the world. *)
Definition lift {A} (o : outcome A) : M A :=
  fun w =>
    match o with
    | Ok a => Ok (a, w)
    | Raise e => Raise e
    | Unfinished => Unfinished
    end.

Definition log_call (c : seal_call) : M unit :=
  fun w =>
    Ok (tt, {| py_random := py_random w; seal_random := seal_random w;
               seal_calls := c :: seal_calls w |}).

(** The next draw of SEAL's own generator. *)
Definition seal_draw : M Z :=
  fun w =>
    Ok (seal_random w 0%nat,
        {| py_random := py_random w;
           seal_random := fun n => seal_random w (S n);
           seal_calls := seal_calls w |}).

Module Random.

(** The next raw draw of the [random] module. *)
Definition raw : M Z :=
  fun w =>
    Ok (py_random w 0%nat,
        {| py_random := fun n => py_random w (S n);
           seal_random := seal_random w;
           seal_calls := seal_calls w |}).

(** [random.randrange(n)]: an element of [range(n)], [ValueError] when the
    range is empty. *)
Definition randrange (n : Z) : M Z :=
  if n <=? 0 then lift (Raise ValueError)
  else k ← raw; mret (k mod n).

(** [random.randint(a, b)] is [a + randrange(b - a + 1)]. *)
Definition randint (a b : Z) : M Z :=
  k ← randrange (b - a + 1); mret (a + k).

(** [random.choice(seq)] *)
Definition choice {A} (seq : list A) : M A :=
  match seq with
  | [] => lift (Raise IndexError)
  | _ => i ← randrange (Z.of_nat (length seq)); lift (Py.getitem seq i)
  end.

End Random.

(** ** SEAL BFV wrapper *)

(** The objects a [SealBFVCrypto] instance holds after [__init__], as the
    operations the game calls on them.  Keys and parameters are fixed at
    construction and live inside the operations.  Encryption is randomised:
    its second argument is the draw it takes from SEAL's generator. *)
Record SealBFVCrypto : Type := mkCrypto {
  plaintext : Type;
  ciphertext : Type;
  encoder_encode_int : list Z -> plaintext;
  encoder_decode_int : plaintext -> list Z;
  encryptor_encrypt : plaintext -> Z -> ciphertext;
  decryptor_decrypt : ciphertext -> plaintext;
  evaluator_multiply_plain : ciphertext -> plaintext -> ciphertext
}.

Module Seal.

Definition encode_int (C : SealBFVCrypto) (vec : list Z) : M (plaintext C) :=
  _ ← log_call (CallEncodeInt vec); mret (encoder_encode_int C vec).

Definition decode_int (C : SealBFVCrypto) (pt : plaintext C) : M (list Z) :=
  _ ← log_call CallDecodeInt; mret (encoder_decode_int C pt).

Definition encrypt (C : SealBFVCrypto) (pt : plaintext C) : M (ciphertext C) :=
  _ ← log_call CallEncrypt;
  s ← seal_draw;
  mret (encryptor_encrypt C pt s).

Definition decrypt (C : SealBFVCrypto) (ct : ciphertext C) : M (plaintext C) :=
  _ ← log_call CallDecrypt; mret (decryptor_decrypt C ct).

Definition multiply_plain (C : SealBFVCrypto) (ct : ciphertext C)
    (pt : plaintext C) : M (ciphertext C) :=
  _ ← log_call CallMultiplyPlain; mret (evaluator_multiply_plain C ct pt).

End Seal.

(** [SealBFVCrypto.encrypt_int] *)
Definition encrypt_int (C : SealBFVCrypto) (value : Z) : M (ciphertext C) :=
  pt ← Seal.encode_int C [value]; Seal.encrypt C pt.

(** [SealBFVCrypto.decrypt_first] *)
Definition decrypt_first (C : SealBFVCrypto) (ct : ciphertext C) : M Z :=
  pt ← Seal.decrypt C ct;
  vec ← Seal.decode_int C pt;
  lift (Py.getitem vec 0).

(** [SealBFVCrypto.blind_multiply_random] *)
Definition blind_multiply_random (C : SealBFVCrypto) (ct : ciphertext C)
  : M (ciphertext C) :=
  r ← Random.randint 1 100;
  pt_r ← Seal.encode_int C [r];
  Seal.multiply_plain C ct pt_r.

(** ** Board placement *)

(** [all(self.grid[r][c] == 0 for (r, c) in cells)]: the generator is
    consumed left to right and [all] stops at the first false element. *)
Fixpoint all_free (g : list (list Z)) (cells : list (Z * Z)) : outcome bool :=
  match cells with
  | [] => Ok true
  | (r, c) :: rest =>
      v ← Py.getitem2 g r c;
      if v =? 0 then all_free g rest else Ok false
  end.

(** [for (r, c) in cells: self.grid[r][c] = ship_id] *)
Fixpoint stamp (g : list (list Z)) (cells : list (Z * Z)) (ship_id : Z)
  : outcome (list (list Z)) :=
  match cells with
  | [] => Ok g
  | (r, c) :: rest =>
      g' ← Py.setitem2 g r c ship_id;
      stamp g' rest ship_id
  end.

(** The cells [(row, col+i)] resp. [(row+i, col)] for [i in range(length)]. *)
Definition cells_H (row col length : Z) : list (Z * Z) :=
  (fun i => (row, col + i)) <$> Py.range length.

Definition cells_V (row col length : Z) : list (Z * Z) :=
  (fun i => (row + i, col)) <$> Py.range length.

(** The loop [while not placed] for one ship.  [fuel] bounds the number of
    rejected samples; a run that has not placed the ship within the bound
    is [Unfinished]. *)
Fixpoint place_ship (fuel : nat) (length ship_id : Z) (b : Board) : M Board :=
  match fuel with
  | O => fun _ => Unfinished
  | S fuel' =>
      orientation ← Random.choice ["H"; "V"]%string;
      cells ←
        (if String.eqb orientation "H" then
           row ← Random.randrange (size b);
           col ← Random.randrange (size b - length + 1);
           mret (cells_H row col length)
         else
           row ← Random.randrange (size b - length + 1);
           col ← Random.randrange (size b);
           mret (cells_V row col length));
      free ← lift (all_free (grid b) cells);
      if free : bool then
        g' ← lift (stamp (grid b) cells ship_id);
        mret (set_grid b g')
      else place_ship fuel' length ship_id b
  end.

(** The loop [for length in sizes], with the running [ship_id]. *)
Fixpoint place_ships (fuel : nat) (sizes : list Z) (ship_id : Z) (b : Board)
  : M Board :=
  match sizes with
  | [] => mret b
  | length :: rest =>
      b1 ← place_ship fuel length ship_id b;
      let b2 := set_total_ship_cells b1 (total_ship_cells b1 + length) in
      place_ships fuel rest (ship_id + 1) b2
  end.

(** The four resetting assignments at the head of [place_ships_random]. *)
Definition reset_board (b : Board) : Board :=
  {| size := size b;
     grid := (fun _ => Py.repeat 0 (size b)) <$> Py.range (size b);
     hits := (fun _ => Py.repeat false (size b)) <$> Py.range (size b);
     total_ship_cells := 0;
     hits_count := 0 |}.

(** [Board.place_ships_random] *)
Definition place_ships_random (fuel : nat) (b : Board) : M Board :=
  place_ships fuel SHIP_SIZES 1 (reset_board b).

(** ** Player *)

Record Player : Type := mkPlayer {
  name : string;
  crypto : SealBFVCrypto;
  board : Board;
  enc_board : list (list (ciphertext crypto));
  points : Z
}.

(** [Player(name, crypto, board)] *)
Definition Player_new (n : string) (C : SealBFVCrypto) (b : Board) : Player :=
  {| name := n; crypto := C; board := b; enc_board := []; points := 0 |}.

Definition set_enc_board (p : Player) (e : list (list (ciphertext (crypto p))))
  : Player :=
  {| name := name p; crypto := crypto p; board := board p;
     enc_board := e; points := points p |}.

Definition set_board (p : Player) (b : Board) : Player :=
  {| name := name p; crypto := crypto p; board := b;
     enc_board := enc_board p; points := points p |}.

(** [Player.encrypt_board]: the nested comprehension runs row by row and,
    inside a row, column by column. *)
Definition encrypt_board (p : Player) : M Player :=
  rows ← mapM (fun r =>
            mapM (fun c =>
                    v ← lift (Py.getitem2 (grid (board p)) r c);
                    encrypt_int (crypto p) v)
                 (Py.range (size (board p))))
          (Py.range (size (board p)));
  mret (set_enc_board p rows).

(** ** Server *)

(** [Server.process_guess]: the returned pair is the method's return value
    and the defender after the call ([attacker] is not used by the
    method). *)
Definition process_guess (attacker defender : Player) (x y : Z)
  : M (bool * Player) :=
  already ← lift (Py.getitem2 (hits (board defender)) x y);
  if already : bool then mret (false, defender)
  else
    c_cell ← lift (Py.getitem2 (enc_board defender) x y);
    c_blind ← blind_multiply_random (crypto defender) c_cell;
    m_blind ← decrypt_first (crypto defender) c_blind;
    let hit := negb (m_blind =? 0) in
    shot ← lift (register_shot (board defender) x y hit);
    mret (hit, set_board defender shot.2).

(** * Specification vocabulary *)

(** ** Shapes, coordinates and counting *)

(** A square grid of side [n]: [n] rows of [n] cells. *)
Definition shape {A} (n : Z) (g : list (list A)) : Prop :=
  length g = Z.to_nat n /\ Forall (fun row => length row = Z.to_nat n) g.

Definition in_grid (n : Z) (rc : Z * Z) : Prop :=
  (0 <= rc.1 < n) /\ (0 <= rc.2 < n).

(** All coordinates of a board of side [n], row by row. *)
Definition coords (n : Z) : list (Z * Z) :=
  r ← Py.range n; c ← Py.range n; [(r, c)].

Fixpoint count_if {A} (f : A -> bool) (l : list A) : Z :=
  match l with
  | [] => 0
  | x :: l' => (if f x then 1 else 0) + count_if f l'
  end.

Definition sum_list (l : list Z) : Z := foldr Z.add 0 l.

(** [grid[r][c] == v], false when the index is out of range. *)
Definition cell_is (g : list (list Z)) (v : Z) (rc : Z * Z) : bool :=
  match Py.getitem2 g rc.1 rc.2 with
  | Ok u => u =? v
  | _ => false
  end.

(** [grid[r][c] != 0] *)
Definition ship_at (g : list (list Z)) (rc : Z * Z) : bool :=
  match Py.getitem2 g rc.1 rc.2 with
  | Ok u => negb (u =? 0)
  | _ => false
  end.

(** [hits[r][c]] *)
Definition shot_at (h : list (list bool)) (rc : Z * Z) : bool :=
  match Py.getitem2 h rc.1 rc.2 with
  | Ok u => u
  | _ => false
  end.

(** Number of cells with [grid[r][c] != 0]. *)
Definition ship_count (b : Board) : Z :=
  count_if (ship_at (grid b)) (coords (size b)).

(** Number of cells with [grid[r][c] != 0] and [hits[r][c]]. *)
Definition hit_ship_count (b : Board) : Z :=
  count_if (fun rc => ship_at (grid b) rc && shot_at (hits b) rc)
           (coords (size b)).

(** Number of cells stamped with a given ship id. *)
Definition id_count (b : Board) (ship_id : Z) : Z :=
  count_if (cell_is (grid b) ship_id) (coords (size b)).

(** ** Ships as segments *)

(** A straight run of [len] cells from the anchor [(row, col)], to the right
    when [horizontal] and downwards otherwise. *)
Definition on_segment (horizontal : bool) (row col len : Z) (rc : Z * Z) : Prop :=
  if horizontal then rc.1 = row /\ col <= rc.2 < col + len
  else rc.2 = col /\ row <= rc.1 < row + len.

Definition segment_inside (n : Z) (horizontal : bool) (row col len : Z) : Prop :=
  0 <= row /\ 0 <= col /\
  if horizontal then row < n /\ col + len <= n
  else row + len <= n /\ col < n.

(** The cells a sampled placement covers. *)
Definition cells_of (horizontal : bool) (row col len : Z) : list (Z * Z) :=
  if horizontal then cells_H row col len else cells_V row col len.

(** The cells stamped [ship_id] are exactly a straight run of [len] cells
    inside the board. *)
Definition ship_is_segment (b : Board) (ship_id len : Z) : Prop :=
  exists horizontal row col,
    segment_inside (size b) horizontal row col len /\
    forall rc, in_grid (size b) rc ->
      (Py.getitem2 (grid b) rc.1 rc.2 = Ok ship_id <->
       on_segment horizontal row col len rc).

(** ** Board states *)

(** Both grids of the board have the board's side. *)
Definition well_shaped (b : Board) : Prop :=
  0 <= size b /\ shape (size b) (grid b) /\ shape (size b) (hits b).

(** Every cell holds a value in [0 .. bound-1]. *)
Definition values_below (b : Board) (bound : Z) : Prop :=
  forall rc, in_grid (size b) rc ->
    exists v, Py.getitem2 (grid b) rc.1 rc.2 = Ok v /\ 0 <= v < bound.

(** A board right after placement: nothing shot yet, and the ship-cell
    total agrees with the grid. *)
Definition placed (b : Board) : Prop :=
  well_shaped b /\
  (forall rc, in_grid (size b) rc -> Py.getitem2 (hits b) rc.1 rc.2 = Ok false) /\
  hits_count b = 0 /\
  total_ship_cells b = ship_count b.

(** What one accepted sample of [place_ship] did to the board. *)
Definition placed_on (b b' : Board) (len ship_id : Z) : Prop :=
  exists horizontal row col,
    segment_inside (size b) horizontal row col len /\
    (forall rc, on_segment horizontal row col len rc ->
       Py.getitem2 (grid b) rc.1 rc.2 = Ok 0 /\
       Py.getitem2 (grid b') rc.1 rc.2 = Ok ship_id) /\
    (forall rc, in_grid (size b) rc -> ~ on_segment horizontal row col len rc ->
       Py.getitem2 (grid b') rc.1 rc.2 = Py.getitem2 (grid b) rc.1 rc.2) /\
    shape (size b) (grid b') /\
    size b' = size b /\ hits b' = hits b /\
    total_ship_cells b' = total_ship_cells b /\
    hits_count b' = hits_count b.

(** The board a first shot at a cell leaves behind, [h'] being the overlay
    with the cell marked. *)
Definition shot_board (b : Board) (h' : list (list bool)) (hit : bool) : Board :=
  {| size := size b; grid := grid b; hits := h';
     total_ship_cells := total_ship_cells b;
     hits_count := hits_count b + (if hit then 1 else 0) |}.

(** ** The library contract *)

(** The slots the defender decodes after the ciphertext of [v], made with
    SEAL draw [s], was multiplied by the encoding of [r]. *)
Definition blinded_slots (C : SealBFVCrypto) (v r s : Z) : list Z :=
  encoder_decode_int C
    (decryptor_decrypt C
       (evaluator_multiply_plain C
          (encryptor_encrypt C (encoder_encode_int C [v]) s)
          (encoder_encode_int C [r]))).

(** Slot 0 is [r * v] exactly. *)
Definition contract_exact (C : SealBFVCrypto) : Prop :=
  forall v r s, head (blinded_slots C v r s) = Some (r * v).

(** Slot 0 is [r * v] reduced modulo the plaintext modulus [t]. *)
Definition contract_mod (C : SealBFVCrypto) (t : Z) : Prop :=
  forall v r s, head (blinded_slots C v r s) = Some ((r * v) mod t).

(** [__init__] asks for a 32-bit plaintext modulus:
    [PlainModulus.batching(DegreeType(8192), 32)]. *)
Definition PLAIN_MODULUS_BITS : Z := 32.

Definition plain_modulus (t : Z) : Prop :=
  2 ^ (PLAIN_MODULUS_BITS - 1) <= t < 2 ^ PLAIN_MODULUS_BITS.

(** [ct] is an encryption of the scalar [v]. *)
Definition encrypts (C : SealBFVCrypto) (ct : ciphertext C) (v : Z) : Prop :=
  exists s, ct = encryptor_encrypt C (encoder_encode_int C [v]) s.

(** Every cell of the encrypted board encrypts the plaintext cell. *)
Definition enc_consistent (p : Player) : Prop :=
  forall rc, in_grid (size (board p)) rc ->
    exists v ct,
      Py.getitem2 (grid (board p)) rc.1 rc.2 = Ok v /\
      Py.getitem2 (enc_board p) rc.1 rc.2 = Ok ct /\
      encrypts (crypto p) ct v.

(** ** The blind-and-reveal round, in closed form *)

(** The scalar [blind_multiply_random] draws in world [w]. *)
Definition blind_scalar (w : World) : Z := 1 + py_random w 0%nat mod 100.

(** The world after [blind_multiply_random]: one draw taken from [random],
    one encoding and one plain multiplication recorded. *)
Definition after_blind (w : World) : World :=
  {| py_random := fun n => py_random w (S n);
     seal_random := seal_random w;
     seal_calls :=
       CallMultiplyPlain :: CallEncodeInt [blind_scalar w] :: seal_calls w |}.

(** The world after [decrypt_first]: a decryption and a decoding recorded. *)
Definition after_decrypt (w : World) : World :=
  {| py_random := py_random w;
     seal_random := seal_random w;
     seal_calls := CallDecodeInt :: CallDecrypt :: seal_calls w |}.

(** What the defender decodes for the ciphertext [ct] blinded in [w]. *)
Definition revealed_slots (C : SealBFVCrypto) (ct : ciphertext C) (w : World)
  : list Z :=
  encoder_decode_int C
    (decryptor_decrypt C
       (evaluator_multiply_plain C ct (encoder_encode_int C [blind_scalar w]))).

(** ** Sequences of shots *)

(** One call of the arbiter on a defender, by any attacker and in any state
    of the world, that returns.  A call that raises does so while indexing,
    before the only assignments of the round (those of [register_shot]), so
    it leaves the defender as it was and is no step. *)
Inductive shot_step : Player -> Player -> Prop :=
  | shot_step_intro (attacker d d' : Player) (x y : Z) (w w' : World) (hit : bool) :
      process_guess attacker d x y w = Ok ((hit, d'), w') ->
      shot_step d d'.

(** One direct call of [register_shot] that returns. *)
Inductive direct_step : Board -> Board -> Prop :=
  | direct_step_intro (b b' : Board) (x y : Z) (hit ret : bool) :
      register_shot b x y hit = Ok (ret, b') ->
      direct_step b b'.

(** The guesses of a list, made one after the other on the same defender. *)
Fixpoint play (attacker d : Player) (shots : list (Z * Z)) : M Player :=
  match shots with
  | [] => mret d
  | (x, y) :: rest =>
      r ← process_guess attacker d x y;
      play attacker r.2 rest
  end.

(** The state a defender is in during a game. *)
Definition in_play (p : Player) : Prop :=
  well_shaped (board p) /\
  shape (size (board p)) (enc_board p) /\
  enc_consistent p /\
  values_below (board p) 6 /\
  total_ship_cells (board p) = ship_count (board p) /\
  hits_count (board p) = hit_ship_count (board p).

(** ** Reference back-ends and sample games

    Transparent stand-ins for SEAL used to run the game inside Rocq: a
    ciphertext is the plaintext scalar next to the draw that made it. *)

Definition ToyExact : SealBFVCrypto :=
  {| plaintext := list Z;
     ciphertext := Z * Z;
     encoder_encode_int := fun vec => vec;
     encoder_decode_int := fun pt => pt;
     encryptor_encrypt := fun pt s => (default 0 (head pt), s);
     decryptor_decrypt := fun ct => [ct.1];
     evaluator_multiply_plain := fun ct pt => (default 0 (head pt) * ct.1, ct.2) |}.

Definition ToyMod (t : Z) : SealBFVCrypto :=
  {| plaintext := list Z;
     ciphertext := Z * Z;
     encoder_encode_int := fun vec => (fun v => v mod t) <$> vec;
     encoder_decode_int := fun pt => pt;
     encryptor_encrypt := fun pt s => (default 0 (head pt), s);
     decryptor_decrypt := fun ct => [ct.1];
     evaluator_multiply_plain :=
       fun ct pt => ((default 0 (head pt) * ct.1) mod t, ct.2) |}.

(** A 32-bit modulus for [ToyMod]. *)
Definition TOY_MODULUS : Z := 4293918721.

(** A world whose [random] generator always delivers [k]. *)
Definition const_world (k : Z) : World :=
  {| py_random := fun _ => k; seal_random := fun _ => 0; seal_calls := [] |}.

(** A world whose [random] generator delivers the given draws and then
    zeros. *)
Definition list_world (draws : list Z) : World :=
  {| py_random := fun n => default 0 (draws !! n);
     seal_random := fun _ => 0;
     seal_calls := [] |}.

Definition value_or {A} (d : A) (o : outcome (A * World)) : A :=
  match o with
  | Ok (a, _) => a
  | _ => d
  end.

Definition returns {A} (o : outcome A) : bool :=
  match o with
  | Ok _ => true
  | _ => false
  end.

(** A board with a single ship of length 2 on row 0, columns 0 and 1. *)
Definition demo_board : Board :=
  value_or Board_default
    (place_ships 1 [2] 1 (reset_board Board_default) (const_world 0)).

(** The same board after a direct shot at [(0, 0)]. *)
Definition demo_board_shot : Board :=
  match register_shot demo_board 0 0 true with
  | Ok (_, b) => b
  | _ => demo_board
  end.

(** A full fleet, placed by [place_ships_random] from fixed draws. *)
Definition fleet_draws : list Z :=
  [0; 0; 0; 1; 0; 0; 1; 1; 1; 0; 9; 8; 1; 8; 9; 1; 8; 9; 1; 5; 5].

Definition fleet_board : Board :=
  value_or Board_default
    (place_ships_random 3 Board_default (list_world fleet_draws)).

(** The player [Player(name, C, b)] after [encrypt_board]. *)
Definition sealed_player (C : SealBFVCrypto) (b : Board) : Player :=
  value_or (Player_new "Bob (Computer)" C b)
    (encrypt_board (Player_new "Bob (Computer)" C b) (const_world 0)).

(** The full fleet after three shots into the five-cell ship, one into
    water and one repeated. *)
Definition fleet_after : Player :=
  value_or (sealed_player (ToyMod TOY_MODULUS) fleet_board)
    (play (sealed_player (ToyMod TOY_MODULUS) fleet_board)
          (sealed_player (ToyMod TOY_MODULUS) fleet_board)
          [(0, 0); (0, 1); (7, 7); (0, 1); (0, 2)]
          (const_world 12)).

(** The single-ship board after both cells of the ship were hit, with a
    miss in between. *)
Definition demo_after : Player :=
  value_or (sealed_player (ToyMod TOY_MODULUS) demo_board)
    (play (sealed_player (ToyMod TOY_MODULUS) demo_board)
          (sealed_player (ToyMod TOY_MODULUS) demo_board)
          [(0, 0); (5, 5); (0, 1)]
          (const_world 12)).

(** ** Proof tools *)

Ltac unfold_bind :=
  unfold mbind, mret, outcome_mbind, outcome_ret, outcome_bind,
    M_mbind, M_mret, M_bind, M_ret, lift in *.

(** * The rest of the module: console, guess sources, game loop *)

(** ** Console and interactive computations *)

(** The terminal: the input lines not yet read, and the chunks written so
    far, most recent first.  [print(s)] writes [s] and a newline,
    [input(prompt)] writes the prompt. *)
Record Console : Type := mkConsole {
  stdin : list string;
  stdout : list string
}.

(** What can leave an interactive call: the exceptions of the game code,
    the [KeyboardInterrupt] the input reader raises on [q], and the
    [EOFError] of [input] at the end of the input. *)
Inductive pyexc : Type :=
  | PyExn (e : exn)
  | KeyboardInterrupt
  | EOFError.

(** A raised exception keeps what was written before it. *)
Inductive ioresult (A : Type) : Type :=
  | Returned (a : A) (w : World) (c : Console)
  | Raised (e : pyexc) (c : Console)
  | Diverged.

Arguments Returned {A} a w c.
Arguments Raised {A} e c.
Arguments Diverged {A}.

Definition IO (A : Type) : Type := World -> Console -> ioresult A.

Definition IO_ret {A} (a : A) : IO A := fun w c => Returned a w c.

Definition IO_bind {A B} (f : A -> IO B) (m : IO A) : IO B :=
  fun w c =>
    match m w c with
    | Returned a w' c' => f a w' c'
    | Raised e c' => Raised e c'
    | Diverged => Diverged
    end.

#[global] Instance IO_mret : MRet IO := @IO_ret.
#[global] Instance IO_mbind : MBind IO := @IO_bind.

(** A call of the game code, which writes nothing. *)
Definition liftM {A} (m : M A) : IO A :=
  fun w c =>
    match m w with
    | Ok (a, w') => Returned a w' c
    | Raise e => Raised (PyExn e) c
    | Unfinished => Diverged
    end.

Definition raise_io {A} (e : pyexc) : IO A := fun _ c => Raised e c.

Definition write (s : string) : IO unit :=
  fun w c => Returned tt w {| stdin := stdin c; stdout := s :: stdout c |}.

(** The newline character. *)
Definition NL : string :=
  String (Ascii.Ascii false true false true false false false false) EmptyString.

(** [print(s)] *)
Definition print (s : string) : IO unit := write (s +:+ NL).

(** The next line of the input, [EOFError] when there is none. *)
Definition read_line : IO string :=
  fun w c =>
    match stdin c with
    | [] => Raised EOFError c
    | line :: rest => Returned line w {| stdin := rest; stdout := stdout c |}
    end.

(** [input(prompt)] *)
Definition input (prompt : string) : IO string :=
  _ ← write prompt; read_line.

(** [try: m except KeyboardInterrupt: ...], the handler's body left to the
    caller: [None] stands for the interrupt.  The one call that raises it,
    [get_human_guess], does not touch the world. *)
Definition catching_interrupt {A} (m : IO A) : IO (option A) :=
  fun w c =>
    match m w c with
    | Returned a w' c' => Returned (Some a) w' c'
    | Raised KeyboardInterrupt c' => Returned None w c'
    | Raised e c' => Raised e c'
    | Diverged => Diverged
    end.

(** [str(n)] for an integer. *)
Definition str (n : Z) : string := pretty n.

(** [for a in l: body(a)] *)
Fixpoint for_each {A} (l : list A) (body : A -> IO unit) : IO unit :=
  match l with
  | [] => mret tt
  | a :: rest => _ ← body a; for_each rest body
  end.

(** The three built-ins the input reader applies to a line: [str.strip],
    [str.lower] and [int], the last giving [None] where Python raises
    [ValueError]. *)
Record PyBuiltins : Type := mkBuiltins {
  str_strip : string -> string;
  str_lower : string -> string;
  int_of_str : string -> option Z
}.

(** ** Display *)

(** The symbol of one cell, with the reads in the order of the [if] chain:
    [and] reads [hits] only when the grid cell is non-zero. *)
Definition cell_symbol (board : Board) (r c : Z) : outcome string :=
  g ← Py.getitem2 (grid board) r c;
  h ← (if negb (g =? 0) then Py.getitem2 (hits board) r c else Ok false);
  if negb (g =? 0) && h then Ok "H"%string
  else
    g2 ← Py.getitem2 (grid board) r c;
    if negb (g2 =? 0) then Ok "S"%string
    else
      h2 ← Py.getitem2 (hits board) r c;
      if h2 : bool then Ok "X"%string else Ok "."%string.

Definition lift_io {A} (o : outcome A) : IO A := liftM (lift o).

(** [display_final_board] *)
Definition display_final_board (board : Board) : IO unit :=
  _ ← print ("   " +:+ String.concat " " (str <$> Py.range 10));
  _ ← print ("  +" +:+ String.concat "" (Py.repeat "--"%string 10));
  for_each (Py.range 10) (fun r =>
    row ← lift_io (mapM (cell_symbol board r) (Py.range 10));
    print (str r +:+ " | " +:+ String.concat " " row)).

(** ** Guess sources *)

(** [get_human_guess]: one round of the [while True] per unit of [fuel].
    Both lines are read before either is parsed; [q] is checked on each
    line as it is read. *)
Fixpoint get_human_guess (B : PyBuiltins) (fuel : nat) (defender : Player)
  : IO (Z * Z) :=
  match fuel with
  | O => fun _ _ => Diverged
  | S fuel' =>
      x_line ← input "Enter X (0–9) or 'q' to quit: ";
      let x_str := str_strip B x_line in
      if String.eqb (str_lower B x_str) "q" then
        _ ← print (NL +:+ "Exiting game."); raise_io KeyboardInterrupt
      else
        y_line ← input "Enter Y (0–9) or 'q' to quit: ";
        let y_str := str_strip B y_line in
        if String.eqb (str_lower B y_str) "q" then
          _ ← print (NL +:+ "Exiting game."); raise_io KeyboardInterrupt
        else
          match int_of_str B x_str with
          | None =>
              _ ← print "Invalid input, please enter numbers.";
              get_human_guess B fuel' defender
          | Some x =>
              match int_of_str B y_str with
              | None =>
                  _ ← print "Invalid input, please enter numbers.";
                  get_human_guess B fuel' defender
              | Some y =>
                  if (0 <=? x) && (x <=? 9) && ((0 <=? y) && (y <=? 9)) then
                    already ← lift_io (Py.getitem2 (hits (board defender)) x y);
                    if already : bool then
                      _ ← print "You already shot there. Try again.";
                      get_human_guess B fuel' defender
                    else mret (x, y)
                  else
                    _ ← print "Out of range, please use 0–9.";
                    get_human_guess B fuel' defender
              end
          end
  end.

(** [random_guess]: one round of the [while True] per unit of [fuel]
    ([attacker] is not used by the function). *)
Fixpoint random_guess (fuel : nat) (attacker defender : Player) : M (Z * Z) :=
  match fuel with
  | O => fun _ => Unfinished
  | S fuel' =>
      x ← Random.randrange 10;
      y ← Random.randrange 10;
      already ← lift (Py.getitem2 (hits (board defender)) x y);
      if negb already then mret (x, y)
      else random_guess fuel' attacker defender
  end.

(** ** Game loop *)

(** The variables of [play_game] that change while the loop runs:
    the two players, whether [current is alice], and [turn]. *)
Record Game : Type := mkGame {
  alice : Player;
  bob : Player;
  alice_moves : bool;
  turn : Z
}.

(** How the loop was left: by [break] after a win, or by the
    [KeyboardInterrupt] handler. *)
Inductive ending : Type :=
  | Won
  | Interrupted.

Definition add_point (p : Player) : Player :=
  {| name := name p; crypto := crypto p; board := board p;
     enc_board := enc_board p; points := points p + 1 |}.

Definition current (g : Game) : Player := if alice_moves g then alice g else bob g.
Definition opponent (g : Game) : Player := if alice_moves g then bob g else alice g.

(** The game after the turn's shot: the opponent as the arbiter left it,
    the current player's points raised on a hit. *)
Definition after_shot (g : Game) (hit : bool) (opp' : Player) : Game :=
  let cur' := if hit then add_point (current g) else current g in
  if alice_moves g
  then {| alice := cur'; bob := opp'; alice_moves := true; turn := turn g |}
  else {| alice := opp'; bob := cur'; alice_moves := false; turn := turn g |}.

(** [current, opponent = opponent, current] *)
Definition switch_players (g : Game) : Game :=
  {| alice := alice g; bob := bob g;
     alice_moves := negb (alice_moves g); turn := turn g |}.

Definition hit_or_miss (hit : bool) : string :=
  if hit then "HIT!"%string else "MISS"%string.

(** The guess of the turn, from the human reader on Alice's turns and from
    the random generator on Bob's. *)
Definition turn_guess (B : PyBuiltins) (fuel : nat) (g : Game) : IO (Z * Z) :=
  if alice_moves g then
    _ ← print (NL +:+ "Your turn!");
    get_human_guess B fuel (bob g)
  else
    xy ← liftM (random_guess fuel (bob g) (alice g));
    _ ← print ("Bob shoots at (" +:+ str xy.1 +:+ ", " +:+ str xy.2 +:+ ")");
    mret xy.

Definition next_turn (g : Game) : Game :=
  {| alice := alice g; bob := bob g;
     alice_moves := alice_moves g; turn := turn g + 1 |}.

(** The [try: while True: ... except KeyboardInterrupt: ...] of
    [play_game]; [fuel] bounds the rounds of this loop and of the loops of
    the guess sources.  The only [KeyboardInterrupt] of the loop body is the
    one [get_human_guess] raises, so the handler is attached to the guess. *)
Fixpoint game_loop (B : PyBuiltins) (fuel : nat) (g0 : Game) : IO (Game * ending) :=
  match fuel with
  | O => fun _ _ => Diverged
  | S fuel' =>
      let g := next_turn g0 in
      _ ← print (NL +:+ "------ TURN " +:+ str (turn g) +:+ " ------");
      guess ← catching_interrupt (turn_guess B fuel g);
      match guess with
      | None =>
          _ ← print (NL +:+ "Game interrupted by user." +:+ NL);
          mret (g, Interrupted)
      | Some (x, y) =>
          res ← liftM (process_guess (current g) (opponent g) x y);
          let hit := res.1 in
          let g1 := after_shot g hit res.2 in
          _ ← (if alice_moves g1 then
                 print ("You shot (" +:+ str x +:+ ", " +:+ str y +:+ ") → "
                        +:+ hit_or_miss hit)
               else
                 print ("Bob's shot at (" +:+ str x +:+ ", " +:+ str y +:+ ") → "
                        +:+ hit_or_miss hit));
          if all_sunk (board (opponent g1)) then
            _ ← print (NL +:+ "============================");
            _ ← print ("     " +:+ name (current g1) +:+ " WINS!");
            _ ← print ("============================" +:+ NL);
            mret (g1, Won)
          else game_loop B fuel' (switch_players g1)
      end
  end.


(** ** Reference built-ins and a sample session *)

Fixpoint drop_spaces (s : string) : string :=
  match s with
  | String c s' => if Ascii.is_space c then drop_spaces s' else s
  | EmptyString => EmptyString
  end.

Definition lower_char (c : Ascii.ascii) : Ascii.ascii :=
  let n := Ascii.nat_of_ascii c in
  if ((65 <=? n) && (n <=? 90))%nat then Ascii.ascii_of_nat (n + 32) else c.

Fixpoint map_string (f : Ascii.ascii -> Ascii.ascii) (s : string) : string :=
  match s with
  | String c s' => String (f c) (map_string f s')
  | EmptyString => EmptyString
  end.

Fixpoint digits_value (s : string) (acc : Z) : option Z :=
  match s with
  | EmptyString => Some acc
  | String c s' =>
      match Ascii.is_nat c with
      | Some d => digits_value s' (10 * acc + Z.of_nat d)
      | None => None
      end
  end.

(** Stand-ins for the three built-ins on plain ASCII input: blanks are
    stripped, upper-case letters lowered, and an integer is a non-empty run
    of decimal digits with an optional sign.  (Python's [int] also takes
    underscores between digits and digits outside ASCII; the stand-in does
    not.  The properties below hold for any [PyBuiltins].) *)
Definition AsciiBuiltins : PyBuiltins :=
  {| str_strip := fun s => String.rev (drop_spaces (String.rev (drop_spaces s)));
     str_lower := map_string lower_char;
     int_of_str := fun s =>
       match s with
       | EmptyString => None
       | String c s' =>
           if Ascii.eqb c (Ascii.ascii_of_nat 45) then
             match s' with
             | EmptyString => None
             | _ => Z.opp <$> digits_value s' 0
             end
           else if Ascii.eqb c (Ascii.ascii_of_nat 43) then
             match s' with
             | EmptyString => None
             | _ => digits_value s' 0
             end
           else digits_value s 0
       end |}.

Definition console_of (lines : list string) : Console :=
  {| stdin := lines; stdout := [] |}.

(** What was written, oldest first. *)
Definition written {A} (r : ioresult A) : list string :=
  match r with
  | Returned _ _ c => reverse (stdout c)
  | Raised _ c => reverse (stdout c)
  | Diverged => []
  end.

(** ** Boards as Python objects

    A Python list holds references.  [self.hits[x][y] = True] does not
    rebuild [self.hits]: it changes the row object [self.hits[x]] in place,
    and the change is seen through every reference to that object.  Here a
    row object is an identity with its current content, and the two grids
    of a board are lists of such identities.  The outer lists themselves are
    never changed in place by the module, only rebound. *)

(** What a cell can hold: the grid is filled with ints and the overlay
    with bools, but nothing keeps a list from holding either. *)
Inductive pyval : Type :=
  | PInt (n : Z)
  | PBool (b : bool).

(** The truth value of a cell in [if v:]. *)
Definition truthy (v : pyval) : bool :=
  match v with
  | PInt n => negb (n =? 0)
  | PBool b => b
  end.

(** The integer a cell compares as ([True == 1], [False == 0]). *)
Definition int_of (v : pyval) : Z :=
  match v with
  | PInt n => n
  | PBool b => if b then 1 else 0
  end.

Record BoardObj : Type := mkBoardObj {
  obj_size : Z;
  obj_grid : list nat;
  obj_hits : list nat;
  obj_rows : nat -> list pyval;
  obj_total_ship_cells : Z;
  obj_hits_count : Z
}.

(** [rows[x][y]] for one of the two grids. *)
Definition obj_cell (b : BoardObj) (rows : list nat) (x y : Z) : outcome pyval :=
  row ← Py.getitem rows x; Py.getitem (obj_rows b row) y.

(** The row object [row] with new content. *)
Definition set_row (rows : nat -> list pyval) (row : nat) (cells : list pyval)
  : nat -> list pyval :=
  fun i => if Nat.eqb i row then cells else rows i.

(** The board after [self.hits[x][y] = True] on row object [row], and the
    increment when [hit]. *)
Definition obj_shot (b : BoardObj) (row : nat) (cells : list pyval) (hit : bool)
  : BoardObj :=
  {| obj_size := obj_size b; obj_grid := obj_grid b; obj_hits := obj_hits b;
     obj_rows := set_row (obj_rows b) row cells;
     obj_total_ship_cells := obj_total_ship_cells b;
     obj_hits_count := obj_hits_count b + (if hit then 1 else 0) |}.

(** [Board.register_shot] on the board object. *)
Definition obj_register_shot (b : BoardObj) (x y : Z) (hit : bool)
  : outcome (bool * BoardObj) :=
  already ← obj_cell b (obj_hits b) x y;
  if truthy already then Ok (false, b)
  else
    row ← Py.getitem (obj_hits b) x;
    cells ← Py.setitem (obj_rows b row) y (PBool true);
    Ok (true, obj_shot b row cells hit).

(** The board of values a board object stands for. *)
Definition value_of (b : BoardObj) : Board :=
  {| size := obj_size b;
     grid := (fun row => int_of <$> obj_rows b row) <$> obj_grid b;
     hits := (fun row => truthy <$> obj_rows b row) <$> obj_hits b;
     total_ship_cells := obj_total_ship_cells b;
     hits_count := obj_hits_count b |}.

(** The rows of the overlay are pairwise distinct objects and none of them
    is a row of the grid: what the comprehensions of [Board()] and
    [place_ships_random] build, one new list per row. *)
Definition separate_rows (b : BoardObj) : Prop :=
  NoDup (obj_hits b) /\ forall row, row ∈ obj_hits b -> row ∉ obj_grid b.

(** The overlay is a square of the board's side. *)
Definition obj_square (b : BoardObj) : Prop :=
  length (obj_hits b) = Z.to_nat (obj_size b) /\
  forall row, row ∈ obj_hits b -> length (obj_rows b row) = Z.to_nat (obj_size b).

(** What is said of [register_shot(x, y, hit)] on board [b]: on a cell
    already shot it returns [False] and changes nothing; otherwise it marks
    the cell, adds one to [hits_count] iff [hit], changes nothing else, and
    returns [True]; and a second call at the same coordinate changes
    nothing. *)
Definition register_shot_claim (b : BoardObj) (x y : Z) (hit : bool) : Prop :=
  (exists v,
     obj_cell b (obj_hits b) x y = Ok v /\
     if truthy v then obj_register_shot b x y hit = Ok (false, b)
     else
       exists b',
         obj_register_shot b x y hit = Ok (true, b') /\
         obj_cell b' (obj_hits b') x y = Ok (PBool true) /\
         (forall rc, in_grid (obj_size b) rc -> rc <> (x, y) ->
            obj_cell b' (obj_hits b') rc.1 rc.2
            = obj_cell b (obj_hits b) rc.1 rc.2) /\
         (forall r c, obj_cell b' (obj_grid b') r c = obj_cell b (obj_grid b) r c) /\
         obj_hits b' = obj_hits b /\ obj_grid b' = obj_grid b /\
         obj_hits_count b' = obj_hits_count b + (if hit then 1 else 0) /\
         obj_total_ship_cells b' = obj_total_ship_cells b /\
         obj_size b' = obj_size b)
  /\
  (forall r1 b1 hit2,
     obj_register_shot b x y hit = Ok (r1, b1) ->
     obj_register_shot b1 x y hit2 = Ok (false, b1)).

(** [Board()]: twenty new row objects, ten for the grid and ten for the
    overlay. *)
Definition obj_Board_default : BoardObj :=
  {| obj_size := BOARD_SIZE;
     obj_grid := seq 0 10;
     obj_hits := seq 10 10;
     obj_rows := fun row =>
       if (row <? 10)%nat then Py.repeat (PInt 0) BOARD_SIZE
       else if (row <? 20)%nat then Py.repeat (PBool false) BOARD_SIZE
       else [];
     obj_total_ship_cells := 0;
     obj_hits_count := 0 |}.

(** [Board(size=2, hits=[[False]*2]*2)] with a 2x2 grid of its own: the
    two rows of the overlay are one object. *)
Definition shared_rows_board : BoardObj :=
  {| obj_size := 2;
     obj_grid := [0; 1]%nat;
     obj_hits := [2; 2]%nat;
     obj_rows := fun row =>
       if (row <? 2)%nat then [PInt 0; PInt 0]
       else if (row =? 2)%nat then [PBool false; PBool false]
       else [];
     obj_total_ship_cells := 0;
     obj_hits_count := 0 |}.

(** ** Vocabulary for the properties of the console layer and the game *)

(** Number of cells with [hits[r][c]]. *)
Definition shot_count (b : Board) : Z :=
  count_if (shot_at (hits b)) (coords (size b)).

(** The indices Python accepts on a list of length [n]. *)
Definition py_index_ok (n i : Z) : bool := (- n <=? i) && (i <? n).

(** The world after one draw from the [random] module. *)
Definition after_draw (w : World) : World :=
  {| py_random := fun n => py_random w (S n);
     seal_random := seal_random w;
     seal_calls := seal_calls w |}.

(** A default board with every cell shot (all misses). *)
Definition swept_board : Board :=
  set_hits Board_default ((fun _ => Py.repeat true 10) <$> Py.range 10).

(** What an interactive call returned or raised, if it did. *)
Definition returned {A} (r : ioresult A) : option A :=
  match r with
  | Returned a _ _ => Some a
  | _ => None
  end.



(** The player [p] with board [b] and score [n]: a game changes nothing
    else of a player. *)
Definition with_state (p : Player) (b : Board) (n : Z) : Player :=
  {| name := name p; crypto := crypto p; board := b;
     enc_board := enc_board p; points := n |}.

(** The shots registered on the two boards of a game. *)
Definition shots_fired (g : Game) : Z :=
  shot_count (board (alice g)) + shot_count (board (bob g)).

(** The turns of a game that fired no shot: the one that was interrupted. *)
Definition open_turns (e : ending) : Z :=
  match e with
  | Won => 0
  | Interrupted => 1
  end.

(** Both boards of a game are 10x10. *)
Definition standard_boards (g : Game) : Prop :=
  size (board (alice g)) = 10 /\ size (board (bob g)) = 10 /\
  shape 10 (hits (board (alice g))) /\ shape 10 (hits (board (bob g))).

(** What [n] shots of a game change: each player keeps name, keys and
    encrypted board; each board keeps its grid, size and ship total; a
    player's points grow by what the other board's [hits_count] grows;
    and [n] more cells are marked as shot. *)
Definition game_progress (g0 g' : Game) (n : Z) : Prop :=
  standard_boards g' /\
  alice g' = with_state (alice g0) (board (alice g')) (points (alice g')) /\
  bob g' = with_state (bob g0) (board (bob g')) (points (bob g')) /\
  grid (board (alice g')) = grid (board (alice g0)) /\
  grid (board (bob g')) = grid (board (bob g0)) /\
  total_ship_cells (board (alice g')) = total_ship_cells (board (alice g0)) /\
  total_ship_cells (board (bob g')) = total_ship_cells (board (bob g0)) /\
  points (alice g') - points (alice g0)
    = hits_count (board (bob g')) - hits_count (board (bob g0)) /\
  points (bob g') - points (bob g0)
    = hits_count (board (alice g')) - hits_count (board (alice g0)) /\
  0 <= points (alice g') - points (alice g0) /\
  0 <= points (bob g') - points (bob g0) /\
  shots_fired g' = shots_fired g0 + n.

(** How an interactive game ended, if it did. *)
Definition ending_of (r : ioresult (Game * ending)) : option ending :=
  snd <$> returned r.

(** A short game: Alice, with the full fleet, against the single-ship
    board. *)
Definition demo_game : Game :=
  {| alice := sealed_player ToyExact fleet_board;
     bob := sealed_player ToyExact demo_board;
     alice_moves := true;
     turn := 0 |}.

(** Draws for the short game: a blinding scalar, Bob's guess [(3, 4)],
    and two more blinding scalars. *)
Definition demo_game_world : World := list_world [5; 3; 4; 5; 5].


(** The symbol of the final view for a cell: [H] a ship cell that was
    shot, [S] a ship cell that was not, [X] shot water, [.] water. *)
Definition symbol_at (b : Board) (r c : Z) : string :=
  if ship_at (grid b) (r, c)
  then (if shot_at (hits b) (r, c) then "H" else "S")
  else (if shot_at (hits b) (r, c) then "X" else ".").

(** The two header lines of the final view, as written. *)
Definition view_header : list string :=
  [ ("   " +:+ String.concat " " (str <$> Py.range 10)) +:+ NL;
    ("  +" +:+ String.concat "" (Py.repeat "--"%string 10)) +:+ NL ].

(** Row [r] of the final view, as written. *)
Definition view_row (b : Board) (r : Z) : string :=
  (str r +:+ " | " +:+ String.concat " " (symbol_at b r <$> Py.range 10)) +:+ NL.

(** The console after the chunks [out] were written, oldest first. *)
Definition after_writing (c : Console) (out : list string) : Console :=
  {| stdin := stdin c; stdout := reverse out ++ stdout c |}.

(** A board of side 4, as [place_ships_random] resets it. *)
Definition small_board : Board := reset_board (mkBoard 4 [] [] 0 0).

(** Number of [Encryptor.encrypt] calls in a log. *)
Definition encrypt_calls (log : list seal_call) : Z :=
  count_if (fun c => match c with CallEncrypt => true | _ => false end) log.


(** Unfolds the binds of the console layer. *)
Ltac unfold_io :=
  unfold input, print, lift_io in *;
  unfold mbind, mret, IO_mbind, IO_mret, IO_bind, IO_ret, write,
    read_line, raise_io, liftM, lift in *.

(** * Properties *)

(** ** The model at work *)

Example getitem_negative : Py.getitem [10; 20; 30] (-1) = Ok 30.
Proof. reflexivity. Qed.

Example getitem_out_of_range : Py.getitem [10; 20; 30] 3 = Raise IndexError.
Proof. reflexivity. Qed.

Example register_shot_out_of_range :
  register_shot Board_default 10 3 true = Raise IndexError.
Proof. reflexivity. Qed.

Example randrange_empty :
  returns (Random.randrange 0 (const_world 5)) = false.
Proof. reflexivity. Qed.

(** With a generator stuck on one value the second ship is rejected for
    ever: the sampling loop has no bound of its own. *)
Example placement_starves :
  place_ships_random 25 Board_default (const_world 0) = Unfinished.
Proof. vm_compute. reflexivity. Qed.

Example demo_board_row0 :
  head (grid demo_board) = Some [1; 1; 0; 0; 0; 0; 0; 0; 0; 0].
Proof. vm_compute. reflexivity. Qed.

Example fleet_board_total : total_ship_cells fleet_board = 16.
Proof. vm_compute. reflexivity. Qed.

Example water_is_a_miss :
  match process_guess (sealed_player ToyExact fleet_board)
          (sealed_player ToyExact demo_board) 4 4 (const_world 6) with
  | Ok ((hit, _), _) => hit
  | _ => true
  end = false.
Proof. vm_compute. reflexivity. Qed.

(** ** Python lists *)


Lemma norm_index_Some len i n :
  Py.norm_index len i = Some n ->
  (n < Z.to_nat len)%nat /\
  ((0 <= i < len /\ n = Z.to_nat i) \/ (- len <= i < 0 /\ n = Z.to_nat (len + i))).
Proof.
  unfold Py.norm_index.
  destruct (Z.leb_spec 0 i), (Z.ltb_spec i len), (Z.ltb_spec i 0),
    (Z.leb_spec (- len) i); simpl; intros [= <-]; lia.
Qed.

Lemma norm_index_in_range len i :
  0 <= i < len -> Py.norm_index len i = Some (Z.to_nat i).
Proof.
  intros Hi. unfold Py.norm_index.
  destruct (Z.leb_spec 0 i), (Z.ltb_spec i len); simpl; first done; lia.
Qed.

Lemma getitem_Ok {A} (l : list A) i a :
  Py.getitem l i = Ok a <->
  exists n, Py.norm_index (Z.of_nat (length l)) i = Some n /\ l !! n = Some a.
Proof.
  unfold Py.getitem. split.
  - destruct (Py.norm_index _ i) as [n|]; last done.
    destruct (l !! n) eqn:E; last done. intros [= <-]. eauto.
  - intros (n & -> & ->). done.
Qed.

Lemma getitem_in_range {A} (l : list A) i :
  0 <= i < Z.of_nat (length l) ->
  Py.getitem l i = match l !! Z.to_nat i with Some a => Ok a | None => Raise IndexError end.
Proof. intros Hi. unfold Py.getitem. by rewrite norm_index_in_range. Qed.

Lemma setitem_Ok {A} (l : list A) i v l' :
  Py.setitem l i v = Ok l' <->
  exists n, Py.norm_index (Z.of_nat (length l)) i = Some n /\ l' = <[n := v]> l.
Proof.
  unfold Py.setitem. split.
  - destruct (Py.norm_index _ i) as [n|]; last done. intros [= <-]. eauto.
  - intros (n & -> & ->). done.
Qed.

Section PyLists.
Context {A : Type}.
Implicit Types (l row : list A) (g : list (list A)) (a v : A).

Lemma getitem2_Ok g x y a :
  Py.getitem2 g x y = Ok a <->
  exists row, Py.getitem g x = Ok row /\ Py.getitem row y = Ok a.
Proof.
  unfold Py.getitem2, mbind, outcome_mbind, outcome_bind. split.
  - destruct (Py.getitem g x) as [row| |]; try done. eauto.
  - intros (row & -> & ->). done.
Qed.

(** Writing a cell that can be read succeeds, and the cell then reads as
    written; this holds for negative indices as well. *)
Lemma setitem2_after_getitem2 g x y a v :
  Py.getitem2 g x y = Ok a ->
  exists g', Py.setitem2 g x y v = Ok g' /\ Py.getitem2 g' x y = Ok v.
Proof.
  intros (row & Hrow & Ha)%getitem2_Ok.
  apply getitem_Ok in Hrow as (n & Hn & Hgn).
  apply getitem_Ok in Ha as (m & Hm & Hrm).
  exists (<[n := <[m := v]> row]> g). split.
  - unfold Py.setitem2, mbind, outcome_mbind, outcome_bind.
    replace (Py.getitem g x) with (Ok row) by (symmetry; apply getitem_Ok; eauto).
    replace (Py.setitem row y v) with (Ok (<[m := v]> row))
      by (symmetry; apply setitem_Ok; eauto).
    apply setitem_Ok; eauto.
  - apply getitem2_Ok. exists (<[m := v]> row). split.
    + apply getitem_Ok. exists n. rewrite length_insert. split; first done.
      apply list_lookup_insert_eq. by eapply lookup_lt_Some.
    + apply getitem_Ok. exists m. rewrite length_insert. split; first done.
      apply list_lookup_insert_eq. by eapply lookup_lt_Some.
Qed.

Lemma shape_lookup n g (r : nat) :
  shape n g -> (r < Z.to_nat n)%nat ->
  exists row, g !! r = Some row /\ length row = Z.to_nat n.
Proof.
  intros [Hlen Hrows] Hr.
  destruct (lookup_lt_is_Some_2 g r) as [row Hrow]; first lia.
  exists row. split; first done.
  by eapply (proj1 (Forall_lookup _ _) Hrows).
Qed.

(** Inside a square grid every cell can be read. *)
Lemma getitem2_in_grid n g rc :
  shape n g -> in_grid n rc ->
  exists row a,
    g !! Z.to_nat rc.1 = Some row /\ length row = Z.to_nat n /\
    row !! Z.to_nat rc.2 = Some a /\ Py.getitem2 g rc.1 rc.2 = Ok a.
Proof.
  intros Hs [Hr Hc].
  destruct (shape_lookup n g (Z.to_nat rc.1) Hs) as (row & Hrow & Hlen); first lia.
  destruct (lookup_lt_is_Some_2 row (Z.to_nat rc.2)) as [a Ha]; first lia.
  exists row, a. repeat split; try done.
  apply getitem2_Ok. exists row. destruct Hs as [Hg _].
  rewrite !getitem_in_range by lia. by rewrite Hrow, Ha.
Qed.

Lemma getitem2_in_grid_lookup n g rc :
  shape n g -> in_grid n rc ->
  Py.getitem2 g rc.1 rc.2 =
    match g !! Z.to_nat rc.1 ≫= fun row => row !! Z.to_nat rc.2 with
    | Some a => Ok a
    | None => Raise IndexError
    end.
Proof.
  intros Hs Hin.
  destruct (getitem2_in_grid n g rc Hs Hin) as (row & a & Hrow & _ & Ha & ->).
  by rewrite Hrow; simpl; rewrite Ha.
Qed.

(** Writing a cell inside a square grid keeps the shape and touches no
    other cell of the grid. *)
Lemma setitem2_in_grid n g rc v :
  shape n g -> in_grid n rc ->
  exists g',
    Py.setitem2 g rc.1 rc.2 v = Ok g' /\ shape n g' /\
    Py.getitem2 g' rc.1 rc.2 = Ok v /\
    forall rc', in_grid n rc' -> rc' <> rc ->
      Py.getitem2 g' rc'.1 rc'.2 = Py.getitem2 g rc'.1 rc'.2.
Proof.
  intros Hs Hin.
  destruct (getitem2_in_grid n g rc Hs Hin) as (row & a & Hrow & Hlen & Ha & Hget).
  pose proof Hin as [Hr Hc]. pose proof Hs as [Hg Hrows].
  set (g' := <[Z.to_nat rc.1 := <[Z.to_nat rc.2 := v]> row]> g).
  assert (Hs' : shape n g').
  { split; first by (unfold g'; rewrite length_insert).
    apply Forall_insert; first done. by rewrite length_insert. }
  exists g'. split; [|split; [done|split]].
  - unfold Py.setitem2, mbind, outcome_mbind, outcome_bind.
    rewrite getitem_in_range by lia. rewrite Hrow.
    unfold Py.setitem. rewrite !norm_index_in_range by lia. done.
  - rewrite (getitem2_in_grid_lookup n) by done. unfold g'.
    rewrite list_lookup_insert_eq by lia. simpl.
    by rewrite list_lookup_insert_eq by lia.
  - intros rc' Hin' Hne.
    rewrite !(getitem2_in_grid_lookup n) by done. unfold g'.
    destruct (decide (Z.to_nat rc'.1 = Z.to_nat rc.1)) as [E1|E1].
    + rewrite E1, list_lookup_insert_eq, Hrow by lia. simpl.
      rewrite list_lookup_insert_ne; first done.
      intros E2. apply Hne. destruct Hin' as [? ?].
      destruct rc, rc'; simpl in *. f_equal; lia.
    + by rewrite list_lookup_insert_ne.
Qed.

End PyLists.

(** ** Coordinates and counting *)

Lemma elem_of_range n k : k ∈ Py.range n <-> 0 <= k < n.
Proof. unfold Py.range. rewrite elem_of_seqZ. lia. Qed.

Lemma elem_of_coords n rc : rc ∈ coords n <-> in_grid n rc.
Proof.
  unfold coords, in_grid. rewrite list_elem_of_bind. split.
  - intros (r & (c & ->%list_elem_of_singleton & Hc%elem_of_range)%list_elem_of_bind
              & Hr%elem_of_range). done.
  - intros [Hr Hc]. exists rc.1. rewrite elem_of_range. split; last done.
    apply list_elem_of_bind. exists rc.2. rewrite elem_of_range.
    split; last done. destruct rc. apply list_elem_of_singleton. done.
Qed.

Lemma NoDup_coords n : NoDup (coords n).
Proof.
  unfold coords. apply NoDup_bind; [| |apply NoDup_seqZ].
  - intros r1 r2 rc _ _
      (c1 & ->%list_elem_of_singleton & _)%list_elem_of_bind
      (c2 & [= -> _]%list_elem_of_singleton & _)%list_elem_of_bind. done.
  - intros r _. apply NoDup_bind; [| |apply NoDup_seqZ].
    + intros c1 c2 rc _ _ ->%list_elem_of_singleton
        [= ->]%list_elem_of_singleton. done.
    + intros c _. apply NoDup_singleton.
Qed.

Section Counting.
Context {A : Type} `{EqDecision A}.
Implicit Types (f g : A -> bool) (l cs : list A).

Lemma count_if_bounds f l : 0 <= count_if f l <= Z.of_nat (length l).
Proof. induction l as [|x l IH]; simpl; [lia|destruct (f x); lia]. Qed.

Lemma count_if_ext f g l :
  (forall x, x ∈ l -> f x = g x) -> count_if f l = count_if g l.
Proof.
  induction l as [|x l IH]; intros Hfg; simpl; first done.
  rewrite (Hfg x) by left. rewrite IH; first done.
  intros y Hy. apply Hfg. by right.
Qed.

Lemma count_if_none f l :
  (forall x, x ∈ l -> f x = false) -> count_if f l = 0.
Proof.
  induction l as [|x l IH]; intros Hf; simpl; first done.
  rewrite (Hf x) by left. rewrite IH; first done.
  intros y Hy. apply Hf. by right.
Qed.

(** Flipping the test from false to true at one element of a
    duplicate-free list raises the count by one. *)
Lemma count_if_flip_one f g l x :
  NoDup l -> x ∈ l -> f x = false -> g x = true ->
  (forall y, y ∈ l -> y <> x -> g y = f y) ->
  count_if g l = count_if f l + 1.
Proof.
  induction l as [|z l IH]; intros Hnd Hx Hf Hg Hrest; first by inv Hx.
  apply NoDup_cons in Hnd as [Hz Hnd]. simpl.
  destruct (decide (z = x)) as [->|Hzx].
  - rewrite Hf, Hg. rewrite (count_if_ext g f l); first lia.
    intros y Hy. apply Hrest; first by right. intros ->. done.
  - rewrite (Hrest z) by (done || left). rewrite IH; try done; first lia.
    + apply elem_of_cons in Hx as [->|Hx]; done.
    + intros y Hy. apply Hrest. by right.
Qed.

(** The same for a duplicate-free list [cs] of elements. *)
Lemma count_if_flip f g l cs :
  NoDup l -> NoDup cs -> (forall x, x ∈ cs -> x ∈ l) ->
  (forall x, x ∈ cs -> f x = false /\ g x = true) ->
  (forall y, y ∈ l -> y ∉ cs -> g y = f y) ->
  count_if g l = count_if f l + Z.of_nat (length cs).
Proof.
  intros Hl. revert g.
  induction cs as [|x cs IH]; intros g Hcs Hsub Hflip Hrest.
  - simpl. rewrite (count_if_ext g f l); first lia.
    intros y Hy. apply Hrest; first done. apply not_elem_of_nil.
  - apply NoDup_cons in Hcs as [Hx Hcs].
    set (g' := fun y => if decide (y = x) then false else g y).
    rewrite (count_if_flip_one g' g l x); try done.
    + rewrite (IH g'); try done.
      * simpl length. lia.
      * intros y Hy. apply Hsub. by right.
      * intros y Hy. unfold g'. destruct (decide (y = x)) as [->|]; first done.
        apply Hflip. by right.
      * intros y Hy Hycs. unfold g'.
        destruct (decide (y = x)) as [->|Hne].
        -- symmetry. apply Hflip. by left.
        -- apply Hrest; first done. intros [->|?]%elem_of_cons; done.
    + apply Hsub. by left.
    + unfold g'. by rewrite decide_True.
    + apply Hflip. by left.
    + intros y _ Hne. unfold g'. by rewrite decide_False.
Qed.

(** A test that implies another one counts as many elements exactly when
    the two agree on the whole list. *)
Lemma count_if_le f g l :
  (forall x, x ∈ l -> f x = true -> g x = true) ->
  count_if f l <= count_if g l.
Proof.
  induction l as [|x l IH]; intros Himp; simpl; first done.
  assert (count_if f l <= count_if g l) by (apply IH; intros; apply Himp; [by right|done]).
  pose proof (Himp x ltac:(left)).
  destruct (f x), (g x); first [lia | naive_solver].
Qed.

Lemma count_if_full f g l :
  (forall x, x ∈ l -> f x = true -> g x = true) ->
  (count_if g l <= count_if f l <-> forall x, x ∈ l -> g x = true -> f x = true).
Proof.
  induction l as [|x l IH]; intros Himp; simpl.
  - split; [intros _ y Hy; by inv Hy|done].
  - assert (Himp' : forall y, y ∈ l -> f y = true -> g y = true)
      by (intros; apply Himp; [by right|done]).
    pose proof (count_if_le f g l Himp') as Hle.
    pose proof (Himp x ltac:(left)) as Hx.
    specialize (IH Himp'). split.
    + intros Hc y [->|Hy]%elem_of_cons Hg.
      * destruct (f x), (g x); first [done | lia].
      * apply IH; try done. destruct (f x), (g x); first [lia | naive_solver].
    + intros Hall.
      assert (count_if g l <= count_if f l)
        by (apply IH; intros; apply Hall; [by right|done]).
      pose proof (Hall x ltac:(left)).
      destruct (f x), (g x); first [lia | naive_solver].
Qed.

End Counting.

(** ** [Board.register_shot] *)

Lemma register_shot_already b x y hit :
  Py.getitem2 (hits b) x y = Ok true ->
  register_shot b x y hit = Ok (false, b).
Proof. intros H. unfold register_shot. unfold_bind. by rewrite H. Qed.

Lemma register_shot_fresh b x y hit :
  Py.getitem2 (hits b) x y = Ok false ->
  exists h',
    Py.setitem2 (hits b) x y true = Ok h' /\
    Py.getitem2 h' x y = Ok true /\
    register_shot b x y hit = Ok (true, shot_board b h' hit).
Proof.
  intros H.
  destruct (setitem2_after_getitem2 (hits b) x y false true H) as (h' & Hset & Hget).
  exists h'. split; [done|split; [done|]].
  unfold register_shot. unfold_bind. rewrite H, Hset.
  unfold shot_board, set_hits_count, set_hits. destruct hit; simpl; first done.
  by rewrite Z.add_0_r.
Qed.

Lemma register_shot_inv b x y hit r b' :
  register_shot b x y hit = Ok (r, b') ->
  (Py.getitem2 (hits b) x y = Ok true /\ r = false /\ b' = b) \/
  (Py.getitem2 (hits b) x y = Ok false /\ r = true /\
   exists h', Py.setitem2 (hits b) x y true = Ok h' /\
              Py.getitem2 h' x y = Ok true /\ b' = shot_board b h' hit).
Proof.
  intros Hreg.
  destruct (Py.getitem2 (hits b) x y) as [[|]| |] eqn:Hget.
  - left. rewrite (register_shot_already b x y hit Hget) in Hreg.
    by injection Hreg as <- <-.
  - right. destruct (register_shot_fresh b x y hit Hget) as (h' & Hset & Hget' & Heq).
    rewrite Heq in Hreg. injection Hreg as <- <-. eauto 10.
  - unfold register_shot in Hreg. unfold_bind. by rewrite Hget in Hreg.
  - unfold register_shot in Hreg. unfold_bind. by rewrite Hget in Hreg.
Qed.

(** ** [Board.register_shot] on board objects *)

Lemma getitem_setitem_same {A} (l l' : list A) i a :
  Py.setitem l i a = Ok l' -> Py.getitem l' i = Ok a.
Proof.
  intros (n & Hn & ->)%setitem_Ok. apply getitem_Ok. exists n.
  rewrite length_insert. split; first done.
  apply list_lookup_insert_eq. apply norm_index_Some in Hn as [Hlt _]. lia.
Qed.

Lemma getitem_setitem_other {A} (l l' : list A) i j a :
  0 <= i -> 0 <= j -> i <> j ->
  Py.setitem l i a = Ok l' -> Py.getitem l' j = Py.getitem l j.
Proof.
  intros Hi Hj Hne (n & Hn & ->)%setitem_Ok.
  apply norm_index_Some in Hn as [_ [[_ ->]|[? _]]]; last lia.
  unfold Py.getitem. rewrite length_insert.
  destruct (Py.norm_index (Z.of_nat (length l)) j) as [m|] eqn:Hm; last done.
  apply norm_index_Some in Hm as [_ [[_ ->]|[? _]]]; last lia.
  rewrite list_lookup_insert_ne; [done|lia].
Qed.

Lemma obj_cell_Ok b rows x y v :
  obj_cell b rows x y = Ok v <->
  exists row, Py.getitem rows x = Ok row /\ Py.getitem (obj_rows b row) y = Ok v.
Proof.
  unfold obj_cell, mbind, outcome_mbind, outcome_bind. split.
  - destruct (Py.getitem rows x) as [row| |]; try done. eauto.
  - intros (row & -> & ->). done.
Qed.

Lemma obj_register_shot_already b x y hit v :
  obj_cell b (obj_hits b) x y = Ok v -> truthy v = true ->
  obj_register_shot b x y hit = Ok (false, b).
Proof.
  intros Hv Ht. unfold obj_register_shot. unfold_bind. by rewrite Hv, Ht.
Qed.

Lemma obj_register_shot_fresh b x y hit row v :
  Py.getitem (obj_hits b) x = Ok row ->
  Py.getitem (obj_rows b row) y = Ok v ->
  truthy v = false ->
  exists cells,
    Py.setitem (obj_rows b row) y (PBool true) = Ok cells /\
    obj_register_shot b x y hit = Ok (true, obj_shot b row cells hit).
Proof.
  intros Hrow Hv Ht.
  apply getitem_Ok in Hv as (m & Hm & Hlook).
  exists (<[m := PBool true]> (obj_rows b row)).
  assert (Hset : Py.setitem (obj_rows b row) y (PBool true)
                 = Ok (<[m := PBool true]> (obj_rows b row)))
    by (apply setitem_Ok; eauto).
  split; first done.
  unfold obj_register_shot, obj_cell. unfold_bind.
  rewrite Hrow.
  replace (Py.getitem (obj_rows b row) y) with (Ok v)
    by (symmetry; apply getitem_Ok; eauto).
  by rewrite Ht, Hset.
Qed.

Lemma obj_register_shot_inv b x y hit r b' :
  obj_register_shot b x y hit = Ok (r, b') ->
  exists row v,
    Py.getitem (obj_hits b) x = Ok row /\
    Py.getitem (obj_rows b row) y = Ok v /\
    ((truthy v = true /\ r = false /\ b' = b) \/
     (truthy v = false /\ r = true /\
      exists cells,
        Py.setitem (obj_rows b row) y (PBool true) = Ok cells /\
        b' = obj_shot b row cells hit)).
Proof.
  intros Hrun.
  destruct (Py.getitem (obj_hits b) x) as [row| |] eqn:Hrow;
    try (unfold obj_register_shot, obj_cell in Hrun; unfold_bind;
         by rewrite Hrow in Hrun).
  destruct (Py.getitem (obj_rows b row) y) as [v| |] eqn:Hv;
    try (unfold obj_register_shot, obj_cell in Hrun; unfold_bind;
         by rewrite Hrow, Hv in Hrun).
  exists row, v. split; [done|split; [done|]].
  destruct (truthy v) eqn:Ht.
  - left. rewrite (obj_register_shot_already b x y hit v) in Hrun; try done.
    + by injection Hrun as <- <-.
    + apply obj_cell_Ok. eauto.
  - right. destruct (obj_register_shot_fresh b x y hit row v Hrow Hv Ht)
      as (cells & Hset & Hrun').
    rewrite Hrun' in Hrun. injection Hrun as <- <-. eauto.
Qed.

Lemma set_row_same rows row cells : set_row rows row cells row = cells.
Proof. unfold set_row. by rewrite Nat.eqb_refl. Qed.

Lemma set_row_other rows row cells i :
  i <> row -> set_row rows row cells i = rows i.
Proof. intros Hne. unfold set_row. by apply Nat.eqb_neq in Hne as ->. Qed.

(** Whatever the first call did, a second call at the same coordinate finds
    the cell shot: this needs nothing of the board. *)
Lemma obj_register_shot_twice b x y hit r1 b1 hit2 :
  obj_register_shot b x y hit = Ok (r1, b1) ->
  obj_register_shot b1 x y hit2 = Ok (false, b1).
Proof.
  intros (row & v & Hrow & Hv & [(Ht & _ & ->)|(_ & _ & cells & Hset & ->)])%obj_register_shot_inv.
  - apply (obj_register_shot_already b x y hit2 v); last done.
    apply obj_cell_Ok. eauto.
  - apply (obj_register_shot_already _ x y hit2 (PBool true)); last done.
    apply obj_cell_Ok. exists row. split; first done.
    simpl. rewrite set_row_same. by eapply getitem_setitem_same.
Qed.

(** Reading a cell of side-[n] rows at a coordinate inside the square. *)
Lemma obj_cell_in_grid b rc :
  obj_square b -> in_grid (obj_size b) rc ->
  exists row v,
    obj_hits b !! Z.to_nat rc.1 = Some row /\
    Py.getitem (obj_hits b) rc.1 = Ok row /\
    Py.getitem (obj_rows b row) rc.2 = Ok v.
Proof.
  intros [Hlen Hrows] [Hr Hc].
  destruct (lookup_lt_is_Some_2 (obj_hits b) (Z.to_nat rc.1)) as [row Hrow];
    first lia.
  assert (Hin : row ∈ obj_hits b) by (by eapply list_elem_of_lookup_2).
  destruct (lookup_lt_is_Some_2 (obj_rows b row) (Z.to_nat rc.2)) as [v Hv];
    first (rewrite (Hrows row Hin); lia).
  exists row, v. split; first done.
  rewrite !getitem_in_range by (rewrite ?(Hrows row Hin); lia).
  by rewrite Hrow, Hv.
Qed.

(** C3. On a board whose overlay rows are pairwise distinct objects, none
    of them shared with the grid (as [Board()] and [place_ships_random]
    build them), with an overlay of the board's side and a coordinate
    inside it: if [hits[x][y]] is already true, [register_shot] returns
    [False] and changes nothing; otherwise it sets [hits[x][y]] to [True],
    adds one to [hits_count] iff [hit], changes no other cell of the
    overlay, no cell of the grid, not the total nor the size, and returns
    [True]; and a second call at the same coordinate changes nothing. *)
Theorem register_shot_separate_rows (b : BoardObj) (x y : Z) (hit : bool) :
  separate_rows b ->
  obj_square b ->
  in_grid (obj_size b) (x, y) ->
  register_shot_claim b x y hit.
Proof.
  intros [Hnodup Hdisj] Hsq Hin. split; last apply obj_register_shot_twice.
  destruct (obj_cell_in_grid b (x, y) Hsq Hin) as (row & v & Hlook & Hrow & Hv).
  simpl in Hlook, Hrow, Hv.
  exists v. split; first (apply obj_cell_Ok; eauto).
  destruct (truthy v) eqn:Ht.
  { apply (obj_register_shot_already b x y hit v); last done.
    apply obj_cell_Ok. eauto. }
  destruct (obj_register_shot_fresh b x y hit row v Hrow Hv Ht)
    as (cells & Hset & Hrun).
  exists (obj_shot b row cells hit). split; first done. simpl.
  split_and!; try done.
  - apply obj_cell_Ok. exists row. split; first done.
    simpl. rewrite set_row_same. by eapply getitem_setitem_same.
  - intros [r c] Hrc Hne. unfold obj_cell. unfold_bind. simpl.
    destruct (obj_cell_in_grid b (r, c) Hsq Hrc) as (row' & v' & Hlook' & Hrow' & _).
    simpl in Hlook', Hrow'. rewrite Hrow'.
    destruct (decide (row' = row)) as [->|Hrows].
    + rewrite set_row_same.
      assert (Z.to_nat r = Z.to_nat x) as Hx by (by eapply NoDup_lookup).
      destruct Hin as [Hx0 Hy0], Hrc as [Hr0 Hc0]. simpl in *.
      apply (getitem_setitem_other (obj_rows b row) cells y c (PBool true));
        try done; try lia.
      intros Hyc. apply Hne. f_equal; lia.
    + by rewrite set_row_other.
  - intros r c. unfold obj_cell. unfold_bind. simpl.
    destruct (Py.getitem (obj_grid b) r) as [row'| |] eqn:Hg; try done.
    rewrite set_row_other; first done.
    intros ->. apply (Hdisj row).
    + by eapply list_elem_of_lookup_2.
    + apply getitem_Ok in Hg as (n & _ & Hn). by eapply list_elem_of_lookup_2.
Qed.

Lemma separate_rows_default : separate_rows obj_Board_default.
Proof.
  split.
  - apply NoDup_seq.
  - intros row Hh%elem_of_seq Hg%elem_of_seq. lia.
Qed.

Lemma obj_square_default : obj_square obj_Board_default.
Proof.
  split; first done.
  intros row Hh%elem_of_seq. simpl.
  destruct (Nat.ltb_spec row 10); first lia.
  destruct (Nat.ltb_spec row 20); last lia. done.
Qed.

Lemma register_shot_separate_rows_witness :
  register_shot_claim obj_Board_default 3 4 true.
Proof.
  apply register_shot_separate_rows.
  - exact separate_rows_default.
  - exact obj_square_default.
  - unfold in_grid, obj_Board_default, BOARD_SIZE. simpl. lia.
Defined.

(** With one row object behind both rows of the overlay, the first shot at
    [(0, 0)] also marks [(1, 0)]: the statement fails as soon as a row is
    shared. *)
Lemma register_shot_shared_rows :
  obj_square shared_rows_board /\
  in_grid (obj_size shared_rows_board) (0, 0) /\
  ~ register_shot_claim shared_rows_board 0 0 true.
Proof.
  split; [|split].
  - split; first done.
    intros row [->|[->|[]%elem_of_nil]%elem_of_cons]%elem_of_cons; done.
  - unfold in_grid. simpl. lia.
  - intros [(v & Hv & Hclaim) _].
    injection Hv as <-. simpl in Hclaim.
    destruct Hclaim as (b' & Hrun & _ & Hframe & _).
    injection Hrun as <-.
    specialize (Hframe (1, 0)). simpl in Hframe.
    assert (Ok (PBool true) = Ok (PBool false)) as [=].
    apply Hframe; [unfold in_grid; simpl; lia|done].
Qed.

(** ** The board of values next to the board object

    Elsewhere in this development a grid is the list of its rows' contents
    and an assignment to a cell rebuilds one row.  On boards with separate
    rows this is what the in-place assignment does. *)

Lemma getitem_fmap {A B} (f : A -> B) (l : list A) i :
  Py.getitem (f <$> l) i =
  match Py.getitem l i with
  | Ok a => Ok (f a)
  | Raise e => Raise e
  | Unfinished => Unfinished
  end.
Proof.
  unfold Py.getitem. rewrite length_fmap.
  destruct (Py.norm_index _ i) as [n|]; last done.
  rewrite list_lookup_fmap. by destruct (l !! n).
Qed.

Lemma setitem_fmap {A B} (f : A -> B) (l : list A) i a :
  Py.setitem (f <$> l) i (f a) =
  match Py.setitem l i a with
  | Ok l' => Ok (f <$> l')
  | Raise e => Raise e
  | Unfinished => Unfinished
  end.
Proof.
  unfold Py.setitem. rewrite length_fmap.
  destruct (Py.norm_index _ i) as [n|]; last done.
  by rewrite list_fmap_insert.
Qed.

Lemma value_of_obj_shot b x row cells hit :
  separate_rows b ->
  Py.getitem (obj_hits b) x = Ok row ->
  exists n,
    Py.norm_index (Z.of_nat (length (obj_hits b))) x = Some n /\
    value_of (obj_shot b row cells hit) =
    shot_board (value_of b) (<[n := truthy <$> cells]> (hits (value_of b))) hit.
Proof.
  intros [Hnodup Hdisj] (n & Hn & Hrow)%getitem_Ok. exists n. split; first done.
  unfold value_of, shot_board. simpl. f_equal.
  - apply list_fmap_ext. intros k row' Hk.
    rewrite set_row_other; first done.
    intros ->. apply (Hdisj row); by eapply list_elem_of_lookup_2.
  - apply list_eq. intros k. rewrite list_lookup_fmap.
    destruct (decide (k = n)) as [->|Hne].
    + rewrite list_lookup_insert_eq
        by (rewrite length_fmap; by eapply lookup_lt_Some).
      rewrite Hrow. simpl. by rewrite set_row_same.
    + rewrite list_lookup_insert_ne, list_lookup_fmap by done.
      destruct (obj_hits b !! k) as [row'|] eqn:Hk; last done.
      simpl. rewrite set_row_other; first done.
      intros ->. apply Hne. by eapply NoDup_lookup.
Qed.

(** On separate rows, [register_shot] on the board of values is
    [register_shot] on the board object, seen through [value_of]. *)
Lemma register_shot_refines (b : BoardObj) (x y : Z) (hit : bool) :
  separate_rows b ->
  register_shot (value_of b) x y hit =
  match obj_register_shot b x y hit with
  | Ok (r, b') => Ok (r, value_of b')
  | Raise e => Raise e
  | Unfinished => Unfinished
  end.
Proof.
  intros Hsep.
  assert (Hread : Py.getitem2 (hits (value_of b)) x y =
                  match obj_cell b (obj_hits b) x y with
                  | Ok v => Ok (truthy v)
                  | Raise e => Raise e
                  | Unfinished => Unfinished
                  end).
  { unfold Py.getitem2, obj_cell. unfold_bind. simpl.
    rewrite getitem_fmap.
    destruct (Py.getitem (obj_hits b) x) as [row| |]; try done.
    apply getitem_fmap. }
  destruct (obj_cell b (obj_hits b) x y) as [v| |] eqn:Hcell.
  - pose proof Hcell as (row & Hrow & Hv)%obj_cell_Ok.
    destruct (truthy v) eqn:Ht.
    + rewrite (obj_register_shot_already b x y hit v) by done.
      by apply register_shot_already.
    + destruct (obj_register_shot_fresh b x y hit row v Hrow Hv Ht)
        as (cells & Hset & ->).
      destruct (register_shot_fresh (value_of b) x y hit Hread)
        as (h' & Hset' & _ & ->).
      destruct (value_of_obj_shot b x row cells hit Hsep Hrow) as (n & Hn & ->).
      do 3 f_equal.
      unfold Py.setitem2 in Hset'. unfold_bind. simpl in Hset'.
      rewrite getitem_fmap, Hrow in Hset'.
      change true with (truthy (PBool true)) in Hset'.
      rewrite setitem_fmap, Hset in Hset'.
      unfold Py.setitem in Hset'. rewrite length_fmap, Hn in Hset'.
      by injection Hset' as <-.
  - unfold obj_register_shot, register_shot. unfold_bind.
    by rewrite Hread, Hcell.
  - unfold obj_register_shot, register_shot. unfold_bind.
    by rewrite Hread, Hcell.
Qed.

(** Without separate rows the two part: on the shared-row board the object
    marks both rows, the board of values one. *)
Example shared_rows_need_objects :
  exists b',
    obj_register_shot shared_rows_board 0 0 true = Ok (true, b') /\
    register_shot (value_of shared_rows_board) 0 0 true <> Ok (true, value_of b').
Proof. eexists. split; [reflexivity|]. intros [=]. Qed.

(** [Board()] as an object stands for [Board_default]. *)
Lemma value_of_default : value_of obj_Board_default = Board_default.
Proof. reflexivity. Qed.

(** ** The blind-and-reveal round *)

Lemma blind_scalar_range w : 1 <= blind_scalar w <= 100.
Proof.
  unfold blind_scalar.
  pose proof (Z.mod_pos_bound (py_random w 0%nat) 100). lia.
Qed.

Lemma blind_multiply_random_run C ct w :
  blind_multiply_random C ct w =
  Ok (evaluator_multiply_plain C ct (encoder_encode_int C [blind_scalar w]),
      after_blind w).
Proof. reflexivity. Qed.

Lemma decrypt_first_run C ct w :
  decrypt_first C ct w =
  match head (encoder_decode_int C (decryptor_decrypt C ct)) with
  | Some m => Ok (m, after_decrypt w)
  | None => Raise IndexError
  end.
Proof.
  unfold decrypt_first, Seal.decrypt, Seal.decode_int, log_call. unfold_bind.
  simpl. destruct (encoder_decode_int C (decryptor_decrypt C ct)); reflexivity.
Qed.

Lemma blind_then_decrypt_run C ct w :
  (c ← blind_multiply_random C ct; decrypt_first C c) w =
  match head (revealed_slots C ct w) with
  | Some m => Ok (m, after_decrypt (after_blind w))
  | None => Raise IndexError
  end.
Proof.
  change ((c ← blind_multiply_random C ct; decrypt_first C c) w)
    with (match blind_multiply_random C ct w with
          | Ok (c, w') => decrypt_first C c w'
          | Raise e => Raise e
          | Unfinished => Unfinished
          end).
  rewrite blind_multiply_random_run, decrypt_first_run. reflexivity.
Qed.

Lemma blinded_zero_iff (v r t : Z) :
  plain_modulus t -> 0 <= v <= 5 -> 1 <= r <= 100 ->
  ((r * v) mod t = 0 <-> v = 0).
Proof.
  unfold plain_modulus, PLAIN_MODULUS_BITS. simpl. intros Ht Hv Hr.
  rewrite Z.mod_small by nia. nia.
Qed.

(** C2. Under the modular contract for a 32-bit plaintext modulus, the
    value decoded after blinding the encryption of a cell value [0..5] is
    zero exactly when the cell value is zero: for every scalar [r] in
    [1..100], and for [blind_multiply_random] followed by [decrypt_first]
    in every world. *)
Theorem blind_preserves_zero (C : SealBFVCrypto) (t v s : Z) :
  contract_mod C t ->
  plain_modulus t ->
  0 <= v <= 5 ->
  (forall r, 1 <= r <= 100 ->
     exists m, head (blinded_slots C v r s) = Some m /\ (m = 0 <-> v = 0))
  /\
  (forall w,
     exists m w',
       (c ← blind_multiply_random C
              (encryptor_encrypt C (encoder_encode_int C [v]) s);
        decrypt_first C c) w = Ok (m, w') /\
       (m = 0 <-> v = 0)).
Proof.
  intros Hc Ht Hv. split.
  - intros r Hr. exists ((r * v) mod t). split; first apply Hc.
    by apply blinded_zero_iff.
  - intros w. rewrite blind_then_decrypt_run.
    unfold revealed_slots. fold (blinded_slots C v (blind_scalar w) s).
    rewrite Hc. do 2 eexists. split; first done.
    apply blinded_zero_iff; try done. apply blind_scalar_range.
Qed.

Lemma ToyMod_contract t : 0 < t -> contract_mod (ToyMod t) t.
Proof.
  intros Ht v r s. unfold blinded_slots. simpl. f_equal.
  rewrite <- Z.mul_mod by lia. done.
Qed.

Lemma ToyExact_contract : contract_exact ToyExact.
Proof. intros v r s. reflexivity. Qed.

Lemma toy_modulus_ok : plain_modulus TOY_MODULUS.
Proof. unfold plain_modulus, TOY_MODULUS, PLAIN_MODULUS_BITS. simpl. lia. Qed.

Lemma blind_preserves_zero_witness :
  exists m w',
    (c ← blind_multiply_random (ToyMod TOY_MODULUS)
           (encryptor_encrypt (ToyMod TOY_MODULUS)
              (encoder_encode_int (ToyMod TOY_MODULUS) [3]) 7);
     decrypt_first (ToyMod TOY_MODULUS) c) (const_world 41) = Ok (m, w') /\
    (m = 0 <-> 3 = 0).
Proof.
  apply (blind_preserves_zero (ToyMod TOY_MODULUS) TOY_MODULUS 3 7).
  - apply ToyMod_contract. unfold TOY_MODULUS. lia.
  - exact toy_modulus_ok.
  - lia.
Defined.

(** ** [Server.process_guess] *)

Lemma process_guess_already attacker d x y w :
  Py.getitem2 (hits (board d)) x y = Ok true ->
  process_guess attacker d x y w = Ok ((false, d), w).
Proof. intros H. unfold process_guess. unfold_bind. by rewrite H. Qed.

(** The call on a cell not yet shot, step by step. *)
Lemma process_guess_unfold attacker d x y w :
  Py.getitem2 (hits (board d)) x y = Ok false ->
  process_guess attacker d x y w =
  match Py.getitem2 (enc_board d) x y with
  | Ok ct =>
      match head (revealed_slots (crypto d) ct w) with
      | Some m =>
          match register_shot (board d) x y (negb (m =? 0)) with
          | Ok shot =>
              Ok ((negb (m =? 0), set_board d shot.2),
                  after_decrypt (after_blind w))
          | Raise e => Raise e
          | Unfinished => Unfinished
          end
      | None => Raise IndexError
      end
  | Raise e => Raise e
  | Unfinished => Unfinished
  end.
Proof.
  intros H. unfold process_guess.
  unfold mbind at 1, M_mbind at 1, M_bind at 1. unfold lift at 1. rewrite H.
  unfold mbind at 1, M_mbind at 1, M_bind at 1. unfold lift at 1.
  destruct (Py.getitem2 (enc_board d) x y) as [ct| |]; try done.
  unfold mbind at 1, M_mbind at 1, M_bind at 1.
  rewrite blind_multiply_random_run.
  unfold mbind at 1, M_mbind at 1, M_bind at 1.
  rewrite decrypt_first_run. fold (revealed_slots (crypto d) ct w).
  destruct (head (revealed_slots (crypto d) ct w)) as [m|]; last done.
  unfold_bind. by destruct (register_shot (board d) x y (negb (m =? 0))).
Qed.

Lemma process_guess_fresh attacker d x y w ct m :
  Py.getitem2 (hits (board d)) x y = Ok false ->
  Py.getitem2 (enc_board d) x y = Ok ct ->
  head (revealed_slots (crypto d) ct w) = Some m ->
  exists h',
    Py.setitem2 (hits (board d)) x y true = Ok h' /\
    Py.getitem2 h' x y = Ok true /\
    process_guess attacker d x y w =
      Ok ((negb (m =? 0),
           set_board d (shot_board (board d) h' (negb (m =? 0)))),
          after_decrypt (after_blind w)).
Proof.
  intros Hh Hct Hm.
  destruct (register_shot_fresh (board d) x y (negb (m =? 0)) Hh)
    as (h' & Hset & Hget & Hreg).
  exists h'. split; [done|split; [done|]].
  by rewrite process_guess_unfold, Hct, Hm, Hreg.
Qed.

Lemma process_guess_inv attacker d x y w hit d' w' :
  process_guess attacker d x y w = Ok ((hit, d'), w') ->
  (Py.getitem2 (hits (board d)) x y = Ok true /\
   hit = false /\ d' = d /\ w' = w)
  \/
  (Py.getitem2 (hits (board d)) x y = Ok false /\
   exists ct m h',
     Py.getitem2 (enc_board d) x y = Ok ct /\
     head (revealed_slots (crypto d) ct w) = Some m /\
     hit = negb (m =? 0) /\
     Py.setitem2 (hits (board d)) x y true = Ok h' /\
     Py.getitem2 h' x y = Ok true /\
     d' = set_board d (shot_board (board d) h' hit) /\
     w' = after_decrypt (after_blind w)).
Proof.
  intros Hrun.
  destruct (Py.getitem2 (hits (board d)) x y) as [[|]| |] eqn:Hh.
  - left. rewrite process_guess_already in Hrun by done.
    injection Hrun as <- <- <-. done.
  - right. split; first done.
    rewrite process_guess_unfold in Hrun by done.
    destruct (Py.getitem2 (enc_board d) x y) as [ct| |] eqn:Hct; try done.
    destruct (head (revealed_slots (crypto d) ct w)) as [m|] eqn:Hm; last done.
    destruct (process_guess_fresh attacker d x y w ct m Hh Hct Hm)
      as (h' & Hset & Hget & Hrun').
    destruct (register_shot_fresh (board d) x y (negb (m =? 0)) Hh)
      as (h'' & Hset' & _ & Hreg).
    rewrite Hreg in Hrun. injection Hrun as <- <- <-.
    rewrite Hset in Hset'. injection Hset' as <-.
    exists ct, m, h'. done.
  - unfold process_guess in Hrun. unfold_bind. by rewrite Hh in Hrun.
  - unfold process_guess in Hrun. unfold_bind. by rewrite Hh in Hrun.
Qed.

(** ** [Player.encrypt_board] *)

(** A comprehension whose body returns on every element returns, and its
    results are related to the elements one by one. *)
Lemma mapM_returns {A B} (f : A -> M B) (P : A -> B -> Prop) (l : list A) :
  (forall x w, x ∈ l -> exists y w', f x w = Ok (y, w') /\ P x y) ->
  forall w, exists ys w', mapM f l w = Ok (ys, w') /\ Forall2 P l ys.
Proof.
  induction l as [|x l IH]; intros Hf w.
  - exists [], w. split; [reflexivity|constructor].
  - destruct (Hf x w) as (y & w1 & Hy & HP); first by left.
    destruct (IH (fun x' w' Hx' => Hf x' w' (list_elem_of_further _ _ _ Hx')) w1)
      as (ys & w2 & Hys & HPs).
    exists (y :: ys), w2. split; last by constructor.
    simpl. unfold mbind at 1, M_mbind at 1, M_bind at 1. rewrite Hy.
    unfold mbind at 1, M_mbind at 1, M_bind at 1. rewrite Hys. reflexivity.
Qed.

Lemma encrypt_int_run C v w :
  exists w', encrypt_int C v w =
             Ok (encryptor_encrypt C (encoder_encode_int C [v]) (seal_random w 0%nat), w').
Proof. eexists. reflexivity. Qed.

Lemma range_lookup n (i : nat) :
  (i < Z.to_nat n)%nat -> Py.range n !! i = Some (Z.of_nat i).
Proof. intros Hi. unfold Py.range. by rewrite lookup_seqZ_lt by lia. Qed.

Lemma encrypt_board_run (p : Player) (w : World) :
  shape (size (board p)) (grid (board p)) ->
  exists rows w',
    encrypt_board p w = Ok (set_enc_board p rows, w') /\
    shape (size (board p)) rows /\
    forall rc, in_grid (size (board p)) rc ->
      exists v ct,
        Py.getitem2 (grid (board p)) rc.1 rc.2 = Ok v /\
        Py.getitem2 rows rc.1 rc.2 = Ok ct /\
        encrypts (crypto p) ct v.
Proof.
  intros Hshape. set (n := size (board p)) in *.
  set (cellP := fun (r c : Z) (ct : ciphertext (crypto p)) =>
         exists v, Py.getitem2 (grid (board p)) r c = Ok v /\
                   encrypts (crypto p) ct v).
  set (rowP := fun (r : Z) (row : list (ciphertext (crypto p))) =>
         Forall2 (cellP r) (Py.range n) row).
  destruct (mapM_returns
              (fun r => mapM (fun c =>
                                v ← lift (Py.getitem2 (grid (board p)) r c);
                                encrypt_int (crypto p) v) (Py.range n))
              rowP (Py.range n)) with (w := w) as (rows & w' & Hrun & Hrows).
  { intros r w0 Hr%elem_of_range. apply mapM_returns.
    intros c w1 Hc%elem_of_range.
    destruct (getitem2_in_grid n (grid (board p)) (r, c) Hshape)
      as (_ & v & _ & _ & _ & Hv); first done.
    simpl in Hv.
    destruct (encrypt_int_run (crypto p) v w1) as (w2 & Henc).
    do 2 eexists. split.
    - unfold mbind at 1, M_mbind at 1, M_bind at 1. unfold lift at 1.
      rewrite Hv. exact Henc.
    - exists v. split; first done. eexists. reflexivity. }
  assert (Hlen : length rows = Z.to_nat n).
  { rewrite <- (Forall2_length _ _ _ Hrows). unfold Py.range. apply length_seqZ. }
  assert (Hrow : forall (i : nat) row, rows !! i = Some row ->
                   rowP (Z.of_nat i) row).
  { intros i row Hi.
    destruct (Forall2_lookup_r _ _ _ _ _ Hrows Hi) as (r & Hr & HP).
    rewrite range_lookup in Hr by (apply lookup_lt_Some in Hi; lia).
    by injection Hr as <-. }
  exists rows, w'. split; [|split].
  - unfold encrypt_board. fold n.
    unfold mbind at 1, M_mbind at 1, M_bind at 1. rewrite Hrun. reflexivity.
  - split; first done. apply Forall_lookup. intros i row Hi.
    rewrite <- (Forall2_length _ _ _ (Hrow i row Hi)).
    unfold Py.range. apply length_seqZ.
  - intros rc Hin. pose proof Hin as [Hr Hc].
    destruct (lookup_lt_is_Some_2 rows (Z.to_nat rc.1)) as [row Hrw]; first lia.
    pose proof (Hrow _ _ Hrw) as HrowP. rewrite Z2Nat.id in HrowP by lia.
    destruct (Forall2_lookup_l _ _ _ (Z.to_nat rc.2) rc.2 HrowP)
      as (ct & Hct & v & Hv & Henc).
    { rewrite range_lookup by lia. f_equal. lia. }
    exists v, ct. split; [done|split; [|done]].
    apply getitem2_Ok. exists row.
    assert (length row = Z.to_nat n).
    { rewrite <- (Forall2_length _ _ _ HrowP). unfold Py.range. apply length_seqZ. }
    rewrite !getitem_in_range by lia. by rewrite Hrw, Hct.
Qed.

(** C8. On a player whose grid is a square of the board's side,
    [encrypt_board] returns, leaves the plaintext board (and the rest of
    the player) as it was, and stores a square of ciphertexts of the same
    side in which the entry at [(r, c)] is an encryption of the scalar
    [grid[r][c]]. *)
Theorem encrypt_board_spec (p : Player) (w : World) :
  shape (size (board p)) (grid (board p)) ->
  exists p' w',
    encrypt_board p w = Ok (p', w') /\
    board p' = board p /\
    name p' = name p /\ points p' = points p /\
    shape (size (board p)) (enc_board p') /\
    forall r c, 0 <= r < size (board p) -> 0 <= c < size (board p) ->
      exists v ct,
        Py.getitem2 (grid (board p)) r c = Ok v /\
        Py.getitem2 (enc_board p') r c = Ok ct /\
        encrypts (crypto p') ct v.
Proof.
  intros Hshape.
  destruct (encrypt_board_run p w Hshape) as (rows & w' & Hrun & Hrows & Hcells).
  exists (set_enc_board p rows), w'. repeat split; try done; try apply Hrows.
  intros r c Hr Hc. apply (Hcells (r, c)). by split.
Qed.

Lemma encrypt_board_consistent (p p' : Player) (w w' : World) :
  shape (size (board p)) (grid (board p)) ->
  encrypt_board p w = Ok (p', w') ->
  board p' = board p /\ enc_consistent p' /\
  shape (size (board p)) (enc_board p').
Proof.
  intros Hshape Hrun.
  destruct (encrypt_board_run p w Hshape) as (rows & w1 & Hrun' & Hrows & Hcells).
  rewrite Hrun' in Hrun. injection Hrun as <- <-. split; first done.
  split; [exact Hcells|exact Hrows].
Qed.

(** ** Sample games *)

Lemma value_or_run {A} (d : A) (o : outcome (A * World)) :
  returns o = true -> exists w', o = Ok (value_or d o, w').
Proof. destruct o as [[a w']| |]; try done. intros _. by exists w'. Qed.

Lemma shape_grid_demo : shape 10 (grid demo_board).
Proof. split; [reflexivity|]. vm_compute. repeat constructor. Qed.

Lemma shape_grid_fleet : shape 10 (grid fleet_board).
Proof. split; [reflexivity|]. vm_compute. repeat constructor. Qed.

Lemma demo_board_run :
  exists w',
    place_ships 1 [2] 1 (reset_board Board_default) (const_world 0)
      = Ok (demo_board, w').
Proof. apply value_or_run. vm_compute. reflexivity. Qed.

Lemma fleet_board_run :
  exists w',
    place_ships_random 3 Board_default (list_world fleet_draws)
      = Ok (fleet_board, w').
Proof. apply value_or_run. vm_compute. reflexivity. Qed.

Lemma sealed_player_run C b :
  shape (size b) (grid b) ->
  exists w',
    encrypt_board (Player_new "Bob (Computer)" C b) (const_world 0)
      = Ok (sealed_player C b, w').
Proof.
  intros Hshape. apply value_or_run.
  destruct (encrypt_board_run (Player_new "Bob (Computer)" C b)
              (const_world 0) Hshape) as (rows & w' & -> & _).
  reflexivity.
Qed.

Lemma sealed_player_crypto C b :
  shape (size b) (grid b) -> crypto (sealed_player C b) = C.
Proof.
  intros Hshape. unfold sealed_player.
  destruct (encrypt_board_run (Player_new "Bob (Computer)" C b)
              (const_world 0) Hshape) as (rows & w' & -> & _).
  reflexivity.
Qed.

Lemma sealed_player_consistent C b :
  shape (size b) (grid b) ->
  board (sealed_player C b) = b /\ enc_consistent (sealed_player C b) /\
  shape (size b) (enc_board (sealed_player C b)).
Proof.
  intros Hshape. destruct (sealed_player_run C b Hshape) as [w' Hrun].
  by apply (encrypt_board_consistent (Player_new "Bob (Computer)" C b)
              _ _ _ Hshape) in Hrun.
Qed.

Lemma fleet_after_run :
  exists w',
    play (sealed_player (ToyMod TOY_MODULUS) fleet_board)
         (sealed_player (ToyMod TOY_MODULUS) fleet_board)
         [(0, 0); (0, 1); (7, 7); (0, 1); (0, 2)]
         (const_world 12) = Ok (fleet_after, w').
Proof. apply value_or_run. vm_compute. reflexivity. Qed.

Lemma demo_after_run :
  exists w',
    play (sealed_player (ToyMod TOY_MODULUS) demo_board)
         (sealed_player (ToyMod TOY_MODULUS) demo_board)
         [(0, 0); (5, 5); (0, 1)]
         (const_world 12) = Ok (demo_after, w').
Proof. apply value_or_run. vm_compute. reflexivity. Qed.

Lemma encrypt_board_spec_witness :
  exists p' w',
    encrypt_board (Player_new "Alice (You)" ToyExact fleet_board) (const_world 0)
      = Ok (p', w') /\
    board p' = fleet_board /\
    shape (size fleet_board) (enc_board p').
Proof.
  destruct (encrypt_board_spec (Player_new "Alice (You)" ToyExact fleet_board)
              (const_world 0) shape_grid_fleet)
    as (p' & w' & Hrun & Hboard & _ & _ & Hshape & _).
  exists p', w'. split; [exact Hrun|split; [exact Hboard|exact Hshape]].
Defined.

(** C1. Under the exact contract, on a 10x10 defender whose encrypted board
    encrypts the grid cell by cell, a guess at a coordinate inside the
    board that has not been shot returns, and the returned flag is true
    when the grid cell is non-zero and false when it is zero (water). *)
Theorem process_guess_hit_iff_ship (attacker defender : Player) (x y : Z) (w : World) :
  contract_exact (crypto defender) ->
  size (board defender) = BOARD_SIZE ->
  enc_consistent defender ->
  0 <= x < 10 -> 0 <= y < 10 ->
  Py.getitem2 (hits (board defender)) x y = Ok false ->
  exists v hit defender' w',
    Py.getitem2 (grid (board defender)) x y = Ok v /\
    process_guess attacker defender x y w = Ok ((hit, defender'), w') /\
    (v <> 0 -> hit = true) /\
    (v = 0 -> hit = false).
Proof.
  intros Hc Hsize Henc Hx Hy Hh.
  destruct (Henc (x, y)) as (v & ct & Hv & Hct & s & ->).
  { rewrite Hsize. by split. }
  simpl in Hv, Hct.
  assert (Hm : head (revealed_slots (crypto defender)
                  (encryptor_encrypt (crypto defender)
                     (encoder_encode_int (crypto defender) [v]) s) w)
               = Some (blind_scalar w * v)) by apply Hc.
  destruct (process_guess_fresh attacker defender x y w _ _ Hh Hct Hm)
    as (h' & _ & _ & Hrun).
  do 4 eexists. split; [exact Hv|split; [exact Hrun|]].
  pose proof (blind_scalar_range w). split; intros Hv0.
  - apply negb_true_iff, Z.eqb_neq. nia.
  - apply negb_false_iff, Z.eqb_eq. nia.
Qed.

Lemma process_guess_hit_iff_ship_witness :
  exists hit d' w',
    process_guess (sealed_player ToyExact fleet_board)
                  (sealed_player ToyExact demo_board) 0 1 (const_world 6)
      = Ok ((hit, d'), w') /\
    hit = true.
Proof.
  destruct (sealed_player_consistent ToyExact demo_board shape_grid_demo)
    as (Hboard & Henc & _).
  destruct (process_guess_hit_iff_ship (sealed_player ToyExact fleet_board)
              (sealed_player ToyExact demo_board) 0 1 (const_world 6))
    as (v & hit & d' & w' & Hv & Hrun & Hship & _).
  - exact ToyExact_contract.
  - rewrite Hboard. reflexivity.
  - exact Henc.
  - lia.
  - lia.
  - rewrite Hboard. reflexivity.
  - exists hit, d', w'. split; [exact Hrun|]. apply Hship.
    rewrite Hboard in Hv. vm_compute in Hv. injection Hv as <-. lia.
Defined.

(** C5. A guess at a coordinate already shot returns [False] at once: the
    defender (board and all) is the one passed in, and so is the world, so
    no SEAL operation was recorded and no random draw was taken. *)
Theorem process_guess_already_shot (attacker defender : Player) (x y : Z) (w : World) :
  Py.getitem2 (hits (board defender)) x y = Ok true ->
  exists defender' w',
    process_guess attacker defender x y w = Ok ((false, defender'), w') /\
    defender' = defender /\
    hits (board defender') = hits (board defender) /\
    hits_count (board defender') = hits_count (board defender) /\
    grid (board defender') = grid (board defender) /\
    total_ship_cells (board defender') = total_ship_cells (board defender) /\
    seal_calls w' = seal_calls w /\
    w' = w.
Proof.
  intros Hh. exists defender, w.
  rewrite process_guess_already by done. done.
Qed.

(** C10. Whenever [process_guess] returns, either the guard found the cell
    already shot and [register_shot] was not reached (nothing changed), or
    the guard found it unshot and the call [register_shot(x, y, hit)] it
    then makes on the defender's board returned [True] and produced the
    board the defender ends with.  In the second case the call returns
    [True] for either value of the flag. *)
Theorem process_guess_register_shot_true (attacker d : Player) (x y : Z) (w : World) :
  (forall hit d' w',
     process_guess attacker d x y w = Ok ((hit, d'), w') ->
     (Py.getitem2 (hits (board d)) x y = Ok true /\ d' = d /\ w' = w)
     \/
     (Py.getitem2 (hits (board d)) x y = Ok false /\
      register_shot (board d) x y hit = Ok (true, board d')))
  /\
  (Py.getitem2 (hits (board d)) x y = Ok false ->
   forall hit, exists b', register_shot (board d) x y hit = Ok (true, b')).
Proof.
  split.
  - intros hit d' w'
      [(Hh & _ & -> & ->)|(Hh & ct & m & h' & _ & _ & -> & Hset & _ & -> & _)]%process_guess_inv.
    + by left.
    + right. split; first done.
      destruct (register_shot_fresh (board d) x y (negb (m =? 0)) Hh)
        as (h'' & Hset' & _ & ->).
      rewrite Hset in Hset'. by injection Hset' as <-.
  - intros Hh hit.
    destruct (register_shot_fresh (board d) x y hit Hh) as (h' & _ & _ & ->).
    eauto.
Qed.

Lemma process_guess_already_shot_witness :
  exists d' w',
    process_guess (Player_new "Alice (You)" ToyExact fleet_board)
                  (Player_new "Bob (Computer)" ToyExact demo_board_shot)
                  0 0 (const_world 0)
      = Ok ((false, d'), w') /\
    d' = Player_new "Bob (Computer)" ToyExact demo_board_shot /\
    hits (board d') = hits demo_board_shot /\
    hits_count (board d') = hits_count demo_board_shot /\
    grid (board d') = grid demo_board_shot /\
    total_ship_cells (board d') = total_ship_cells demo_board_shot /\
    seal_calls w' = seal_calls (const_world 0) /\
    w' = const_world 0.
Proof.
  apply (process_guess_already_shot
           (Player_new "Alice (You)" ToyExact fleet_board)
           (Player_new "Bob (Computer)" ToyExact demo_board_shot)
           0 0 (const_world 0)).
  vm_compute. reflexivity.
Defined.

Lemma process_guess_register_shot_true_witness :
  exists hit d' w',
    process_guess (Player_new "Alice (You)" ToyExact fleet_board)
                  (sealed_player ToyExact demo_board) 0 0 (const_world 0)
      = Ok ((hit, d'), w') /\
    register_shot (board (sealed_player ToyExact demo_board)) 0 0 hit
      = Ok (true, board d').
Proof.
  assert (Hok : returns (process_guess
                           (Player_new "Alice (You)" ToyExact fleet_board)
                           (sealed_player ToyExact demo_board) 0 0 (const_world 0))
                = true) by (vm_compute; reflexivity).
  destruct (process_guess (Player_new "Alice (You)" ToyExact fleet_board)
              (sealed_player ToyExact demo_board) 0 0 (const_world 0))
    as [[[hit d'] w']| |] eqn:Hrun.
  - exists hit, d', w'. split; [reflexivity|].
    destruct (proj1 (process_guess_register_shot_true
                       (Player_new "Alice (You)" ToyExact fleet_board)
                       (sealed_player ToyExact demo_board) 0 0 (const_world 0))
                hit d' w' Hrun) as [[Hh _]|[_ Hreg]].
    + vm_compute in Hh. discriminate Hh.
    + exact Hreg.
  - discriminate Hok.
  - discriminate Hok.
Defined.

(** ** Direct calls of [register_shot] *)

Lemma length_coords n : 0 <= n -> Z.of_nat (length (coords n)) = n * n.
Proof.
  intros Hn. unfold coords.
  assert (Hinner : forall r : Z,
            length (Py.range n ≫= fun c => [(r, c)]) = Z.to_nat n).
  { intros r. unfold Py.range. rewrite <- (length_seqZ 0 n).
    induction (seqZ 0 n) as [|c l IH]; first done.
    rewrite bind_cons. simpl. by rewrite IH. }
  assert (Houter : forall l : list Z,
            length (l ≫= fun r => Py.range n ≫= fun c => [(r, c)])
            = (length l * Z.to_nat n)%nat).
  { induction l as [|r l IH]; first done.
    rewrite bind_cons, length_app, Hinner, IH. simpl. lia. }
  rewrite Houter. unfold Py.range. rewrite length_seqZ. lia.
Qed.

(** Direct calls with the flag set, one per cell of a duplicate-free list
    of unshot cells, all return and each adds one to [hits_count]. *)
Lemma direct_shots_flagged (cs : list (Z * Z)) :
  forall b,
    shape (size b) (hits b) ->
    NoDup cs ->
    (forall rc, rc ∈ cs ->
       in_grid (size b) rc /\ Py.getitem2 (hits b) rc.1 rc.2 = Ok false) ->
    exists b',
      rtc direct_step b b' /\
      hits_count b' = hits_count b + Z.of_nat (length cs) /\
      total_ship_cells b' = total_ship_cells b /\
      grid b' = grid b.
Proof.
  induction cs as [|rc cs IH]; intros b Hshape Hnd Hcs.
  - exists b. split; first done. simpl. split; [lia|done].
  - apply NoDup_cons in Hnd as [Hrc Hnd].
    destruct (Hcs rc) as [Hin Hfalse]; first by left.
    destruct (register_shot_fresh b rc.1 rc.2 true Hfalse)
      as (h' & Hset & _ & Hreg).
    destruct (setitem2_in_grid (size b) (hits b) rc true Hshape Hin)
      as (h'' & Hset' & Hshape' & _ & Hframe).
    rewrite Hset in Hset'. injection Hset' as <-.
    destruct (IH (shot_board b h' true)) as (b' & Hsteps & Hcount & Htotal & Hgrid);
      try done.
    { intros rc' Hrc'. destruct (Hcs rc') as [Hin' Hfalse']; first by right.
      split; first done. simpl. rewrite Hframe; try done.
      intros ->. done. }
    exists b'. split; [|split; [|done]].
    + eapply rtc_l; last done. econstructor. exact Hreg.
    + rewrite Hcount. unfold shot_board. cbn [hits_count length]. lia.
Qed.

(** C9. [register_shot] takes the increment from its flag alone.  On any
    board, shooting an unshot cell with the flag set returns [True] and
    adds one to [hits_count], whatever the grid holds there; replacing the
    grid by any other grid changes nothing in what the call does; and from
    every freshly placed board that is not all ships, direct calls reach a
    board whose [hits_count] exceeds [total_ship_cells]. *)
Theorem register_shot_trusts_flag :
  (forall b x y,
     Py.getitem2 (hits b) x y = Ok false ->
     exists b',
       register_shot b x y true = Ok (true, b') /\
       hits_count b' = hits_count b + 1 /\
       grid b' = grid b /\
       total_ship_cells b' = total_ship_cells b)
  /\
  (forall b g x y hit,
     register_shot (set_grid b g) x y hit =
     shot ← register_shot b x y hit; Ok (shot.1, set_grid shot.2 g))
  /\
  (forall b,
     placed b ->
     total_ship_cells b < size b * size b ->
     exists b',
       rtc direct_step b b' /\ total_ship_cells b' < hits_count b').
Proof.
  split; [|split].
  - intros b x y Hfalse.
    destruct (register_shot_fresh b x y true Hfalse) as (h' & _ & _ & ->).
    eexists. split; first done. done.
  - intros b g x y hit. unfold register_shot. unfold_bind. simpl.
    destruct (Py.getitem2 (hits b) x y) as [[|]| |]; try done.
    destruct (Py.setitem2 (hits b) x y true); try done.
    by destruct hit.
  - intros b ((Hsize & _ & Hshape) & Hfresh & Hzero & Htotal) Hroom.
    set (k := Z.to_nat (total_ship_cells b + 1)).
    pose proof (count_if_bounds (ship_at (grid b)) (coords (size b))) as Hb.
    fold (ship_count b) in Hb. rewrite <- Htotal in Hb.
    pose proof (length_coords (size b) Hsize) as Hlen.
    destruct (direct_shots_flagged (take k (coords (size b))) b)
      as (b' & Hsteps & Hcount & Htotal' & _); try done.
    + eapply sublist_NoDup; [apply NoDup_coords|apply sublist_take].
    + intros rc Hrc. apply subseteq_take in Hrc.
      apply elem_of_coords in Hrc. split; first done. by apply Hfresh.
    + exists b'. split; first done.
      rewrite Hcount, Htotal', Hzero, length_take. unfold k. lia.
Qed.

Lemma register_shot_trusts_flag_witness :
  exists b',
    register_shot fleet_board 7 7 true = Ok (true, b') /\
    hits_count b' = hits_count fleet_board + 1.
Proof.
  destruct (proj1 register_shot_trusts_flag fleet_board 7 7)
    as (b' & Hreg & Hcount & _).
  - reflexivity.
  - exists b'. split; [exact Hreg|exact Hcount].
Defined.

(** ** Placement *)

Lemma elem_of_cells_of h row col len rc :
  rc ∈ cells_of h row col len <-> on_segment h row col len rc.
Proof.
  unfold cells_of, cells_H, cells_V, on_segment.
  destruct h; rewrite list_elem_of_fmap; setoid_rewrite elem_of_range.
  - split.
    + intros (i & -> & Hi). simpl. lia.
    + intros [Hr Hc]. exists (rc.2 - col). split; last lia.
      destruct rc; simpl in *. f_equal; lia.
  - split.
    + intros (i & -> & Hi). simpl. lia.
    + intros [Hc Hr]. exists (rc.1 - row). split; last lia.
      destruct rc; simpl in *. f_equal; lia.
Qed.

Lemma NoDup_cells_of h row col len : NoDup (cells_of h row col len).
Proof.
  unfold cells_of, cells_H, cells_V, Py.range.
  destruct h; apply NoDup_fmap_2_strong; try apply NoDup_seqZ.
  - intros i j _ _ [= ?]. lia.
  - intros i j _ _ [= ?]. lia.
Qed.

Lemma length_cells_of h row col len :
  0 <= len -> Z.of_nat (length (cells_of h row col len)) = len.
Proof.
  intros Hlen. unfold cells_of, cells_H, cells_V, Py.range.
  destruct h; rewrite length_fmap, length_seqZ; lia.
Qed.

Lemma segment_in_grid n h row col len rc :
  segment_inside n h row col len -> on_segment h row col len rc -> in_grid n rc.
Proof. unfold segment_inside, on_segment, in_grid. destruct h; lia. Qed.

Lemma all_free_true g cells :
  all_free g cells = Ok true ->
  forall rc, rc ∈ cells -> Py.getitem2 g rc.1 rc.2 = Ok 0.
Proof.
  induction cells as [|[r c] cells IH]; intros Hfree rc Hrc; first by inv Hrc.
  simpl in Hfree. unfold_bind.
  destruct (Py.getitem2 g r c) as [v| |] eqn:Hv; try done.
  destruct (Z.eqb_spec v 0) as [->|]; last done.
  apply elem_of_cons in Hrc as [->|Hrc]; first done. by apply IH.
Qed.

Lemma stamp_spec n cells ship_id :
  forall g,
    shape n g ->
    (forall rc, rc ∈ cells -> in_grid n rc) ->
    exists g',
      stamp g cells ship_id = Ok g' /\ shape n g' /\
      (forall rc, rc ∈ cells -> Py.getitem2 g' rc.1 rc.2 = Ok ship_id) /\
      (forall rc, in_grid n rc -> rc ∉ cells ->
         Py.getitem2 g' rc.1 rc.2 = Py.getitem2 g rc.1 rc.2).
Proof.
  induction cells as [|[r c] cells IH]; intros g Hshape Hin.
  - exists g. split; [done|split; [done|split]]; last done.
    intros rc Hrc. by inv Hrc.
  - destruct (setitem2_in_grid n g (r, c) ship_id Hshape)
      as (g1 & Hset & Hshape1 & Hget1 & Hframe1); first (apply Hin; by left).
    destruct (IH g1 Hshape1) as (g' & Hstamp & Hshape' & Hcells & Hframe).
    { intros rc Hrc. apply Hin. by right. }
    exists g'. split; [|split; [done|split]].
    + simpl. unfold_bind. simpl in Hset. by rewrite Hset.
    + intros rc [->|Hrc]%elem_of_cons; last by apply Hcells.
      destruct (decide ((r, c) ∈ cells)) as [Hmem|Hmem]; first by apply Hcells.
      rewrite Hframe; try done. apply Hin. by left.
    + intros rc Hrc Hnot. apply not_elem_of_cons in Hnot as [Hne Hnot].
      rewrite Hframe by done. by apply Hframe1.
Qed.

Lemma M_bind_Ok {A B} (m : M A) (f : A -> M B) w b w' :
  (m ≫= f) w = Ok (b, w') ->
  exists a w1, m w = Ok (a, w1) /\ f a w1 = Ok (b, w').
Proof.
  unfold mbind, M_mbind, M_bind.
  destruct (m w) as [[a w1]| |]; try done. eauto.
Qed.

Lemma randrange_inv n w k w' :
  Random.randrange n w = Ok (k, w') -> 0 <= k < n.
Proof.
  unfold Random.randrange. destruct (Z.leb_spec n 0); first done.
  intros (a & w1 & _ & [= <- _])%M_bind_Ok. by apply Z.mod_pos_bound.
Qed.

Lemma choice_HV_inv w o w' :
  Random.choice ["H"; "V"]%string w = Ok (o, w') ->
  o = "H"%string \/ o = "V"%string.
Proof.
  unfold Random.choice.
  intros (i & w1 & Hi%randrange_inv & Hget)%M_bind_Ok.
  simpl in Hi. assert (i = 0 \/ i = 1) as [->| ->] by lia.
  - injection Hget as <- _. by left.
  - injection Hget as <- _. by right.
Qed.

Lemma place_ship_spec fuel len ship_id b :
  shape (size b) (grid b) ->
  forall w b' w',
    place_ship fuel len ship_id b w = Ok (b', w') ->
    placed_on b b' len ship_id.
Proof.
  intros Hshape. induction fuel as [|fuel IH]; intros w b' w' Hrun; first done.
  simpl in Hrun.
  apply M_bind_Ok in Hrun as (o & w1 & Ho%choice_HV_inv & Hrun).
  apply M_bind_Ok in Hrun as (cells & w2 & Hcells & Hrun).
  assert (exists h row col,
            segment_inside (size b) h row col len /\
            cells = cells_of h row col len) as (h & row & col & Hseg & ->).
  { destruct Ho as [-> | ->]; simpl in Hcells.
    - apply M_bind_Ok in Hcells as (row & w3 & Hrow%randrange_inv & Hcells).
      apply M_bind_Ok in Hcells as (col & w4 & Hcol%randrange_inv & [= <- _]).
      exists true, row, col. split; last done. unfold segment_inside. lia.
    - apply M_bind_Ok in Hcells as (row & w3 & Hrow%randrange_inv & Hcells).
      apply M_bind_Ok in Hcells as (col & w4 & Hcol%randrange_inv & [= <- _]).
      exists false, row, col. split; last done. unfold segment_inside. lia. }
  apply M_bind_Ok in Hrun as (free & w3 & Hfree & Hrun).
  unfold lift in Hfree.
  destruct (all_free (grid b) (cells_of h row col len)) as [free'| |] eqn:Hall;
    try done.
  injection Hfree as -> ->.
  destruct free; last by eapply IH.
  destruct (stamp_spec (size b) (cells_of h row col len) ship_id (grid b) Hshape)
    as (g' & Hstamp & Hshape' & Hnew & Hframe).
  { intros rc Hrc%elem_of_cells_of. by eapply segment_in_grid. }
  apply M_bind_Ok in Hrun as (g'' & w4 & Hg & [= <- _]).
  unfold lift in Hg. rewrite Hstamp in Hg. injection Hg as <- _.
  exists h, row, col. split; first done. simpl. repeat split; try done.
  - by apply (all_free_true _ _ Hall), elem_of_cells_of.
  - by apply Hnew, elem_of_cells_of.
  - intros rc Hin Hnot. apply Hframe; first done. by rewrite elem_of_cells_of.
  - apply Hshape'.
  - apply Hshape'.
Qed.

Lemma cell_is_true g v rc :
  cell_is g v rc = true <-> Py.getitem2 g rc.1 rc.2 = Ok v.
Proof.
  unfold cell_is. destruct (Py.getitem2 g rc.1 rc.2) as [u| |]; try done.
  rewrite Z.eqb_eq. split; [by intros ->|by intros [= ->]].
Qed.

Lemma placed_on_ship_count b b' len ship_id :
  placed_on b b' len ship_id -> 0 <= len -> ship_id <> 0 ->
  ship_count b' = ship_count b + len.
Proof.
  intros (h & row & col & Hseg & Hcells & Hframe & _ & Hsize & _) Hlen Hid.
  unfold ship_count. rewrite Hsize.
  rewrite <- (length_cells_of h row col len Hlen).
  apply count_if_flip.
  - apply NoDup_coords.
  - apply NoDup_cells_of.
  - intros rc Hrc%elem_of_cells_of. apply elem_of_coords.
    by eapply segment_in_grid.
  - intros rc Hrc%elem_of_cells_of. destruct (Hcells rc Hrc) as [Hold Hnew].
    unfold ship_at. rewrite Hold, Hnew. split; first done.
    by apply negb_true_iff, Z.eqb_neq.
  - intros rc Hrc%elem_of_coords Hnot. unfold ship_at.
    rewrite Hframe; try done. by rewrite <- elem_of_cells_of.
Qed.

Lemma placed_on_id_count b b' len ship_id :
  placed_on b b' len ship_id -> 0 <= len -> values_below b ship_id ->
  id_count b' ship_id = len.
Proof.
  intros (h & row & col & Hseg & Hcells & Hframe & _ & Hsize & _) Hlen Hbelow.
  unfold id_count. rewrite Hsize.
  rewrite <- (length_cells_of h row col len Hlen).
  rewrite (count_if_flip (cell_is (grid b) ship_id) (cell_is (grid b') ship_id)
             (coords (size b)) (cells_of h row col len)).
  - rewrite count_if_none; first lia.
    intros rc Hrc%elem_of_coords. destruct (Hbelow rc Hrc) as (v & Hv & Hrange).
    unfold cell_is. rewrite Hv. apply Z.eqb_neq. lia.
  - apply NoDup_coords.
  - apply NoDup_cells_of.
  - intros rc Hrc%elem_of_cells_of. apply elem_of_coords.
    by eapply segment_in_grid.
  - intros rc Hrc%elem_of_cells_of. destruct (Hcells rc Hrc) as [Hold Hnew].
    pose proof (segment_in_grid _ _ _ _ _ _ Hseg Hrc) as Hin.
    destruct (Hbelow rc Hin) as (v & Hv & Hrange).
    unfold cell_is. rewrite Hv, Hnew. split; last by apply Z.eqb_eq.
    apply Z.eqb_neq. rewrite Hold in Hv. injection Hv as <-. lia.
  - intros rc Hrc%elem_of_coords Hnot. unfold cell_is.
    rewrite Hframe; try done. by rewrite <- elem_of_cells_of.
Qed.

Lemma placed_on_values b b' len ship_id :
  placed_on b b' len ship_id -> 0 <= ship_id -> values_below b ship_id ->
  values_below b' (ship_id + 1).
Proof.
  intros (h & row & col & Hseg & Hcells & Hframe & _ & Hsize & _) Hid Hbelow rc Hin.
  rewrite Hsize in Hin.
  destruct (decide (rc ∈ cells_of h row col len)) as [Hrc|Hrc].
  - apply elem_of_cells_of in Hrc. destruct (Hcells rc Hrc) as [_ Hnew].
    exists ship_id. split; [done|lia].
  - rewrite elem_of_cells_of in Hrc. destruct (Hbelow rc Hin) as (v & Hv & Hrange).
    exists v. rewrite Hframe by done. split; [done|lia].
Qed.

(** A later placement leaves the cells of every other non-zero id alone. *)
Lemma placed_on_keeps b b' len ship_id rc v :
  placed_on b b' len ship_id -> in_grid (size b) rc ->
  v <> 0 -> v <> ship_id ->
  (Py.getitem2 (grid b') rc.1 rc.2 = Ok v <-> Py.getitem2 (grid b) rc.1 rc.2 = Ok v).
Proof.
  intros (h & row & col & Hseg & Hcells & Hframe & _) Hin Hv0 Hvid.
  destruct (decide (rc ∈ cells_of h row col len)) as [Hrc|Hrc].
  - apply elem_of_cells_of in Hrc. destruct (Hcells rc Hrc) as [-> ->].
    split; intros [= ?]; congruence.
  - rewrite elem_of_cells_of in Hrc. by rewrite Hframe.
Qed.

Lemma placed_on_segment b b' len ship_id :
  placed_on b b' len ship_id -> values_below b ship_id ->
  ship_is_segment b' ship_id len.
Proof.
  intros Hp Hbelow. pose proof Hp as (h & row & col & Hseg & Hcells & Hframe & _ & Hsize & _).
  exists h, row, col. rewrite Hsize. split; first done.
  intros rc Hin. split.
  - intros Hid. destruct (decide (rc ∈ cells_of h row col len)) as [Hrc|Hrc];
      first by apply elem_of_cells_of.
    rewrite elem_of_cells_of in Hrc. rewrite Hframe in Hid by done.
    destruct (Hbelow rc Hin) as (v & Hv & Hrange).
    rewrite Hid in Hv. injection Hv as <-. lia.
  - intros Hrc. by apply Hcells.
Qed.

Lemma place_ships_spec fuel sizes :
  Forall (fun len => 0 <= len) sizes ->
  forall ship_id b w b' w',
    place_ships fuel sizes ship_id b w = Ok (b', w') ->
    shape (size b) (grid b) ->
    1 <= ship_id ->
    values_below b ship_id ->
    size b' = size b /\ hits b' = hits b /\ hits_count b' = hits_count b /\
    total_ship_cells b' = total_ship_cells b + sum_list sizes /\
    shape (size b) (grid b') /\
    values_below b' (ship_id + Z.of_nat (length sizes)) /\
    (forall rc v, in_grid (size b) rc -> 1 <= v < ship_id ->
       (Py.getitem2 (grid b') rc.1 rc.2 = Ok v <->
        Py.getitem2 (grid b) rc.1 rc.2 = Ok v)) /\
    (forall (k : nat) len, sizes !! k = Some len ->
       ship_is_segment b' (ship_id + Z.of_nat k) len /\
       id_count b' (ship_id + Z.of_nat k) = len) /\
    ship_count b' = ship_count b + sum_list sizes.
Proof.
  induction 1 as [|len sizes Hlen Hsizes IH];
    intros ship_id b w b' w' Hrun Hshape Hid Hbelow.
  - injection Hrun as <- _. simpl.
    rewrite !Z.add_0_r. repeat split; try done; apply Hshape.
  - simpl in Hrun.
    apply M_bind_Ok in Hrun as (b1 & w1 & Hplace & Hrun).
    apply (place_ship_spec _ _ _ _ Hshape) in Hplace.
    pose proof Hplace as (_ & _ & _ & _ & _ & _ & Hshape1 & Hsize1 & Hhits1 & Htot1 & Hcnt1).
    set (b2 := set_total_ship_cells b1 (total_ship_cells b1 + len)) in *.
    destruct (IH (ship_id + 1) b2 w1 b' w' Hrun)
      as (Hsize & Hhits & Hcnt & Htot & Hshape' & Hbelow' & Hkeep & Hfleet & Hships).
    { simpl. by rewrite Hsize1. }
    { lia. }
    { change (values_below b1 (ship_id + 1)).
      apply (placed_on_values b b1 len ship_id); [done|lia|done]. }
    change (ship_count b2) with (ship_count b1) in Hships.
    simpl in Hsize, Hhits, Hcnt, Htot, Hshape', Hkeep.
    assert (Hkeep_id : forall rc v, in_grid (size b) rc -> 1 <= v < ship_id + 1 ->
              (Py.getitem2 (grid b') rc.1 rc.2 = Ok v <->
               Py.getitem2 (grid b1) rc.1 rc.2 = Ok v)).
    { intros rc v Hin Hv. apply Hkeep; last done. by rewrite Hsize1. }
    split; [congruence|]. split; [congruence|]. split; [congruence|].
    split; [simpl; lia|]. split; [by rewrite <- Hsize1|].
    split; [|split; [|split]].
    + intros rc Hin. destruct (Hbelow' rc Hin) as (v & Hv & Hrange).
      exists v. split; first done. simpl length. lia.
    + intros rc v Hin Hv. rewrite Hkeep_id by (done || lia).
      apply (placed_on_keeps b b1 len ship_id); try done; lia.
    + intros [|k] len' Hk.
      * injection Hk as <-. rewrite Z.add_0_r. split.
        -- destruct (placed_on_segment b b1 len ship_id Hplace Hbelow)
             as (h & row & col & Hseg & Hiff).
           exists h, row, col. rewrite Hsize. split; first done.
           intros rc Hin. rewrite Hkeep_id by (by rewrite <- Hsize1 || lia).
           by apply Hiff.
        -- rewrite <- (placed_on_id_count b b1 len ship_id Hplace Hlen Hbelow).
           unfold id_count. rewrite Hsize. apply count_if_ext.
           intros rc Hrc%elem_of_coords. apply eq_iff_eq_true.
           rewrite !cell_is_true. apply Hkeep_id; last lia.
           by rewrite <- Hsize1.
      * replace (ship_id + Z.of_nat (S k)) with (ship_id + 1 + Z.of_nat k) by lia.
        by apply Hfleet.
    + rewrite Hships. simpl.
      rewrite (placed_on_ship_count b b1 len ship_id) by (done || lia). lia.
Qed.

(** The board [place_ships_random] starts from. *)
Lemma reset_board_shape b :
  shape (size b) (grid (reset_board b)) /\ shape (size b) (hits (reset_board b)).
Proof.
  unfold reset_board, shape, Py.range, Py.repeat. simpl.
  rewrite !length_fmap, !length_seqZ. repeat split; try done.
  - apply Forall_fmap, Forall_forall. intros r _. simpl. apply length_replicate.
  - apply Forall_fmap, Forall_forall. intros r _. simpl. apply length_replicate.
Qed.

Lemma reset_board_cells b rc :
  in_grid (size b) rc ->
  Py.getitem2 (grid (reset_board b)) rc.1 rc.2 = Ok 0 /\
  Py.getitem2 (hits (reset_board b)) rc.1 rc.2 = Ok false.
Proof.
  intros Hin. destruct (reset_board_shape b) as [Hg Hh]. pose proof Hin as [Hr Hc].
  rewrite !(getitem2_in_grid_lookup (size b)) by done.
  unfold reset_board, Py.repeat. simpl.
  rewrite !list_lookup_fmap, !range_lookup by lia. simpl.
  rewrite !lookup_replicate_2 by lia. done.
Qed.

(** C6. Whenever [place_ships_random] returns on a board of side 10: the
    grid and the shot overlay are 10x10; the number of non-zero cells
    equals [total_ship_cells], which is 16, the sum of [SHIP_SIZES]; every
    cell holds 0 or a ship id in [1..5]; for each of the five ships, the
    cells holding its id are exactly a horizontal or vertical run of its
    length inside the board, and there are exactly that many of them (so
    no cell is shared); every cell is unshot and [hits_count] is 0. *)
Theorem place_ships_random_spec (fuel : nat) (b b' : Board) (w w' : World) :
  size b = BOARD_SIZE ->
  place_ships_random fuel b w = Ok (b', w') ->
  size b' = 10 /\
  shape 10 (grid b') /\ shape 10 (hits b') /\
  ship_count b' = total_ship_cells b' /\
  total_ship_cells b' = sum_list SHIP_SIZES /\
  sum_list SHIP_SIZES = 16 /\
  (forall r c, 0 <= r < 10 -> 0 <= c < 10 ->
     exists v, Py.getitem2 (grid b') r c = Ok v /\ 0 <= v <= 5) /\
  (forall (k : nat) len, SHIP_SIZES !! k = Some len ->
     ship_is_segment b' (Z.of_nat k + 1) len /\
     id_count b' (Z.of_nat k + 1) = len) /\
  (forall r c, 0 <= r < 10 -> 0 <= c < 10 ->
     Py.getitem2 (hits b') r c = Ok false) /\
  hits_count b' = 0.
Proof.
  intros Hsize Hrun. unfold place_ships_random in Hrun.
  destruct (reset_board_shape b) as [Hg Hh].
  assert (Hzero : ship_count (reset_board b) = 0).
  { unfold ship_count. apply count_if_none. intros rc Hrc%elem_of_coords.
    unfold ship_at. simpl in Hrc.
    by destruct (reset_board_cells b rc Hrc) as [-> _]. }
  apply place_ships_spec in Hrun
    as (Hsize' & Hhits & Hcnt & Htot & Hshape' & Hbelow & _ & Hfleet & Hships);
    try done.
  - change (size (reset_board b)) with (size b) in Hsize', Hshape'.
    change (hits_count (reset_board b)) with 0 in Hcnt.
    change (total_ship_cells (reset_board b)) with 0 in Htot.
    rewrite Hsize in Hsize', Hshape', Hh. unfold BOARD_SIZE in *.
    split; [done|]. split; [done|]. split; [by rewrite Hhits|].
    split; [lia|]. split; [lia|]. split; [done|].
    split; [|split; [|split; [|done]]].
    + intros r c Hr Hc. destruct (Hbelow (r, c)) as (v & Hv & Hrange).
      { rewrite Hsize'. by split. }
      exists v. split; first done. simpl in Hrange. lia.
    + intros k len Hk. rewrite Z.add_comm. by apply Hfleet.
    + intros r c Hr Hc. rewrite Hhits.
      destruct (reset_board_cells b (r, c)) as [_ Hfalse]; last done.
      rewrite Hsize. by split.
  - unfold SHIP_SIZES. repeat constructor; lia.
  - intros rc Hrc. exists 0. simpl in Hrc.
    destruct (reset_board_cells b rc Hrc) as [-> _]. split; [done|lia].
Qed.

Lemma place_ships_random_spec_witness :
  exists b' w',
    place_ships_random 3 Board_default (list_world fleet_draws) = Ok (b', w') /\
    ship_count b' = 16 /\ hits_count b' = 0.
Proof.
  destruct fleet_board_run as [w' Hrun].
  exists fleet_board, w'. split; [exact Hrun|].
  destruct (place_ships_random_spec 3 Board_default fleet_board
              (list_world fleet_draws) w' eq_refl Hrun)
    as (_ & _ & _ & Hships & Htotal & Hsum & _ & _ & _ & Hcount).
  split; [|exact Hcount]. rewrite Hships, Htotal. exact Hsum.
Defined.

(** ** Games: sequences of guesses on one defender *)

(** A readable cell of a square grid is a cell of the grid: negative
    indices name the same cells as their non-negative counterparts. *)
Lemma norm_index_canon len i n :
  Py.norm_index len i = Some n ->
  0 <= Z.of_nat n < len /\ Py.norm_index len (Z.of_nat n) = Some n.
Proof.
  intros [Hn _]%norm_index_Some.
  assert (0 <= Z.of_nat n < len) by lia. split; first done.
  rewrite norm_index_in_range by done. f_equal. lia.
Qed.

Lemma getitem_norm {A} (l : list A) i n :
  Py.norm_index (Z.of_nat (length l)) i = Some n ->
  Py.getitem l i = Py.getitem l (Z.of_nat n) /\
  forall v, Py.setitem l i v = Py.setitem l (Z.of_nat n) v.
Proof.
  intros Hi. destruct (norm_index_canon _ _ _ Hi) as [_ Hn].
  unfold Py.getitem, Py.setitem. by rewrite Hi, Hn.
Qed.

Lemma in_grid_canon {A} n (g : list (list A)) x y a :
  0 <= n -> shape n g -> Py.getitem2 g x y = Ok a ->
  exists rc,
    in_grid n rc /\
    forall B (g' : list (list B)), shape n g' ->
      Py.getitem2 g' x y = Py.getitem2 g' rc.1 rc.2 /\
      forall v, Py.setitem2 g' x y v = Py.setitem2 g' rc.1 rc.2 v.
Proof.
  intros Hn [Hlen Hrows] (row & (i & Hi & Hrow)%getitem_Ok & (j & Hj & _)%getitem_Ok)%getitem2_Ok.
  assert (length row = Z.to_nat n) as Hlrow
    by (by eapply (proj1 (Forall_lookup _ _) Hrows)).
  rewrite Hlen in Hi. rewrite Hlrow in Hj. rewrite Z2Nat.id in Hi, Hj by done.
  destruct (norm_index_canon _ _ _ Hi) as [Hir _].
  destruct (norm_index_canon _ _ _ Hj) as [Hjr _].
  exists (Z.of_nat i, Z.of_nat j). split; first done.
  intros B g' [Hlen' Hrows']. simpl.
  assert (Hi' : Py.norm_index (Z.of_nat (length g')) x = Some i)
    by (by rewrite Hlen', Z2Nat.id).
  destruct (getitem_norm g' x i Hi') as [Hgx Hsx].
  unfold Py.getitem2, Py.setitem2. unfold_bind. rewrite Hgx.
  destruct (Py.getitem g' (Z.of_nat i)) as [row'| |] eqn:Hrow'; try done.
  apply getitem_Ok in Hrow' as (i' & Hi'' & Hrow').
  assert (Hj' : Py.norm_index (Z.of_nat (length row')) y = Some j).
  { rewrite (proj1 (Forall_lookup _ _) Hrows' _ _ Hrow'). by rewrite Z2Nat.id. }
  destruct (getitem_norm row' y j Hj') as [Hgy Hsy].
  split; first done. intros v. rewrite Hsy.
  destruct (Py.setitem row' (Z.of_nat j) v); first [done | apply Hsx].
Qed.

Lemma hit_ship_count_le b : hit_ship_count b <= ship_count b.
Proof.
  unfold hit_ship_count, ship_count. apply count_if_le.
  by intros rc _ [? _]%andb_true_iff.
Qed.

(** A placed board with an up-to-date encrypted board is in play. *)
Lemma placed_in_play (p : Player) :
  placed (board p) ->
  values_below (board p) 6 ->
  shape (size (board p)) (enc_board p) ->
  enc_consistent p ->
  in_play p.
Proof.
  intros (Hws & Hfresh & Hzero & Htotal) Hvals Henc Hcons.
  repeat split; try done; try apply Hws; try apply Henc.
  rewrite Hzero. symmetry. unfold hit_ship_count. apply count_if_none.
  intros rc Hrc%elem_of_coords. unfold shot_at. rewrite Hfresh by done.
  apply andb_false_r.
Qed.

(** One guess keeps the defender in play; the flag it returns is the
    truth about the cell, and the hit count moves by that flag. *)
Lemma shot_step_in_play (t : Z) (d d' : Player) :
  contract_mod (crypto d) t -> plain_modulus t ->
  in_play d -> shot_step d d' ->
  in_play d' /\ crypto d' = crypto d /\
  size (board d') = size (board d) /\
  grid (board d') = grid (board d) /\
  total_ship_cells (board d') = total_ship_cells (board d) /\
  hits_count (board d) <= hits_count (board d').
Proof.
  intros Hc Ht Hplay Hstep.
  destruct Hstep as [attacker d d' x y w w' hit Hrun].
  apply process_guess_inv in Hrun
    as [(_ & _ & -> & _)|(Hh & ct & m & h' & Hct & Hm & Hhit & Hset & _ & -> & _)].
  { repeat split; try done; try apply Hplay. }
  destruct Hplay as ((Hn & Hgrid & Hhits) & Henc & Hcons & Hvals & Htotal & Hcount).
  destruct (in_grid_canon _ _ x y false Hn Hhits Hh) as (rc & Hin & Hcanon).
  destruct (Hcanon _ _ Hhits) as [Hh_rc Hset_rc].
  destruct (Hcanon _ _ Henc) as [Hct_rc _].
  rewrite Hh_rc in Hh. rewrite Hset_rc in Hset. rewrite Hct_rc in Hct.
  destruct (Hcons rc Hin) as (v & ct' & Hv & Hct' & s & Hs).
  rewrite Hct in Hct'. injection Hct' as <-. subst ct.
  destruct (Hvals rc Hin) as (v' & Hv' & Hrange).
  rewrite Hv in Hv'. injection Hv' as <-.
  assert (Hm' : m = (blind_scalar w * v) mod t).
  { unfold revealed_slots in Hm. fold (blinded_slots (crypto d) v (blind_scalar w) s) in Hm.
    rewrite Hc in Hm. by injection Hm as <-. }
  assert (Hflag : hit = ship_at (grid (board d)) rc).
  { unfold ship_at. rewrite Hv, Hhit. f_equal.
    apply eq_iff_eq_true. rewrite !Z.eqb_eq, Hm'.
    apply blinded_zero_iff; [done|lia|apply blind_scalar_range]. }
  destruct (setitem2_in_grid _ _ rc true Hhits Hin)
    as (h'' & Hset' & Hshape' & Hget' & Hframe).
  rewrite Hset in Hset'. injection Hset' as <-.
  assert (Hnew : hit_ship_count (shot_board (board d) h' hit)
                 = hit_ship_count (board d) + (if hit then 1 else 0)).
  { unfold hit_ship_count. simpl. destruct hit.
    - apply (count_if_flip_one _ _ _ rc).
      + apply NoDup_coords.
      + by apply elem_of_coords.
      + unfold shot_at. rewrite Hh. apply andb_false_r.
      + unfold shot_at. rewrite Hget', <- Hflag. done.
      + intros rc' Hrc'%elem_of_coords Hne. unfold shot_at.
        by rewrite Hframe.
    - rewrite Z.add_0_r. apply count_if_ext.
      intros rc' Hrc'%elem_of_coords.
      destruct (decide (rc' = rc)) as [->|Hne].
      + by rewrite <- Hflag.
      + unfold shot_at. by rewrite Hframe. }
  simpl. repeat split; try done; try apply Hshape'; try apply Hgrid; try apply Henc.
  - change (hits_count (shot_board (board d) h' hit)
            = hit_ship_count (shot_board (board d) h' hit)).
    rewrite Hnew. simpl. lia.
  - destruct hit; lia.
Qed.

Lemma shots_in_play (t : Z) (d d' : Player) :
  contract_mod (crypto d) t -> plain_modulus t ->
  in_play d -> rtc shot_step d d' ->
  in_play d' /\ contract_mod (crypto d') t /\
  size (board d') = size (board d) /\
  grid (board d') = grid (board d) /\
  total_ship_cells (board d') = total_ship_cells (board d) /\
  hits_count (board d) <= hits_count (board d').
Proof.
  intros Hc Ht Hplay Hsteps. revert Hc Hplay.
  induction Hsteps as [d|d d1 d' Hstep _ IH]; intros Hc Hplay.
  - repeat split; try done; try apply Hplay.
  - destruct (shot_step_in_play t d d1 Hc Ht Hplay Hstep)
      as (Hplay1 & Hcrypto & Hsize & Hgrid & Htotal & Hle).
    destruct IH as (Hplay' & Hc' & Hsize' & Hgrid' & Htotal' & Hle').
    { by rewrite Hcrypto. }
    { done. }
    split; [done|]. split; [done|].
    split; [congruence|]. split; [congruence|]. split; [congruence|]. lia.
Qed.

Lemma values_below_mono b m n : m <= n -> values_below b m -> values_below b n.
Proof.
  intros Hmn Hb rc Hin. destruct (Hb rc Hin) as (v & Hv & Hrange).
  exists v. split; [done|lia].
Qed.

(** Placing any list of ships on a reset board gives a placed board. *)
Lemma place_ships_placed fuel sizes b w b' w' :
  0 <= size b ->
  Forall (fun len => 0 <= len) sizes ->
  place_ships fuel sizes 1 (reset_board b) w = Ok (b', w') ->
  size b' = size b /\ placed b' /\
  values_below b' (1 + Z.of_nat (length sizes)).
Proof.
  intros Hn Hsizes Hrun. destruct (reset_board_shape b) as [Hg Hh].
  assert (Hzero : ship_count (reset_board b) = 0).
  { unfold ship_count. apply count_if_none. intros rc Hrc%elem_of_coords.
    unfold ship_at. simpl in Hrc.
    by destruct (reset_board_cells b rc Hrc) as [-> _]. }
  apply place_ships_spec in Hrun
    as (Hsize' & Hhits & Hcnt & Htot & Hshape' & Hbelow & _ & _ & Hships);
    try done.
  - change (size (reset_board b)) with (size b) in Hsize', Hshape'.
    change (hits_count (reset_board b)) with 0 in Hcnt.
    change (total_ship_cells (reset_board b)) with 0 in Htot.
    split; [done|]. split; [|done].
    unfold placed, well_shaped. rewrite Hsize', Hhits.
    split; [done|]. split; [|split; [done|lia]].
    intros rc Hin. by destruct (reset_board_cells b rc Hin) as [_ ->].
  - intros rc Hrc. exists 0. simpl in Hrc.
    destruct (reset_board_cells b rc Hrc) as [-> _]. split; [done|lia].
Qed.

(** Direct calls, whatever their flags, never lower [hits_count] and never
    touch [total_ship_cells]. *)
Lemma direct_steps_monotone b b' :
  rtc direct_step b b' ->
  hits_count b <= hits_count b' /\
  total_ship_cells b' = total_ship_cells b.
Proof.
  induction 1 as [b|b b1 b' Hstep _ [IHle IHtot]]; first done.
  destruct Hstep as [b b1 x y hit ret Hreg].
  apply register_shot_inv in Hreg
    as [(_ & _ & ->)|(_ & _ & h' & _ & _ & ->)]; first done.
  simpl in IHle, IHtot. split; [destruct hit; lia|done].
Qed.

(** C4. Take a board produced by [place_ships_random], encrypt it with
    [encrypt_board], and let any sequence of guesses go through the arbiter,
    under the modular contract for a 32-bit plaintext modulus.  Between any
    two points of the sequence [hits_count] does not decrease, and at every
    point it is at most [total_ship_cells], which stays what placement made
    it.  (Not decreasing also holds for direct calls of [register_shot]
    with arbitrary flags.) *)
Theorem hits_count_monotone_bounded
    (t : Z) (fuel : nat) (b0 : Board) (p0 p p1 p2 : Player)
    (w0 w0' w1 w1' : World) :
  size b0 = BOARD_SIZE ->
  place_ships_random fuel b0 w0 = Ok (board p0, w0') ->
  encrypt_board p0 w1 = Ok (p, w1') ->
  contract_mod (crypto p) t ->
  plain_modulus t ->
  rtc shot_step p p1 ->
  rtc shot_step p1 p2 ->
  hits_count (board p1) <= hits_count (board p2) /\
  hits_count (board p2) <= total_ship_cells (board p2) /\
  total_ship_cells (board p2) = total_ship_cells (board p0) /\
  (forall b b', rtc direct_step b b' -> hits_count b <= hits_count b').
Proof.
  intros Hsize Hplace Henc Hc Ht Hsteps1 Hsteps2.
  apply place_ships_placed in Hplace as (Hsize' & Hplaced & Hvals);
    [|rewrite Hsize; done|unfold SHIP_SIZES; repeat constructor; lia].
  apply encrypt_board_consistent in Henc as (Hboard & Hcons & Hshape);
    last apply Hplaced.
  assert (Hplay : in_play p).
  { apply placed_in_play; rewrite ?Hboard; done. }
  destruct (shots_in_play t p p1 Hc Ht Hplay Hsteps1)
    as (Hplay1 & Hc1 & _ & _ & Htotal1 & _).
  destruct (shots_in_play t p1 p2 Hc1 Ht Hplay1 Hsteps2)
    as (Hplay2 & _ & _ & _ & Htotal2 & Hle).
  split; [done|]. split; [|split; [congruence|]].
  - destruct Hplay2 as (_ & _ & _ & _ & -> & ->). apply hit_ship_count_le.
  - intros b b' Hdirect. by apply direct_steps_monotone.
Qed.

Lemma play_steps attacker shots :
  forall d w d' w',
    play attacker d shots w = Ok (d', w') -> rtc shot_step d d'.
Proof.
  induction shots as [|[x y] shots IH]; intros d w d' w' Hrun.
  - injection Hrun as <- _. done.
  - simpl in Hrun. apply M_bind_Ok in Hrun as ([hit d1] & w1 & Hguess & Hrun).
    eapply rtc_l; last by eapply IH.
    econstructor. exact Hguess.
Qed.

Lemma hits_count_monotone_bounded_witness :
  hits_count (board (sealed_player (ToyMod TOY_MODULUS) fleet_board))
    <= hits_count (board fleet_after) /\
  hits_count (board fleet_after) <= total_ship_cells (board fleet_after) /\
  total_ship_cells (board fleet_after) = total_ship_cells fleet_board /\
  (forall b b', rtc direct_step b b' -> hits_count b <= hits_count b').
Proof.
  destruct fleet_board_run as [w0 Hplace].
  destruct (sealed_player_run (ToyMod TOY_MODULUS) fleet_board shape_grid_fleet)
    as [w1 Henc].
  destruct fleet_after_run as [w2 Hplay].
  apply (hits_count_monotone_bounded TOY_MODULUS 3 Board_default
           (Player_new "Bob (Computer)" (ToyMod TOY_MODULUS) fleet_board)
           (sealed_player (ToyMod TOY_MODULUS) fleet_board)
           (sealed_player (ToyMod TOY_MODULUS) fleet_board) fleet_after
           (list_world fleet_draws) w0 (const_world 0) w1).
  - reflexivity.
  - exact Hplace.
  - exact Henc.
  - rewrite (sealed_player_crypto _ _ shape_grid_fleet).
    apply ToyMod_contract. unfold TOY_MODULUS. lia.
  - exact toy_modulus_ok.
  - apply rtc_refl.
  - exact (play_steps _ _ _ _ _ _ Hplay).
Defined.

(** C7. [all_sunk] is the comparison [hits_count >= total_ship_cells].  On
    a defender that was placed (cells in [0..5]), encrypted with
    [encrypt_board], and then only shot at through the arbiter under the
    modular contract, [all_sunk] holds exactly when every cell of the board
    with a non-zero grid value has been shot. *)
Theorem all_sunk_spec :
  (forall b, all_sunk b = true <-> hits_count b >= total_ship_cells b)
  /\
  (forall (t : Z) (p0 p p' : Player) (w w' : World),
     placed (board p0) ->
     values_below (board p0) 6 ->
     encrypt_board p0 w = Ok (p, w') ->
     contract_mod (crypto p) t ->
     plain_modulus t ->
     rtc shot_step p p' ->
     (all_sunk (board p') = true <->
      forall r c v,
        0 <= r < size (board p') -> 0 <= c < size (board p') ->
        Py.getitem2 (grid (board p')) r c = Ok v -> v <> 0 ->
        Py.getitem2 (hits (board p')) r c = Ok true)).
Proof.
  split.
  - intros b. unfold all_sunk. rewrite Z.leb_le. lia.
  - intros t p0 p p' w w' Hplaced Hvals Henc Hc Ht Hsteps.
    apply encrypt_board_consistent in Henc as (Hboard & Hcons & Hshape);
      last apply Hplaced.
    assert (Hplay : in_play p).
    { apply placed_in_play; rewrite ?Hboard; done. }
    destruct (shots_in_play t p p' Hc Ht Hplay Hsteps) as (Hplay' & _).
    destruct Hplay' as (_ & _ & _ & _ & Htotal & Hcount).
    unfold all_sunk. rewrite Z.leb_le, Htotal, Hcount.
    unfold ship_count, hit_ship_count. rewrite count_if_full;
      last by intros rc _ [? _]%andb_true_iff.
    split.
    + intros Hall r c v Hr Hc' Hv Hv0.
      specialize (Hall (r, c)). unfold ship_at, shot_at in Hall. simpl in Hall.
      rewrite Hv in Hall.
      destruct (Py.getitem2 (hits (board p')) r c) as [[|]| |]; try done.
      all: exfalso; cut (negb (v =? 0) && false = true);
        [by rewrite andb_false_r
        |apply Hall; [by apply elem_of_coords|by apply negb_true_iff, Z.eqb_neq]].
    + intros Hall rc [Hr Hc']%elem_of_coords Hship. rewrite Hship. simpl.
      unfold ship_at in Hship.
      destruct (Py.getitem2 (grid (board p')) rc.1 rc.2) as [v| |] eqn:Hv;
        try done.
      unfold shot_at. rewrite (Hall rc.1 rc.2 v); try done.
      by apply negb_true_iff, Z.eqb_neq in Hship.
Qed.

Lemma all_sunk_spec_witness :
  all_sunk (board demo_after) = true /\
  forall r c v,
    0 <= r < size (board demo_after) -> 0 <= c < size (board demo_after) ->
    Py.getitem2 (grid (board demo_after)) r c = Ok v -> v <> 0 ->
    Py.getitem2 (hits (board demo_after)) r c = Ok true.
Proof.
  destruct demo_board_run as [w0 Hplace].
  destruct (sealed_player_run (ToyMod TOY_MODULUS) demo_board shape_grid_demo)
    as [w1 Henc].
  destruct demo_after_run as [w2 Hplay].
  assert (Hsunk : all_sunk (board demo_after) = true) by (vm_compute; reflexivity).
  split; [exact Hsunk|].
  destruct (place_ships_placed 1 [2] Board_default (const_world 0) demo_board w0)
    as (_ & Hplaced & Hvals).
  - unfold Board_default, BOARD_SIZE. simpl. lia.
  - repeat constructor. lia.
  - exact Hplace.
  - apply (proj1 (proj2 all_sunk_spec TOY_MODULUS
                    (Player_new "Bob (Computer)" (ToyMod TOY_MODULUS) demo_board)
                    (sealed_player (ToyMod TOY_MODULUS) demo_board)
                    demo_after (const_world 0) w1
                    Hplaced
                    (values_below_mono demo_board 2 6 ltac:(lia) Hvals)
                    Henc
                    (eq_ind_r (fun C => contract_mod C TOY_MODULUS)
                       (ToyMod_contract TOY_MODULUS ltac:(unfold TOY_MODULUS; lia))
                       (sealed_player_crypto _ _ shape_grid_demo))
                    toy_modulus_ok
                    (play_steps _ _ _ _ _ _ Hplay))).
    exact Hsunk.
Defined.

(** * Further properties *)

(** ** The arbiter's flag and the hit counter *)

Lemma outcome_returns {A} (o : outcome A) :
  returns o = true -> exists a, o = Ok a.
Proof. destruct o as [a| |]; try done. by exists a. Qed.

Lemma process_guess_effect attacker d d' x y w w' hit :
  process_guess attacker d x y w = Ok ((hit, d'), w') ->
  hits_count (board d') = hits_count (board d) + (if hit then 1 else 0) /\
  (exists b', d' = set_board d b') /\
  grid (board d') = grid (board d) /\
  size (board d') = size (board d) /\
  total_ship_cells (board d') = total_ship_cells (board d) /\
  points d' = points d /\
  (forall n, seal_random w' n = seal_random w n).
Proof.
  intros [(_ & -> & -> & ->)|(_ & ct & m & h' & _ & _ & -> & _ & _ & -> & ->)]%process_guess_inv.
  - split; [lia|]. split; [by exists (board d); destruct d|]. done.
  - split; [done|]. split; [by eexists|]. done.
Qed.



Lemma shot_step_counts d d' :
  shot_step d d' ->
  hits_count (board d) <= hits_count (board d') <= hits_count (board d) + 1 /\
  total_ship_cells (board d') = total_ship_cells (board d).
Proof.
  intros [attacker d0 d1 x y w w' hit Hrun].
  apply process_guess_effect in Hrun as (Hc & _ & _ & _ & Ht & _).
  split; [destruct hit; lia|done].
Qed.

Lemma shots_counts d d' :
  rtc shot_step d d' ->
  hits_count (board d) <= hits_count (board d') /\
  total_ship_cells (board d') = total_ship_cells (board d).
Proof.
  induction 1 as [d|d d1 d' Hstep _ [IHle IHtot]]; first done.
  apply shot_step_counts in Hstep as [Hle Htot]. split; [lia|congruence].
Qed.

(** X2. A sunk board stays sunk: along any sequence of arbiter guesses, and
    along any sequence of direct [register_shot] calls, [all_sunk] never
    goes back from true to false.  No assumption on the encryption library
    is needed. *)
Theorem all_sunk_is_permanent :
  (forall d d', rtc shot_step d d' ->
     all_sunk (board d) = true -> all_sunk (board d') = true) /\
  (forall b b', rtc direct_step b b' ->
     all_sunk b = true -> all_sunk b' = true).
Proof.
  unfold all_sunk. split.
  - intros d d' [Hle Htot]%shots_counts. rewrite !Z.leb_le, Htot. lia.
  - intros b b' [Hle Htot]%direct_steps_monotone. rewrite !Z.leb_le, Htot. lia.
Qed.

Lemma all_sunk_is_permanent_witness :
  exists b',
    register_shot (board demo_after) 9 9 true = Ok (true, b') /\
    all_sunk b' = true.
Proof.
  destruct (outcome_returns (register_shot (board demo_after) 9 9 true))
    as [[ret b'] Hreg]; [vm_compute; reflexivity|].
  assert (ret = true) as ->.
  { apply register_shot_inv in Hreg as [(Hh & _)|(_ & -> & _)]; [|done].
    vm_compute in Hh. discriminate Hh. }
  exists b'. split; [exact Hreg|].
  apply (proj2 all_sunk_is_permanent (board demo_after) b').
  - apply rtc_once. econstructor. exact Hreg.
  - vm_compute. reflexivity.
Defined.

Lemma play_counts attacker shots :
  forall d w d' w',
    play attacker d shots w = Ok (d', w') ->
    hits_count (board d') <= hits_count (board d) + Z.of_nat (length shots) /\
    total_ship_cells (board d') = total_ship_cells (board d).
Proof.
  induction shots as [|[x y] shots IH]; intros d w d' w' Hrun.
  - injection Hrun as <- _. simpl. lia.
  - simpl in Hrun. apply M_bind_Ok in Hrun as ([hit d1] & w1 & Hguess & Hrun).
    apply IH in Hrun as [Hle Htot].
    apply process_guess_effect in Hguess as (Hc & _ & _ & _ & Ht & _).
    simpl in Hle, Htot. simpl length. split; [destruct hit; lia|congruence].
Qed.

(** X3. A list of guesses adds at most its length to [hits_count]; so a
    defender is never sunk by fewer guesses than it had ship cells left.
    On a freshly placed fleet that is 16 guesses at least. *)
Theorem sinking_needs_enough_guesses
    (attacker d d' : Player) (shots : list (Z * Z)) (w w' : World) :
  play attacker d shots w = Ok (d', w') ->
  hits_count (board d') <= hits_count (board d) + Z.of_nat (length shots) /\
  (all_sunk (board d') = true ->
   total_ship_cells (board d) - hits_count (board d) <= Z.of_nat (length shots)).
Proof.
  intros [Hle Htot]%play_counts. split; first done.
  unfold all_sunk. rewrite Z.leb_le. lia.
Qed.

Lemma sinking_needs_enough_guesses_witness :
  exists w',
    play (sealed_player (ToyMod TOY_MODULUS) demo_board)
         (sealed_player (ToyMod TOY_MODULUS) demo_board)
         [(0, 0); (5, 5); (0, 1)]
         (const_world 12) = Ok (demo_after, w') /\
    hits_count (board demo_after)
      <= hits_count (board (sealed_player (ToyMod TOY_MODULUS) demo_board)) + 3.
Proof.
  destruct demo_after_run as [w' Hrun].
  exists w'. split; [exact Hrun|].
  exact (proj1 (sinking_needs_enough_guesses _ _ _ _ _ _ Hrun)).
Defined.

(** ** The random guess source *)

Lemma randrange_run n w :
  0 < n -> Random.randrange n w = Ok (py_random w 0%nat mod n, after_draw w).
Proof.
  intros Hn. unfold Random.randrange.
  destruct (Z.leb_spec n 0); first lia. reflexivity.
Qed.

(** One round of the loop on an overlay that has the cell. *)
Lemma random_guess_round fuel attacker d w h :
  Py.getitem2 (hits (board d))
    (py_random w 0%nat mod 10) (py_random w 1%nat mod 10) = Ok h ->
  random_guess (S fuel) attacker d w =
  if h then random_guess fuel attacker d (after_draw (after_draw w))
  else Ok ((py_random w 0%nat mod 10, py_random w 1%nat mod 10),
           after_draw (after_draw w)).
Proof.
  intros Hh. simpl.
  unfold mbind at 1, M_mbind at 1, M_bind at 1. rewrite randrange_run by lia.
  unfold mbind at 1, M_mbind at 1, M_bind at 1. rewrite randrange_run by lia.
  unfold mbind at 1, M_mbind at 1, M_bind at 1. unfold lift at 1.
  change (py_random (after_draw w) 0%nat) with (py_random w 1%nat).
  rewrite Hh. by destruct h.
Qed.

Lemma random_guess_returns fuel attacker d :
  forall w x y w',
    random_guess fuel attacker d w = Ok ((x, y), w') ->
    0 <= x < 10 /\ 0 <= y < 10 /\
    Py.getitem2 (hits (board d)) x y = Ok false /\
    seal_calls w' = seal_calls w /\
    (forall n, seal_random w' n = seal_random w n).
Proof.
  induction fuel as [|fuel IH]; intros w x y w' Hrun; first done.
  simpl in Hrun.
  apply M_bind_Ok in Hrun as (x0 & w1 & Hx & Hrun).
  apply M_bind_Ok in Hrun as (y0 & w2 & Hy & Hrun).
  apply M_bind_Ok in Hrun as (h & w3 & Hh & Hrun).
  pose proof (randrange_inv _ _ _ _ Hx) as Hxr.
  pose proof (randrange_inv _ _ _ _ Hy) as Hyr.
  rewrite randrange_run in Hx, Hy by lia.
  unfold lift in Hh.
  destruct (Py.getitem2 (hits (board d)) x0 y0) as [h'| |] eqn:Hget; try done.
  simplify_eq. destruct h; simpl in Hrun.
  - apply IH in Hrun as (? & ? & ? & -> & Hseal). split_and!; first [done | lia].
  - unfold mret, M_mret, M_ret in Hrun. simplify_eq.
    change (py_random (after_draw w) 0%nat) with (py_random w 1%nat) in *.
    split_and!; first [done | lia].
Qed.

Lemma random_guess_never_raises fuel attacker d :
  shape 10 (hits (board d)) ->
  forall w e, random_guess fuel attacker d w <> Raise e.
Proof.
  intros Hshape. induction fuel as [|fuel IH]; intros w e; first done.
  destruct (getitem2_in_grid 10 (hits (board d))
              (py_random w 0%nat mod 10, py_random w 1%nat mod 10) Hshape)
    as (_ & h & _ & _ & _ & Hh).
  { split; simpl; by apply Z.mod_pos_bound. }
  simpl in Hh. rewrite (random_guess_round _ _ _ _ _ Hh).
  destruct h; [apply IH|done].
Qed.

(** X4. What [random_guess] returns is a coordinate in [0..9] x [0..9]
    that is not yet shot on the defender's board, and to find it the
    function neither calls SEAL nor touches SEAL's generator.  On a 10x10
    overlay it never raises. *)
Theorem random_guess_contract (fuel : nat) (attacker d : Player) (w : World) :
  (forall x y w',
     random_guess fuel attacker d w = Ok ((x, y), w') ->
     0 <= x < 10 /\ 0 <= y < 10 /\
     Py.getitem2 (hits (board d)) x y = Ok false /\
     seal_calls w' = seal_calls w /\
     (forall n, seal_random w' n = seal_random w n))
  /\
  (shape 10 (hits (board d)) ->
   forall e, random_guess fuel attacker d w <> Raise e).
Proof.
  split.
  - intros x y w'. apply random_guess_returns.
  - intros Hshape e. by apply random_guess_never_raises.
Qed.


Lemma random_guess_contract_witness :
  exists x y w',
    random_guess 5 fleet_after fleet_after (list_world [0; 0; 3; 3])
      = Ok ((x, y), w') /\
    Py.getitem2 (hits (board fleet_after)) x y = Ok false.
Proof.
  destruct (outcome_returns
              (random_guess 5 fleet_after fleet_after (list_world [0; 0; 3; 3])))
    as [[[x y] w'] Hrun]; [vm_compute; reflexivity|].
  exists x, y, w'. split; [exact Hrun|].
  apply (proj1 (random_guess_contract 5 fleet_after fleet_after
                  (list_world [0; 0; 3; 3])) x y w' Hrun).
Defined.

(** X5. When every cell of the defender's 10x10 overlay is already shot,
    [random_guess] never returns: each round rejects its sample, in every
    world and for every bound on the rounds. *)
Theorem random_guess_swept_board (fuel : nat) (attacker d : Player) (w : World) :
  shape 10 (hits (board d)) ->
  (forall rc, in_grid 10 rc -> Py.getitem2 (hits (board d)) rc.1 rc.2 = Ok true) ->
  random_guess fuel attacker d w = Unfinished.
Proof.
  intros Hshape Hall. revert w.
  induction fuel as [|fuel IH]; intros w; first done.
  rewrite (random_guess_round _ _ _ _ true); first apply IH.
  apply (Hall (_, _)). split; simpl; by apply Z.mod_pos_bound.
Qed.

Lemma shape_hits_swept : shape 10 (hits swept_board).
Proof. split; [reflexivity|]. vm_compute. repeat constructor. Qed.

Lemma swept_board_cells rc :
  in_grid 10 rc -> Py.getitem2 (hits swept_board) rc.1 rc.2 = Ok true.
Proof.
  intros Hin%elem_of_coords. revert rc Hin. apply Forall_forall.
  vm_compute. repeat constructor.
Qed.

Lemma random_guess_swept_board_witness :
  random_guess 40 (Player_new "Bob (Computer)" ToyExact fleet_board)
    (Player_new "Alice (You)" ToyExact swept_board) (list_world fleet_draws)
  = Unfinished.
Proof.
  apply random_guess_swept_board.
  - exact shape_hits_swept.
  - exact swept_board_cells.
Defined.

(** ** A fresh guess is always registered *)

Lemma process_guess_marks attacker d d' x y w w' hit :
  shape (size (board d)) (hits (board d)) ->
  in_grid (size (board d)) (x, y) ->
  Py.getitem2 (hits (board d)) x y = Ok false ->
  process_guess attacker d x y w = Ok ((hit, d'), w') ->
  Py.getitem2 (hits (board d')) x y = Ok true /\
  register_shot (board d) x y hit = Ok (true, board d') /\
  shape (size (board d)) (hits (board d')) /\
  (forall rc, in_grid (size (board d)) rc -> rc <> (x, y) ->
     Py.getitem2 (hits (board d')) rc.1 rc.2
     = Py.getitem2 (hits (board d)) rc.1 rc.2) /\
  shot_count (board d') = shot_count (board d) + 1.
Proof.
  intros Hshape Hin Hfalse Hrun.
  apply process_guess_inv in Hrun
    as [(Htrue & _)|(_ & ct & m & h' & _ & _ & -> & Hset & Hget & -> & _)];
    first congruence.
  destruct (setitem2_in_grid _ _ (x, y) true Hshape Hin)
    as (h'' & Hset' & Hshape' & _ & Hframe).
  simpl in Hset'. rewrite Hset in Hset'. injection Hset' as <-.
  destruct (register_shot_fresh (board d) x y (negb (m =? 0)) Hfalse)
    as (h'' & Hset'' & _ & Hreg).
  rewrite Hset in Hset''. injection Hset'' as <-.
  simpl. split_and!; try done.
  unfold shot_count. simpl.
  apply (count_if_flip_one _ _ _ (x, y)).
  - apply NoDup_coords.
  - by apply elem_of_coords.
  - unfold shot_at. simpl. by rewrite Hfalse.
  - unfold shot_at. simpl. by rewrite Hget.
  - intros rc Hrc%elem_of_coords Hne. unfold shot_at. by rewrite Hframe.
Qed.



(** ** The human guess source *)



Lemma get_human_guess_returns B fuel d :
  forall w c x y w' c',
    get_human_guess B fuel d w c = Returned (x, y) w' c' ->
    (0 <= x <= 9) /\ (0 <= y <= 9) /\
    Py.getitem2 (hits (board d)) x y = Ok false /\
    w' = w /\
    exists (pre : list string) (lx ly : string) (k : nat),
      stdin c = pre ++ lx :: ly :: stdin c' /\
      length pre = (2 * k)%nat /\
      int_of_str B (str_strip B lx) = Some x /\
      int_of_str B (str_strip B ly) = Some y.
Proof.
  induction fuel as [|fuel IH]; intros w c x y w' c' Hrun; first done.
  simpl in Hrun. unfold_io. simpl in Hrun.
  destruct (stdin c) as [|lx rest] eqn:Hin; first done.
  destruct (String.eqb (str_lower B (str_strip B lx)) "q"); first done.
  destruct rest as [|ly rest]; first done.
  simpl in Hrun.
  destruct (String.eqb (str_lower B (str_strip B ly)) "q"); first done.
  assert (Hretry : forall c0 : Console,
            stdin c0 = rest ->
            get_human_guess B fuel d w c0 = Returned (x, y) w' c' ->
            (0 <= x <= 9) /\ (0 <= y <= 9) /\
            Py.getitem2 (hits (board d)) x y = Ok false /\
            w' = w /\
            exists (pre : list string) (lx0 ly0 : string) (k : nat),
              lx :: ly :: rest = pre ++ lx0 :: ly0 :: stdin c' /\
              length pre = (2 * k)%nat /\
              int_of_str B (str_strip B lx0) = Some x /\
              int_of_str B (str_strip B ly0) = Some y).
  { intros c0 Hc0 Hrec.
    apply IH in Hrec as (? & ? & ? & ? & pre & lx0 & ly0 & k & Hpre & Hlen & ? & ?).
    split_and!; try first [done | lia].
    exists (lx :: ly :: pre), lx0, ly0, (S k). rewrite <- Hc0, Hpre.
    split_and!; try done. simpl. lia. }
  destruct (int_of_str B (str_strip B lx)) as [x0|] eqn:Hx;
    last by (eapply Hretry; last exact Hrun).
  destruct (int_of_str B (str_strip B ly)) as [y0|] eqn:Hy;
    last by (eapply Hretry; last exact Hrun).
  destruct ((0 <=? x0) && (x0 <=? 9) && ((0 <=? y0) && (y0 <=? 9))) eqn:Hrange;
    last by (eapply Hretry; last exact Hrun).
  destruct (Py.getitem2 (hits (board d)) x0 y0) as [[|]| |] eqn:Hh; try done.
  - by (eapply Hretry; last exact Hrun).
  - injection Hrun as <- <- <- <-. simpl.
    split_and!; try first [done | lia].
    exists [], lx, ly, 0%nat. done.
Qed.







Lemma getitem_finished {A} (l : list A) i : Py.getitem l i <> Unfinished.
Proof.
  unfold Py.getitem. destruct (Py.norm_index _ i) as [n|]; last done.
  by destruct (l !! n).
Qed.

Lemma getitem2_finished {A} (g : list (list A)) x y :
  Py.getitem2 g x y <> Unfinished.
Proof.
  unfold Py.getitem2, mbind, outcome_mbind, outcome_bind.
  destruct (Py.getitem g x) as [row| |] eqn:E; try done.
  - apply getitem_finished.
  - by apply getitem_finished in E.
Qed.




(** ** The game loop *)

Lemma IO_bind_Returned {A B} (m : IO A) (f : A -> IO B) w c b w' c' :
  (m ≫= f) w c = Returned b w' c' ->
  exists a w1 c1, m w c = Returned a w1 c1 /\ f a w1 c1 = Returned b w' c'.
Proof.
  unfold mbind, IO_mbind, IO_bind.
  destruct (m w c) as [a w1 c1| |]; try done. eauto.
Qed.

Lemma print_Returned s w c a w' c' :
  print s w c = Returned a w' c' ->
  w' = w /\ stdin c' = stdin c /\ stdout c' = (s +:+ NL) :: stdout c.
Proof. unfold print, write. by intros [= _ <- <-]. Qed.

Lemma liftM_Returned {A} (m : M A) w c a w' c' :
  liftM m w c = Returned a w' c' -> m w = Ok (a, w') /\ c' = c.
Proof.
  unfold liftM. destruct (m w) as [[a0 w0]| |]; try done.
  by intros [= <- <- <-].
Qed.

Lemma liftM_Raised {A} (m : M A) w c e c' :
  liftM m w c = Raised e c' -> exists e0, e = PyExn e0.
Proof.
  unfold liftM. destruct (m w) as [[a0 w0]|e0|]; try done.
  intros [= <- _]. by exists e0.
Qed.

Lemma catching_Returned {A} (m : IO A) w c o w' c' :
  catching_interrupt m w c = Returned o w' c' ->
  (exists a, o = Some a /\ m w c = Returned a w' c') \/
  (o = None /\ w' = w /\ m w c = Raised KeyboardInterrupt c').
Proof.
  unfold catching_interrupt.
  destruct (m w c) as [a w1 c1|[e0| |] c1|]; try done.
  - intros [= <- <- <-]. left. by exists a.
  - intros [= <- <- <-]. by right.
Qed.

(** The guess of a turn is fresh on the opponent's board. *)
Lemma turn_guess_Returned B fuel g w c x y w' c' :
  turn_guess B fuel g w c = Returned (x, y) w' c' ->
  in_grid 10 (x, y) /\
  Py.getitem2 (hits (board (opponent g))) x y = Ok false.
Proof.
  unfold turn_guess, opponent, in_grid. destruct (alice_moves g).
  - intros (_ & w1 & c1 & _ & Hg)%IO_bind_Returned.
    apply get_human_guess_returns in Hg as (? & ? & ? & _). simpl.
    split; [lia|done].
  - intros ([x0 y0] & w1 & c1 & [Hg ->]%liftM_Returned & Hrest)%IO_bind_Returned.
    apply IO_bind_Returned in Hrest as (_ & w2 & c2 & _ & Hret).
    injection Hret as <- <- _ _.
    apply random_guess_returns in Hg as (? & ? & ? & _). simpl.
    split; [lia|done].
Qed.

(** Only the human reader can interrupt. *)
Lemma turn_guess_interrupt B fuel g w c c' :
  turn_guess B fuel g w c = Raised KeyboardInterrupt c' ->
  alice_moves g = true.
Proof.
  unfold turn_guess. destruct (alice_moves g); first done.
  unfold mbind, IO_mbind, IO_bind.
  destruct (liftM _ w c) as [a w1 c1|e c1|] eqn:Hg; try done.
  by apply liftM_Raised in Hg as [e0 ->].
Qed.

(** One round of the loop. *)
Lemma game_loop_round B fuel g0 w c g' e w' c' :
  game_loop B (S fuel) g0 w c = Returned (g', e) w' c' ->
  (e = Interrupted /\ g' = next_turn g0 /\ alice_moves g0 = true /\ w' = w)
  \/
  exists x y hit opp' w1 w2 c2,
    in_grid 10 (x, y) /\
    Py.getitem2 (hits (board (opponent (next_turn g0)))) x y = Ok false /\
    process_guess (current (next_turn g0)) (opponent (next_turn g0)) x y w1
      = Ok ((hit, opp'), w2) /\
    ((all_sunk (board (opponent (after_shot (next_turn g0) hit opp'))) = true /\
      e = Won /\ g' = after_shot (next_turn g0) hit opp' /\ w' = w2)
     \/
     (all_sunk (board (opponent (after_shot (next_turn g0) hit opp'))) = false /\
      game_loop B fuel (switch_players (after_shot (next_turn g0) hit opp')) w2 c2
        = Returned (g', e) w' c')).
Proof.
  intros Hrun. simpl in Hrun.
  apply IO_bind_Returned in Hrun as (_ & w0 & c0 & [-> _]%print_Returned & Hrun).
  apply IO_bind_Returned in Hrun as (guess & w1 & c1 & Hguess & Hrun).
  apply catching_Returned in Hguess
    as [([x y] & -> & Hguess)|(-> & -> & Hint%turn_guess_interrupt)].
  - right.
    apply turn_guess_Returned in Hguess as [Hin Hfree].
    apply IO_bind_Returned in Hrun
      as ([hit opp'] & w2 & c2 & [Hpg _]%liftM_Returned & Hrun).
    apply IO_bind_Returned in Hrun as (u & w3 & c3 & Hprint & Hrun).
    assert (w3 = w2) as ->.
    { simpl in Hprint.
      destruct (alice_moves _); by apply print_Returned in Hprint as [-> _]. }
    simpl in Hrun.
    exists x, y, hit, opp', w1, w2, c3.
    split_and!; try done. simpl.
    destruct (all_sunk _) eqn:Hsunk; [left|right; done].
    apply IO_bind_Returned in Hrun as (_ & ? & ? & [-> _]%print_Returned & Hrun).
    apply IO_bind_Returned in Hrun as (_ & ? & ? & [-> _]%print_Returned & Hrun).
    apply IO_bind_Returned in Hrun as (_ & ? & ? & [-> _]%print_Returned & Hrun).
    by injection Hrun as <- <- <- _.
  - left.
    apply IO_bind_Returned in Hrun as (_ & ? & ? & [-> _]%print_Returned & Hrun).
    by injection Hrun as <- <- <- _.
Qed.

Lemma with_state_same p : p = with_state p (board p) (points p).
Proof. by destruct p. Qed.

Lemma progress_refl g : standard_boards g -> game_progress g g 0.
Proof.
  intros Hstd. unfold game_progress.
  split_and!; try first [done | lia | apply with_state_same].
Qed.

Lemma progress_from g0 g1 g2 n :
  alice g1 = alice g0 -> bob g1 = bob g0 ->
  game_progress g1 g2 n -> game_progress g0 g2 n.
Proof.
  unfold game_progress, shots_fired. by intros -> ->.
Qed.

Lemma progress_trans g0 g1 g2 n m :
  game_progress g0 g1 n -> game_progress g1 g2 m ->
  game_progress g0 g2 (n + m).
Proof.
  intros (_ & Ha1 & Hb1 & Hga1 & Hgb1 & Hta1 & Htb1 & Hpa1 & Hpb1 & ? & ? & Hs1)
         (Hstd & Ha2 & Hb2 & Hga2 & Hgb2 & Hta2 & Htb2 & Hpa2 & Hpb2 & ? & ? & Hs2).
  unfold game_progress. split_and!; try first [done | congruence | lia].
  - rewrite Ha2. rewrite Ha1 at 1. reflexivity.
  - rewrite Hb2. rewrite Hb1 at 1. reflexivity.
Qed.

(** One resolved guess of the current player. *)
Lemma progress_after_shot g x y hit opp' w1 w2 :
  standard_boards g ->
  in_grid 10 (x, y) ->
  Py.getitem2 (hits (board (opponent g))) x y = Ok false ->
  process_guess (current g) (opponent g) x y w1 = Ok ((hit, opp'), w2) ->
  game_progress g (after_shot g hit opp') 1.
Proof.
  intros (Hsa & Hsb & Hha & Hhb) Hin Hfree Hpg.
  pose proof (process_guess_effect _ _ _ _ _ _ _ _ Hpg)
    as (Hcnt & (b' & Hopp) & Hgrid & Hsize & Htotal & Hpts & _).
  assert (Hsz : size (board (opponent g)) = 10)
    by (unfold opponent; by destruct (alice_moves g)).
  assert (Hsh : shape 10 (hits (board (opponent g))))
    by (unfold opponent; by destruct (alice_moves g)).
  rewrite <- Hsz in Hsh, Hin.
  pose proof (process_guess_marks _ _ _ _ _ _ _ _ Hsh Hin Hfree Hpg)
    as (_ & _ & Hsh' & _ & Hshots).
  rewrite Hsz in Hsh'.
  unfold game_progress, standard_boards, shots_fired, after_shot, opponent,
    current in *.
  destruct (alice_moves g); simpl.
  - split_and!; try first [done | congruence | lia];
      try (rewrite Hopp; reflexivity);
      destruct hit; simpl in *;
      first [done | congruence | lia | by destruct (alice g)].
  - split_and!; try first [done | congruence | lia];
      try (rewrite Hopp; reflexivity);
      destruct hit; simpl in *;
      first [done | congruence | lia | by destruct (bob g)].
Qed.

Lemma standard_switch g :
  standard_boards g -> standard_boards (switch_players g).
Proof. done. Qed.

(** What holds when the loop is left. *)
Lemma game_loop_inv B fuel :
  forall g0 w c g' e w' c',
    standard_boards g0 ->
    game_loop B fuel g0 w c = Returned (g', e) w' c' ->
    game_progress g0 g' (turn g' - turn g0 - open_turns e) /\
    turn g0 < turn g' /\
    alice_moves g' = xorb (alice_moves g0) (Z.even (turn g' - turn g0)) /\
    match e with
    | Won => all_sunk (board (opponent g')) = true
    | Interrupted => alice_moves g' = true
    end.
Proof.
  induction fuel as [|fuel IH]; intros g0 w c g' e w' c' Hstd Hrun; first done.
  apply game_loop_round in Hrun
    as [(-> & -> & Hmoves & _)
       |(x & y & hit & opp' & w1 & w2 & c2 & Hin & Hfree & Hpg & Hend)].
  - simpl. replace (turn g0 + 1 - turn g0 - 1) with 0 by lia.
    replace (turn g0 + 1 - turn g0) with 1 by lia.
    split_and!; try first [done | lia].
    + apply (progress_from g0 (next_turn g0)); try done. by apply progress_refl.
    + by destruct (alice_moves g0).
  - assert (Hstd1 : standard_boards (next_turn g0)) by done.
    pose proof (progress_after_shot _ _ _ _ _ _ _ Hstd1 Hin Hfree Hpg) as Hstep.
    apply (progress_from g0) in Hstep; try done.
    assert (Hturn1 : turn (after_shot (next_turn g0) hit opp') = turn g0 + 1).
    { unfold after_shot. by destruct (alice_moves (next_turn g0)). }
    assert (Hmoves1 : alice_moves (after_shot (next_turn g0) hit opp')
                      = alice_moves g0).
    { unfold after_shot. simpl. by destruct (alice_moves g0). }
    destruct Hend as [(Hsunk & -> & -> & _)|(Hsunk & Hrec)].
    + rewrite Hturn1, Hmoves1. simpl.
      replace (turn g0 + 1 - turn g0 - 0) with 1 by lia.
      replace (turn g0 + 1 - turn g0) with 1 by lia.
      split_and!; try first [done | lia].
      by destruct (alice_moves g0).
    + apply IH in Hrec as (Hprog & Hlt & Hpar & Hfin).
      2:{ apply standard_switch. apply Hstep. }
      apply (progress_from (after_shot (next_turn g0) hit opp')) in Hprog;
        try done.
      pose proof (progress_trans _ _ _ _ _ Hstep Hprog) as Htotal.
      simpl in Hlt, Hpar, Htotal. rewrite Hturn1 in Hlt, Hpar, Htotal.
      rewrite Hmoves1 in Hpar.
      replace (1 + (turn g' - (turn g0 + 1) - open_turns e))
        with (turn g' - turn g0 - open_turns e) in Htotal by lia.
      split_and!; try first [done | lia].
      rewrite Hpar.
      replace (turn g' - turn g0) with (Z.succ (turn g' - (turn g0 + 1))) by lia.
      rewrite Z.even_succ, <- Z.negb_even.
      by destruct (alice_moves g0), (Z.even _).
Qed.

Lemma ending_of_Returned (r : ioresult (Game * ending)) (e : ending) :
  ending_of r = Some e -> exists g w c, r = Returned (g, e) w c.
Proof.
  destruct r as [[g e0] w c| |]; try done. intros [= ->]. by exists g, w, c.
Qed.

Lemma standard_demo_game : standard_boards demo_game.
Proof.
  unfold standard_boards.
  change (alice demo_game) with (sealed_player ToyExact fleet_board).
  change (bob demo_game) with (sealed_player ToyExact demo_board).
  destruct (sealed_player_consistent ToyExact fleet_board shape_grid_fleet)
    as [-> _].
  destruct (sealed_player_consistent ToyExact demo_board shape_grid_demo)
    as [-> _].
  split_and!.
  - vm_compute. reflexivity.
  - vm_compute. reflexivity.
  - split; [vm_compute; reflexivity|]. vm_compute. repeat constructor.
  - split; [vm_compute; reflexivity|]. vm_compute. repeat constructor.
Qed.

Lemma demo_game_run :
  exists g' w' c',
    game_loop AsciiBuiltins 3 demo_game demo_game_world
      (console_of ["0"; "0"; "0"; "1"])
    = Returned (g', Won) w' c'.
Proof. apply ending_of_Returned. vm_compute. reflexivity. Qed.

(** X10. The scores follow the boards, whatever SEAL does: when the game
    loop is left, each player's points have grown by exactly what the
    other board's [hits_count] has grown, and never shrunk; each player
    still has the name, the keys and the encrypted board of the start (no
    ciphertext is refreshed after a shot); and each board has the grid and
    the ship total of the start. *)
Theorem game_loop_scores
    (B : PyBuiltins) (fuel : nat) (g0 g' : Game) (e : ending)
    (w w' : World) (c c' : Console) :
  standard_boards g0 ->
  game_loop B fuel g0 w c = Returned (g', e) w' c' ->
  points (alice g') - points (alice g0)
    = hits_count (board (bob g')) - hits_count (board (bob g0)) /\
  points (bob g') - points (bob g0)
    = hits_count (board (alice g')) - hits_count (board (alice g0)) /\
  0 <= points (alice g') - points (alice g0) /\
  0 <= points (bob g') - points (bob g0) /\
  alice g' = with_state (alice g0) (board (alice g')) (points (alice g')) /\
  bob g' = with_state (bob g0) (board (bob g')) (points (bob g')) /\
  grid (board (alice g')) = grid (board (alice g0)) /\
  grid (board (bob g')) = grid (board (bob g0)) /\
  total_ship_cells (board (alice g')) = total_ship_cells (board (alice g0)) /\
  total_ship_cells (board (bob g')) = total_ship_cells (board (bob g0)).
Proof.
  intros Hstd Hrun.
  destruct (game_loop_inv _ _ _ _ _ _ _ _ _ Hstd Hrun)
    as ((_ & ? & ? & ? & ? & ? & ? & ? & ? & ? & ? & _) & _).
  split_and!; done.
Qed.

Lemma game_loop_scores_witness :
  exists g' w' c',
    game_loop AsciiBuiltins 3 demo_game demo_game_world
      (console_of ["0"; "0"; "0"; "1"])
    = Returned (g', Won) w' c' /\
    points (alice g') - points (alice demo_game)
    = hits_count (board (bob g')) - hits_count (board (bob demo_game)).
Proof.
  destruct demo_game_run as (g' & w' & c' & Hrun).
  exists g', w', c'. split; [exact Hrun|].
  exact (proj1 (game_loop_scores _ _ _ _ _ _ _ _ _ standard_demo_game Hrun)).
Defined.



(** ** The whole game *)









(** ** The final view *)

Lemma cell_symbol_in_grid b r c :
  shape 10 (grid b) -> shape 10 (hits b) -> in_grid 10 (r, c) ->
  cell_symbol b r c = Ok (symbol_at b r c).
Proof.
  intros Hg Hh Hin.
  destruct (getitem2_in_grid 10 (grid b) (r, c) Hg Hin)
    as (_ & g & _ & _ & _ & Hget).
  destruct (getitem2_in_grid 10 (hits b) (r, c) Hh Hin)
    as (_ & h & _ & _ & _ & Hhit).
  simpl in Hget, Hhit.
  unfold cell_symbol, symbol_at, ship_at, shot_at. simpl.
  unfold_bind. rewrite Hget, Hhit.
  destruct (g =? 0), h; simpl; try done; by rewrite Hhit.
Qed.

Lemma mapM_outcome_Ok {A B} (f : A -> outcome B) (g : A -> B) (l : list A) :
  (forall x, x ∈ l -> f x = Ok (g x)) -> mapM f l = Ok (g <$> l).
Proof.
  induction l as [|x l IH]; intros Hf; first done.
  simpl. unfold_bind. rewrite (Hf x) by left.
  rewrite IH; first done. intros y Hy. apply Hf. by right.
Qed.

Lemma for_each_writes {A} (l : list A) (body : A -> IO unit)
    (line : A -> string) :
  (forall a w c, a ∈ l -> body a w c = Returned tt w (after_writing c [line a])) ->
  forall w c,
    for_each l body w c = Returned tt w (after_writing c (line <$> l)).
Proof.
  induction l as [|a l IH]; intros Hbody w c.
  - simpl. unfold mret, IO_mret, IO_ret, after_writing. simpl. by destruct c.
  - simpl. unfold mbind, IO_mbind, IO_bind. rewrite Hbody by left.
    rewrite IH by (intros; apply Hbody; by right).
    unfold after_writing. simpl. f_equal. f_equal.
    rewrite reverse_cons, <- !app_assoc. reflexivity.
Qed.

(** X13. On a board whose two grids are 10x10, [display_final_board] never
    raises and changes nothing but the output: it writes the two header
    lines and then one line per row, in which a ship cell shows [H] when
    shot and [S] when not, and water shows [X] when shot and [.] when
    not. *)
Theorem display_final_board_view (b : Board) (w : World) (c : Console) :
  shape 10 (grid b) -> shape 10 (hits b) ->
  display_final_board b w c
  = Returned tt w (after_writing c (view_header ++ (view_row b <$> Py.range 10))).
Proof.
  intros Hg Hh. unfold display_final_board.
  unfold mbind at 1, IO_mbind at 1, IO_bind at 1. unfold print at 1, write at 1.
  unfold mbind at 1, IO_mbind at 1, IO_bind at 1. unfold print at 1, write at 1.
  rewrite (for_each_writes _ _ (view_row b)).
  - unfold after_writing, view_header. simpl stdin. simpl stdout.
    by f_equal.
  - intros r w0 c0 Hr%elem_of_range.
    unfold mbind, IO_mbind, IO_bind, lift_io, liftM, lift.
    rewrite (mapM_outcome_Ok _ (symbol_at b r)).
    + unfold print, write, after_writing, view_row. simpl. reflexivity.
    + intros col Hcol%elem_of_range. by apply cell_symbol_in_grid.
Qed.

Lemma shape_demo_board_shot :
  shape 10 (grid demo_board_shot) /\ shape 10 (hits demo_board_shot).
Proof.
  split; (split; [reflexivity|]); vm_compute; repeat constructor.
Qed.

Lemma display_final_board_view_witness :
  display_final_board demo_board_shot (const_world 0) (console_of [])
  = Returned tt (const_world 0)
      (after_writing (console_of [])
         (view_header ++ (view_row demo_board_shot <$> Py.range 10))) /\
  view_row demo_board_shot 0 = "0 | H S . . . . . . . ." +:+ NL.
Proof.
  split.
  - apply display_final_board_view; apply shape_demo_board_shot.
  - vm_compute. reflexivity.
Defined.

(** ** The final view of a smaller board *)

Lemma getitem_raises {A} (l : list A) i e :
  Py.getitem l i = Raise e -> e = IndexError.
Proof.
  unfold Py.getitem. destruct (Py.norm_index _ i) as [n|].
  - destruct (l !! n); [done|by intros [= <-]].
  - by intros [= <-].
Qed.

Lemma getitem2_raises {A} (g : list (list A)) x y e :
  Py.getitem2 g x y = Raise e -> e = IndexError.
Proof.
  unfold Py.getitem2, mbind, outcome_mbind, outcome_bind.
  destruct (Py.getitem g x) as [row| |] eqn:E; try done.
  - apply getitem_raises.
  - intros [= <-]. by apply getitem_raises in E.
Qed.

(** A cell read either gives a symbol or raises [IndexError]. *)
Lemma cell_symbol_cases b r c :
  (exists s, cell_symbol b r c = Ok s) \/ cell_symbol b r c = Raise IndexError.
Proof.
  unfold cell_symbol. unfold_bind.
  destruct (Py.getitem2 (grid b) r c) as [g|e|] eqn:Hg.
  - destruct (Py.getitem2 (hits b) r c) as [h|e|] eqn:Hh.
    + left. destruct (g =? 0), h; simpl; eauto.
    + apply getitem2_raises in Hh as ->.
      destruct (g =? 0); simpl; by right.
    + by apply getitem2_finished in Hh.
  - apply getitem2_raises in Hg as ->. by right.
  - by apply getitem2_finished in Hg.
Qed.

Lemma mapM_outcome_raises {A B} (f : A -> outcome B) (l : list A) (x : A) :
  (forall y, y ∈ l -> (exists s, f y = Ok s) \/ f y = Raise IndexError) ->
  x ∈ l -> f x = Raise IndexError ->
  mapM f l = Raise IndexError.
Proof.
  induction l as [|a l IH]; intros Hcases Hx Hraise; first by inv Hx.
  simpl. unfold_bind.
  destruct (Hcases a) as [[s Hs]|Hs]; first by left.
  - rewrite Hs.
    assert (Hxl : x ∈ l).
    { inv Hx; [congruence|done]. }
    rewrite IH; try done. intros y Hy. apply Hcases. by right.
  - by rewrite Hs.
Qed.

(** Row 0 of a grid with fewer than ten columns cannot be read to its
    end. *)
Lemma short_grid_raises n (g : list (list Z)) :
  0 <= n < 10 -> shape n g -> Py.getitem2 g 0 n = Raise IndexError.
Proof.
  intros Hn [Hlen Hrows].
  unfold Py.getitem2, mbind, outcome_mbind, outcome_bind.
  destruct (Py.getitem g 0) as [row|e|] eqn:Hrow.
  - apply getitem_Ok in Hrow as (k & _ & Hk).
    assert (Hlrow : length row = Z.to_nat n)
      by (by eapply (proj1 (Forall_lookup _ _) Hrows)).
    unfold Py.getitem, Py.norm_index. rewrite Hlrow, Z2Nat.id by lia.
    destruct (Z.leb_spec 0 n), (Z.ltb_spec n n), (Z.ltb_spec n 0),
      (Z.leb_spec (- n) n); simpl; first [done | lia].
  - by apply getitem_raises in Hrow as ->.
  - by apply getitem_finished in Hrow.
Qed.

Lemma for_each_raises_first {A} (l : list A) (a : A) (body : A -> IO unit)
    w c e c' :
  head l = Some a -> body a w c = Raised e c' ->
  for_each l body w c = Raised e c'.
Proof.
  destruct l as [|a0 l]; first done. intros [= ->] Hbody.
  simpl. unfold mbind, IO_mbind, IO_bind. by rewrite Hbody.
Qed.

(** X14. [display_final_board] ignores [board.size]: on a board of side
    below ten it writes the two header lines and then raises [IndexError]
    while reading row 0, before any row is written. *)
Theorem display_final_board_small (b : Board) (n : Z) (w : World) (c : Console) :
  0 <= n < 10 -> shape n (grid b) ->
  display_final_board b w c
  = Raised (PyExn IndexError) (after_writing c view_header).
Proof.
  intros Hn Hg. unfold display_final_board.
  unfold mbind at 1, IO_mbind at 1, IO_bind at 1. unfold print at 1, write at 1.
  unfold mbind at 1, IO_mbind at 1, IO_bind at 1. unfold print at 1, write at 1.
  rewrite (for_each_raises_first _ 0 _ _ _ (PyExn IndexError)
             (after_writing c view_header)); [reflexivity|reflexivity|].
  unfold mbind, IO_mbind, IO_bind, lift_io, liftM, lift.
  rewrite (mapM_outcome_raises _ _ n).
  - reflexivity.
  - intros col _. apply cell_symbol_cases.
  - by apply elem_of_range.
  - unfold cell_symbol. unfold_bind. by rewrite (short_grid_raises n).
Qed.

Lemma display_final_board_small_witness :
  shape 4 (grid small_board) /\
  display_final_board small_board (const_world 0) (console_of [])
  = Raised (PyExn IndexError) (after_writing (console_of []) view_header).
Proof.
  assert (Hshape : shape 4 (grid small_board)).
  { split; [reflexivity|]. vm_compute. repeat constructor. }
  split; [exact Hshape|].
  apply (display_final_board_small small_board 4); [lia|exact Hshape].
Defined.

(** ** Placement and the side of the board *)

Lemma choice_HV_run w :
  exists o,
    Random.choice ["H"; "V"]%string w = Ok (o, after_draw w) /\
    (o = "H"%string \/ o = "V"%string).
Proof.
  unfold Random.choice. unfold mbind, M_mbind, M_bind.
  rewrite randrange_run by done. unfold lift.
  pose proof (Z.mod_pos_bound (py_random w 0%nat) 2 ltac:(lia)) as Hk.
  change (Z.of_nat (length ["H"%string; "V"%string])) with 2.
  assert (py_random w 0%nat mod 2 = 0 \/ py_random w 0%nat mod 2 = 1)
    as [-> | ->] by lia.
  - exists "H"%string. split; [reflexivity|by left].
  - exists "V"%string. split; [reflexivity|by right].
Qed.

Lemma randrange_empty_raises n w :
  n <= 0 -> Random.randrange n w = Raise ValueError.
Proof.
  intros Hn. unfold Random.randrange. by destruct (Z.leb_spec n 0); [|lia].
Qed.

Lemma M_bind_run_Ok {A B} (m : M A) (f : A -> M B) w a w1 :
  m w = Ok (a, w1) -> (m ≫= f) w = f a w1.
Proof. intros Hm. unfold mbind, M_mbind, M_bind. by rewrite Hm. Qed.

Lemma M_bind_run_Raise {A B} (m : M A) (f : A -> M B) w e :
  m w = Raise e -> (m ≫= f) w = Raise e.
Proof. intros Hm. unfold mbind, M_mbind, M_bind. by rewrite Hm. Qed.

Lemma M_bind_run_Unfinished {A B} (m : M A) (f : A -> M B) w :
  m w = Unfinished -> (m ≫= f) w = Unfinished.
Proof. intros Hm. unfold mbind, M_mbind, M_bind. by rewrite Hm. Qed.

(** A ship longer than the side cannot be sampled. *)
Lemma place_ship_too_long fuel len ship_id b w :
  size b - len + 1 <= 0 ->
  place_ship (S fuel) len ship_id b w = Raise ValueError.
Proof.
  intros Hlen. cbn [place_ship].
  destruct (choice_HV_run w) as (o & Ho & [-> | ->]);
    rewrite (M_bind_run_Ok _ _ _ _ _ Ho); simpl String.eqb; cbv iota;
    apply M_bind_run_Raise.
  - destruct (Z.le_gt_cases (size b) 0) as [Hle|Hgt].
    + apply M_bind_run_Raise. by apply randrange_empty_raises.
    + rewrite (M_bind_run_Ok _ _ _ _ _ (randrange_run _ _ Hgt)).
      apply M_bind_run_Raise. by apply randrange_empty_raises.
  - apply M_bind_run_Raise. by apply randrange_empty_raises.
Qed.

(** X15. On a board of side below five [place_ships_random] cannot place
    the first ship: whatever the draws, the first sample asks
    [random.randrange] for an element of an empty range and the call
    raises [ValueError]. *)
Theorem place_ships_random_small (fuel : nat) (b : Board) (w : World) :
  size b < 5 ->
  place_ships_random (S fuel) b w = Raise ValueError.
Proof.
  intros Hsize. unfold place_ships_random, SHIP_SIZES.
  cbn [place_ships]. apply M_bind_run_Raise.
  apply place_ship_too_long. change (size (reset_board b)) with (size b). lia.
Qed.

Lemma place_ships_random_small_witness :
  size small_board < 5 /\
  place_ships_random 1 small_board (const_world 3) = Raise ValueError.
Proof.
  split; [reflexivity|].
  apply place_ships_random_small. reflexivity.
Defined.

Lemma all_free_in_grid n g cells :
  shape n g -> (forall rc, rc ∈ cells -> in_grid n rc) ->
  exists r, all_free g cells = Ok r.
Proof.
  intros Hshape. induction cells as [|[r c] cells IH]; intros Hin.
  - by exists true.
  - simpl. unfold_bind.
    destruct (getitem2_in_grid n g (r, c) Hshape) as (_ & v & _ & _ & _ & Hv);
      first by (apply Hin; left).
    simpl in Hv. rewrite Hv. destruct (v =? 0); last by exists false.
    apply IH. intros rc Hrc. apply Hin. by right.
Qed.

Lemma place_ship_no_raise fuel len ship_id b :
  0 < size b -> len <= size b -> shape (size b) (grid b) ->
  forall w e, place_ship fuel len ship_id b w <> Raise e.
Proof.
  intros Hsize Hlen Hshape.
  induction fuel as [|fuel IH]; intros w e; first done.
  cbn [place_ship].
  destruct (choice_HV_run w) as (o & Ho & Hcases).
  rewrite (M_bind_run_Ok _ _ _ _ _ Ho).
  set (w1 := after_draw w).
  assert (exists h row col w2,
            segment_inside (size b) h row col len /\
            ((if String.eqb o "H" then
                row ← Random.randrange (size b);
                col ← Random.randrange (size b - len + 1);
                mret (cells_H row col len)
              else
                row ← Random.randrange (size b - len + 1);
                col ← Random.randrange (size b);
                mret (cells_V row col len)) : M (list (Z * Z))) w1
            = Ok (cells_of h row col len, w2))
    as (h & row & col & w2 & Hseg & Hcells).
  { destruct Hcases as [-> | ->].
    - exists true, (py_random w1 0%nat mod size b),
        (py_random (after_draw w1) 0%nat mod (size b - len + 1)),
        (after_draw (after_draw w1)).
      pose proof (Z.mod_pos_bound (py_random w1 0%nat) (size b) Hsize).
      pose proof (Z.mod_pos_bound (py_random (after_draw w1) 0%nat)
                    (size b - len + 1) ltac:(lia)).
      split; first (unfold segment_inside; lia).
      change (String.eqb "H" "H") with true. cbv iota.
      rewrite (M_bind_run_Ok _ _ _ _ _ (randrange_run _ _ Hsize)).
      rewrite (M_bind_run_Ok _ _ _ _ _
                 (randrange_run (size b - len + 1) _ ltac:(lia))).
      reflexivity.
    - exists false, (py_random w1 0%nat mod (size b - len + 1)),
        (py_random (after_draw w1) 0%nat mod size b),
        (after_draw (after_draw w1)).
      pose proof (Z.mod_pos_bound (py_random w1 0%nat)
                    (size b - len + 1) ltac:(lia)).
      pose proof (Z.mod_pos_bound (py_random (after_draw w1) 0%nat)
                    (size b) Hsize).
      split; first (unfold segment_inside; lia).
      change (String.eqb "V" "H") with false. cbv iota.
      rewrite (M_bind_run_Ok _ _ _ _ _
                 (randrange_run (size b - len + 1) _ ltac:(lia))).
      rewrite (M_bind_run_Ok _ _ _ _ _ (randrange_run _ _ Hsize)).
      reflexivity. }
  rewrite (M_bind_run_Ok _ _ _ _ _ Hcells).
  assert (Hin : forall rc, rc ∈ cells_of h row col len -> in_grid (size b) rc).
  { intros rc Hrc%elem_of_cells_of. by eapply segment_in_grid. }
  destruct (all_free_in_grid _ _ _ Hshape Hin) as [free Hfree].
  unfold mbind at 1, M_mbind at 1, M_bind at 1. unfold lift at 1.
  rewrite Hfree. destruct free; last apply IH.
  destruct (stamp_spec (size b) (cells_of h row col len) ship_id (grid b)
              Hshape Hin) as (g' & Hstamp & _).
  unfold mbind at 1, M_mbind at 1, M_bind at 1. unfold lift at 1.
  by rewrite Hstamp.
Qed.

Lemma place_ships_no_raise fuel sizes :
  forall ship_id b w e,
    0 < size b -> Forall (fun len => len <= size b) sizes ->
    shape (size b) (grid b) ->
    place_ships fuel sizes ship_id b w <> Raise e.
Proof.
  induction sizes as [|len sizes IH]; intros ship_id b w e Hsize Hlens Hshape;
    first done.
  apply Forall_cons in Hlens as [Hlen Hlens].
  cbn [place_ships].
  destruct (place_ship fuel len ship_id b w) as [[b1 w1]|e1|] eqn:Hplace.
  - rewrite (M_bind_run_Ok _ _ _ _ _ Hplace).
    apply place_ship_spec in Hplace
      as (_ & _ & _ & _ & _ & _ & Hshape1 & Hsize1 & _); last done.
    apply IH; simpl; rewrite ?Hsize1; done.
  - by apply place_ship_no_raise in Hplace.
  - by rewrite (M_bind_run_Unfinished _ _ _ Hplace).
Qed.

(** X16. On a board of side five or more [place_ships_random] raises
    nothing, whatever the draws: every sampled run of cells lies inside
    the grid, so neither the test for free cells nor the stamping can fail.
    The call can only return or keep sampling. *)
Theorem place_ships_random_never_raises
    (fuel : nat) (b : Board) (w : World) (e : exn) :
  5 <= size b ->
  place_ships_random fuel b w <> Raise e.
Proof.
  intros Hsize. unfold place_ships_random.
  destruct (reset_board_shape b) as [Hg _].
  apply place_ships_no_raise; try done.
  - change (size (reset_board b)) with (size b). lia.
  - change (size (reset_board b)) with (size b).
    unfold SHIP_SIZES. repeat constructor; lia.
Qed.

Lemma place_ships_random_never_raises_witness :
  5 <= size Board_default /\
  place_ships_random 25 Board_default (const_world 0) <> Raise ValueError.
Proof.
  split; [discriminate|].
  apply place_ships_random_never_raises. discriminate.
Defined.

(** ** What a call spends *)

(** X17. What a resolved guess costs.  A call of [process_guess] that
    returns either found the cell shot, and then spent nothing, or ran one
    blind-and-reveal round: one draw from Python's generator, giving a
    blinding scalar between 1 and 100, then exactly four SEAL calls (encode
    the scalar, multiply, decrypt, decode) and none of SEAL's randomness.
    The arbiter never encrypts. *)
Theorem process_guess_cost
    (attacker d d' : Player) (x y : Z) (w w' : World) (hit : bool) :
  process_guess attacker d x y w = Ok ((hit, d'), w') ->
  (Py.getitem2 (hits (board d)) x y = Ok true /\ w' = w)
  \/
  (Py.getitem2 (hits (board d)) x y = Ok false /\
   exists r,
     1 <= r <= 100 /\
     seal_calls w'
     = [CallDecodeInt; CallDecrypt; CallMultiplyPlain; CallEncodeInt [r]]
       ++ seal_calls w /\
     encrypt_calls (seal_calls w') = encrypt_calls (seal_calls w) /\
     (forall n, py_random w' n = py_random w (S n)) /\
     (forall n, seal_random w' n = seal_random w n)).
Proof.
  intros [(Hh & _ & _ & ->)|(Hh & ct & m & h' & _ & _ & _ & _ & _ & _ & ->)]%process_guess_inv.
  - by left.
  - right. split; first done. exists (blind_scalar w).
    pose proof (Z.mod_pos_bound (py_random w 0%nat) 100 ltac:(lia)).
    unfold blind_scalar. split; first lia. done.
Qed.

Lemma process_guess_cost_witness :
  exists hit d' w',
    process_guess (sealed_player ToyExact fleet_board)
                  (sealed_player ToyExact demo_board) 0 1 (const_world 6)
      = Ok ((hit, d'), w') /\
    encrypt_calls (seal_calls w') = encrypt_calls (seal_calls (const_world 6)).
Proof.
  destruct (outcome_returns
              (process_guess (sealed_player ToyExact fleet_board)
                 (sealed_player ToyExact demo_board) 0 1 (const_world 6)))
    as [[[hit d'] w'] Hrun]; [vm_compute; reflexivity|].
  exists hit, d', w'. split; [exact Hrun|].
  destruct (process_guess_cost _ _ _ _ _ _ _ _ Hrun)
    as [(_ & ->)|(_ & r & _ & _ & Hcalls & _)]; [reflexivity|exact Hcalls].
Defined.








(** ** Which coordinates a shot accepts *)

Lemma py_index_ok_spec n i : py_index_ok n i = true <-> - n <= i < n.
Proof. unfold py_index_ok. rewrite andb_true_iff, Z.leb_le, Z.ltb_lt. lia. Qed.

Lemma norm_index_mod len i :
  - len <= i < len -> Py.norm_index len i = Py.norm_index len (i mod len).
Proof.
  intros Hi. destruct (Z.neg_nonneg_cases i) as [Hneg|Hpos].
  - assert (Hmod : i mod len = len + i).
    { symmetry. apply (Z.mod_unique_pos _ _ (-1)); lia. }
    rewrite Hmod. rewrite (norm_index_in_range len (len + i)) by lia.
    unfold Py.norm_index.
    destruct (Z.leb_spec 0 i), (Z.ltb_spec i 0), (Z.leb_spec (- len) i);
      simpl; first [done | lia].
  - by rewrite Z.mod_small by lia.
Qed.

Lemma norm_index_out len i :
  ~ (- len <= i < len) -> Py.norm_index len i = None.
Proof.
  intros Hi. unfold Py.norm_index.
  destruct (Z.leb_spec 0 i), (Z.ltb_spec i len), (Z.ltb_spec i 0),
    (Z.leb_spec (- len) i); simpl; first [done | lia].
Qed.

Lemma getitem_mod {A} (l : list A) n i :
  Z.of_nat (length l) = n -> - n <= i < n ->
  Py.getitem l i = Py.getitem l (i mod n) /\
  forall a, Py.setitem l i a = Py.setitem l (i mod n) a.
Proof.
  intros Hlen Hi. unfold Py.getitem, Py.setitem. rewrite Hlen.
  by rewrite <- norm_index_mod.
Qed.

Lemma getitem_out {A} (l : list A) n i :
  Z.of_nat (length l) = n -> ~ (- n <= i < n) ->
  Py.getitem l i = Raise IndexError.
Proof.
  intros Hlen Hi. unfold Py.getitem. rewrite Hlen.
  by rewrite norm_index_out.
Qed.

Lemma shape_row {A} n (g : list (list A)) x row :
  0 <= n -> shape n g -> Py.getitem g x = Ok row -> Z.of_nat (length row) = n.
Proof.
  intros Hn [_ Hrows] (k & _ & Hk)%getitem_Ok.
  rewrite (proj1 (Forall_lookup _ _) Hrows _ _ Hk). lia.
Qed.

Lemma getitem2_mod {A} n (g : list (list A)) x y :
  0 <= n -> shape n g -> - n <= x < n -> - n <= y < n ->
  Py.getitem2 g x y = Py.getitem2 g (x mod n) (y mod n) /\
  forall a, Py.setitem2 g x y a = Py.setitem2 g (x mod n) (y mod n) a.
Proof.
  intros Hn Hshape Hx Hy.
  assert (Hlen : Z.of_nat (length g) = n) by (destruct Hshape as [-> _]; lia).
  destruct (getitem_mod g n x Hlen Hx) as [Hget Hset].
  unfold Py.getitem2, Py.setitem2, mbind, outcome_mbind, outcome_bind.
  rewrite <- Hget.
  destruct (Py.getitem g x) as [row| |] eqn:Hrow; try done.
  pose proof (shape_row n g x row Hn Hshape Hrow) as Hlrow.
  destruct (getitem_mod row n y Hlrow Hy) as [Hget' Hset'].
  split; first done. intros a. rewrite <- Hset'.
  destruct (Py.setitem row y a); first [done | apply Hset].
Qed.

Lemma getitem2_out {A} n (g : list (list A)) x y :
  0 <= n -> shape n g -> ~ (- n <= x < n /\ - n <= y < n) ->
  Py.getitem2 g x y = Raise IndexError.
Proof.
  intros Hn Hshape Hout.
  assert (Hlen : Z.of_nat (length g) = n) by (destruct Hshape as [-> _]; lia).
  unfold Py.getitem2, mbind, outcome_mbind, outcome_bind.
  destruct (Py.getitem g x) as [row|e|] eqn:Hrow.
  - pose proof (shape_row n g x row Hn Hshape Hrow) as Hlrow.
    apply (getitem_out row n); first done. intros Hy. apply Hout.
    split; last done.
    destruct (decide (- n <= x < n)) as [Hx|Hx]; first done.
    by rewrite (getitem_out g n x Hlen Hx) in Hrow.
  - by apply getitem_raises in Hrow as ->.
  - by apply getitem_finished in Hrow.
Qed.

(** X19. Which coordinates [register_shot] accepts on a square board of
    side [n]: exactly those with both indices in [-n .. n-1].  On them the
    call returns, and a negative index counts from the end, so the call
    does what the call with the indices reduced modulo [n] does; on every
    other coordinate it raises [IndexError]. *)
Theorem register_shot_indices (b : Board) (x y : Z) (hit : bool) :
  0 <= size b ->
  shape (size b) (hits b) ->
  if py_index_ok (size b) x && py_index_ok (size b) y then
    register_shot b x y hit
    = register_shot b (x mod size b) (y mod size b) hit /\
    exists r b', register_shot b x y hit = Ok (r, b')
  else register_shot b x y hit = Raise IndexError.
Proof.
  intros Hn Hshape.
  destruct (py_index_ok (size b) x && py_index_ok (size b) y) eqn:Hok.
  - apply andb_true_iff in Hok as [Hx%py_index_ok_spec Hy%py_index_ok_spec].
    destruct (getitem2_mod (size b) (hits b) x y Hn Hshape Hx Hy)
      as [Hget Hset].
    assert (Heq : register_shot b x y hit
                  = register_shot b (x mod size b) (y mod size b) hit).
    { unfold register_shot. unfold_bind. by rewrite Hget, Hset. }
    split; first done. rewrite Heq.
    assert (Hin : in_grid (size b) (x mod size b, y mod size b)).
    { split; simpl; apply Z.mod_pos_bound; lia. }
    destruct (getitem2_in_grid _ _ _ Hshape Hin) as (_ & h & _ & _ & _ & Hh).
    simpl in Hh. destruct h.
    + rewrite (register_shot_already _ _ _ _ Hh). eauto.
    + destruct (register_shot_fresh _ _ _ hit Hh) as (h' & _ & _ & ->). eauto.
  - unfold register_shot. unfold_bind.
    rewrite (getitem2_out (size b)); try done.
    intros [Hx%py_index_ok_spec Hy%py_index_ok_spec].
    by rewrite Hx, Hy in Hok.
Qed.

Lemma register_shot_indices_witness :
  register_shot demo_board (-1) (-10) true
  = register_shot demo_board ((-1) mod size demo_board)
      ((-10) mod size demo_board) true /\
  exists r b', register_shot demo_board (-1) (-10) true = Ok (r, b').
Proof.
  assert (Hshape : shape (size demo_board) (hits demo_board)).
  { split; [reflexivity|]. vm_compute. repeat constructor. }
  assert (Hsize : 0 <= size demo_board) by (vm_compute; discriminate).
  exact (register_shot_indices demo_board (-1) (-10) true Hsize Hshape).
Defined.
